(** * CAN / ISO-TP / UDS tester core: a shallow embedding

    The development follows the Python sources of the tool:
    - [core/can_interface.py]            (module [Can])
    - [isotp_protocol.py]                (module [IsoTp])
    - [uds_session_manager.py]           (module [Uds])
    - [core/command_project_manager.py]  (modules [Project] and [Executor])

    Conventions.  Python integers are [Z]; a [bytes] object is a list of
    integers, each in [0, 256) when it was built by Python's [bytes(...)]
    constructor (modelled by [bytes_of], which raises [ValueError]
    otherwise).  Wall-clock readings ([time.time()]) are passed in as an
    argument [now].  Durations are kept in milliseconds.  A Python method
    that mutates [self] becomes a function in the state-and-exception monad
    [M]: an exception leaves the mutations made so far in place, as in
    Python. *)

From Stdlib Require Import ZArith List Bool String Lia.
Import ListNotations.
Local Open Scope Z_scope.

(** * Part I: the embedding *)

(** ** Python preliminaries *)

Definition bytes := list Z.
Definition time := Z.

Inductive exn : Type :=
| IndexError
| ValueError
| TypeError
| KeyError
| ISOTPFrameError.

Inductive result (A : Type) : Type :=
| Ok (a : A)
| Raise (e : exn).
Arguments Ok {A} a.
Arguments Raise {A} e.

Definition rbind {A B : Type} (r : result A) (k : A -> result B) : result B :=
  match r with
  | Ok a => k a
  | Raise e => Raise e
  end.

Declare Scope result_scope.
Delimit Scope result_scope with res.
Notation "x <- r ;; k" := (rbind r (fun x => k))
  (at level 61, r at next level, right associativity) : result_scope.

(** [len(b)] *)
Definition len {A : Type} (l : list A) : Z := Z.of_nat (List.length l).

(** [b[i]] for a non-negative index; out of range raises [IndexError]. *)
Definition index (b : bytes) (i : nat) : result Z :=
  match nth_error b i with
  | Some x => Ok x
  | None => Raise IndexError
  end.

(** [b[lo:hi]] for non-negative bounds: Python clamps both to [len(b)]. *)
Definition slice {A : Type} (l : list A) (lo hi : Z) : list A :=
  firstn (Z.to_nat (hi - lo)) (skipn (Z.to_nat lo) l).

(** [b[lo:]] *)
Definition slice_from {A : Type} (l : list A) (lo : Z) : list A :=
  skipn (Z.to_nat lo) l.

Definition is_byte (x : Z) : bool := (0 <=? x) && (x <? 256).

(** [bytes([x1, ..., xn])]: every element must be in [range(256)]. *)
Definition bytes_of (xs : list Z) : result bytes :=
  if forallb is_byte xs then Ok xs else Raise ValueError.

(** ** [core/can_interface.py]: the CAN frame value type *)

Module Can.

Record CANFrame : Type := mkCANFrame {
  timestamp : time;
  arbitration_id : Z;
  data : bytes;
  is_extended_id : bool;
  is_remote_frame : bool;
  is_error_frame : bool;
  is_fd : bool;
  bitrate_switch : bool;
  error_state_indicator : bool;
  channel : Z;
  dlc : Z
}.

Definition set_dlc (f : CANFrame) (d : Z) : CANFrame :=
  {| timestamp := timestamp f;
     arbitration_id := arbitration_id f;
     data := data f;
     is_extended_id := is_extended_id f;
     is_remote_frame := is_remote_frame f;
     is_error_frame := is_error_frame f;
     is_fd := is_fd f;
     bitrate_switch := bitrate_switch f;
     error_state_indicator := error_state_indicator f;
     channel := channel f;
     dlc := d |}.

(** [CANFrame.__post_init__] *)
Definition __post_init__ (self : CANFrame) : CANFrame :=
  if dlc self =? 0 then set_dlc self (len (data self)) else self.

(** The dataclass constructor: the generated [__init__] stores the fields
    and then runs [__post_init__]. *)
Definition new (ts : time) (arb_id : Z) (d : bytes)
    (ext remote err fd brs esi : bool) (ch : Z) (dlc0 : Z) : CANFrame :=
  __post_init__ (mkCANFrame ts arb_id d ext remote err fd brs esi ch dlc0).

(** The keyword defaults of the dataclass. *)
Definition default_dlc : Z := 0.
Definition default_channel : Z := 0.

End Can.

(** ** [isotp_protocol.py]: the ISO-TP engine *)

Module IsoTp.

Inductive ISOTPFrameType : Type :=
| SINGLE_FRAME
| FIRST_FRAME
| CONSECUTIVE_FRAME
| FLOW_CONTROL_FRAME.

(** The [IntEnum] values. *)
Definition ISOTPFrameType_value (t : ISOTPFrameType) : Z :=
  match t with
  | SINGLE_FRAME => 0x00
  | FIRST_FRAME => 0x01
  | CONSECUTIVE_FRAME => 0x02
  | FLOW_CONTROL_FRAME => 0x03
  end.

Inductive ISOTPFlowStatus : Type :=
| CONTINUE
| WAIT
| OVERFLOW.

Definition ISOTPFlowStatus_value (s : ISOTPFlowStatus) : Z :=
  match s with
  | CONTINUE => 0x00
  | WAIT => 0x01
  | OVERFLOW => 0x02
  end.

(** [ISOTPFlowStatus(x)]: looking up an enum member by value raises
    [ValueError] when no member has that value. *)
Definition ISOTPFlowStatus_of (x : Z) : result ISOTPFlowStatus :=
  if x =? 0x00 then Ok CONTINUE
  else if x =? 0x01 then Ok WAIT
  else if x =? 0x02 then Ok OVERFLOW
  else Raise ValueError.

Inductive ISOTPAddressingMode : Type :=
| NORMAL
| EXTENDED
| MIXED.

Inductive ISOTPState : Type :=
| IDLE
| WAITING_FOR_FC
| TRANSMITTING
| RECEIVING
| TIMEOUT
| ERROR.

Definition ISOTPState_eqb (a b : ISOTPState) : bool :=
  match a, b with
  | IDLE, IDLE => true
  | WAITING_FOR_FC, WAITING_FOR_FC => true
  | TRANSMITTING, TRANSMITTING => true
  | RECEIVING, RECEIVING => true
  | TIMEOUT, TIMEOUT => true
  | ERROR, ERROR => true
  | _, _ => false
  end.

Module Config.

Record ISOTPConfig : Type := mkISOTPConfig {
  rx_id : Z;
  tx_id : Z;
  addressing_mode : ISOTPAddressingMode;
  frame_type : string;
  st_min : Z;
  block_size : Z;
  separation_time : Z;
  can_fd_enabled : bool;
  fd_baudrate_switch : bool;
  fd_bitrate_switch : bool;
  fd_dlc : Z;
  p2_timeout : Z;
  p2_extended : Z;
  p4_timeout : Z;
  max_frame_size : Z;
  max_consecutive_frames : Z;
  receive_timeout : Z;
  tx_padding : bool;
  tx_padding_value : Z
}.

(** The dataclass defaults. *)
Definition default : ISOTPConfig :=
  {| rx_id := 0x7E0;
     tx_id := 0x7E8;
     addressing_mode := NORMAL;
     frame_type := "standard";
     st_min := 0;
     block_size := 8;
     separation_time := 0;
     can_fd_enabled := false;
     fd_baudrate_switch := true;
     fd_bitrate_switch := true;
     fd_dlc := 64;
     p2_timeout := 50;
     p2_extended := 5000;
     p4_timeout := 5000;
     max_frame_size := 4095;
     max_consecutive_frames := 4096;
     receive_timeout := 1000;
     tx_padding := true;
     tx_padding_value := 0xCC |}.

End Config.
Import Config.

Module Frame.

Record ISOTPFrame : Type := mkISOTPFrame {
  frame_type : ISOTPFrameType;
  data : bytes;
  sequence_number : Z;
  flow_status : ISOTPFlowStatus;
  block_size : Z;
  st_min : Z
}.

End Frame.

(** The keyword defaults of [ISOTPFrame(...)]. *)
Definition frame_of (t : ISOTPFrameType) (d : bytes) : Frame.ISOTPFrame :=
  Frame.mkISOTPFrame t d 0 CONTINUE 0 0.

Definition _get_standard_dlc_table : list (Z * Z) :=
  [(0, 0); (1, 1); (2, 2); (3, 3); (4, 4); (5, 5); (6, 6); (7, 7); (8, 8)].

Definition _get_fd_dlc_table : list (Z * Z) :=
  [(0, 0); (1, 1); (2, 2); (3, 3); (4, 4); (5, 5); (6, 6); (7, 7); (8, 8);
   (9, 12); (10, 16); (11, 20); (12, 24); (13, 32); (14, 48); (15, 64)].

(** [max(dlc_table.keys())]; both tables are non-empty. *)
Definition max_key (dlc_table : list (Z * Z)) : Z :=
  match dlc_table with
  | [] => 0
  | (k, _) :: rest => fold_left Z.max (map fst rest) k
  end.

(** [_calculate_dlc]: the dictionary is walked in insertion order. *)
Definition _calculate_dlc (data_length : Z) (is_fd : bool)
    (dlc_table : list (Z * Z)) : Z :=
  match find (fun entry => data_length <=? snd entry) dlc_table with
  | Some (dlc, _) => dlc
  | None => max_key dlc_table
  end.

(** [encode_frame]: the [try ... except: log; raise] wrapper re-raises, so
    the body is the function. *)
Definition encode_frame (config : ISOTPConfig) (isotp_frame : Frame.ISOTPFrame)
    (is_fd : bool) : result (bytes * Z) :=
  (let max_payload := if is_fd then 64 else 8 in
   let dlc_table := if is_fd then _get_fd_dlc_table
                    else _get_standard_dlc_table in
   frame_data <-
     match Frame.frame_type isotp_frame with
     | SINGLE_FRAME =>
         let data_length := len (Frame.data isotp_frame) in
         if data_length <=? max_payload - 1 then
           let pci := Z.lor (Z.shiftl (ISOTPFrameType_value SINGLE_FRAME) 4)
                            data_length in
           hd <- bytes_of [pci] ;;
           Ok (hd ++ Frame.data isotp_frame)
         else if negb is_fd || (data_length >? 4095) then
           Raise ISOTPFrameError
         else
           let pci_byte1 :=
             Z.lor (Z.shiftl (ISOTPFrameType_value SINGLE_FRAME) 4) 0x00 in
           let pci_byte2 := Z.shiftr data_length 8 in
           let pci_byte3 := Z.land data_length 0xFF in
           hd <- bytes_of [pci_byte1; pci_byte2; pci_byte3] ;;
           Ok (hd ++ Frame.data isotp_frame)
     | FIRST_FRAME =>
         let data_length := len (Frame.data isotp_frame) in
         if data_length >? max_frame_size config then Raise ISOTPFrameError
         else if data_length <=? 0xFFF then
           let pci_byte1 :=
             Z.lor (Z.shiftl (ISOTPFrameType_value FIRST_FRAME) 4)
                   (Z.shiftr data_length 8) in
           let pci_byte2 := Z.land data_length 0xFF in
           hd <- bytes_of [pci_byte1; pci_byte2] ;;
           Ok (hd ++ Frame.data isotp_frame)
         else if negb is_fd then Raise ISOTPFrameError
         else
           let pci_byte1 :=
             Z.lor (Z.shiftl (ISOTPFrameType_value FIRST_FRAME) 4) 0x00 in
           let pci_byte2 := Z.shiftr data_length 8 in
           let pci_byte3 := Z.land data_length 0xFF in
           hd <- bytes_of [pci_byte1; pci_byte2; pci_byte3] ;;
           Ok (hd ++ Frame.data isotp_frame)
     | CONSECUTIVE_FRAME =>
         let sequence_number :=
           Z.land (Frame.sequence_number isotp_frame) 0x0F in
         let pci :=
           Z.lor (Z.shiftl (ISOTPFrameType_value CONSECUTIVE_FRAME) 4)
                 sequence_number in
         hd <- bytes_of [pci] ;;
         Ok (hd ++ Frame.data isotp_frame)
     | FLOW_CONTROL_FRAME =>
         let pci :=
           Z.lor (Z.shiftl (ISOTPFrameType_value FLOW_CONTROL_FRAME) 4)
                 (ISOTPFlowStatus_value (Frame.flow_status isotp_frame)) in
         bytes_of [pci; Frame.block_size isotp_frame;
                   Frame.st_min isotp_frame]
     end ;;
   frame_data <-
     (if tx_padding config && (len frame_data <? max_payload) then
        padding <- bytes_of (repeat (tx_padding_value config)
                               (Z.to_nat (max_payload - len frame_data))) ;;
        Ok (frame_data ++ padding)
      else Ok frame_data) ;;
   let dlc := _calculate_dlc (len frame_data) is_fd dlc_table in
   Ok (frame_data, dlc))%res.

(** The body of [decode_frame], inside its [try]. *)
Definition decode_frame_body (can_data : bytes) (is_fd : bool)
    : result (option Frame.ISOTPFrame) :=
  (match can_data with
   | [] => Ok None
   | _ :: _ =>
       pci_byte <- index can_data 0 ;;
       let frame_type := Z.land (Z.shiftr pci_byte 4) 0x0F in
       let pci_low := Z.land pci_byte 0x0F in
       if frame_type =? ISOTPFrameType_value SINGLE_FRAME then
         if pci_low =? 0x00 then
           if len can_data <? 3 then Ok None
           else
             b1 <- index can_data 1 ;;
             b2 <- index can_data 2 ;;
             let data_length := Z.lor (Z.shiftl b1 8) b2 in
             Ok (Some (frame_of SINGLE_FRAME
                         (slice can_data 3 (3 + data_length))))
         else
           let data_length := pci_low in
           Ok (Some (frame_of SINGLE_FRAME
                       (slice can_data 1 (1 + data_length))))
       else if frame_type =? ISOTPFrameType_value FIRST_FRAME then
         if pci_low =? 0x00 then
           if len can_data <? 4 then Ok None
           else
             b1 <- index can_data 1 ;;
             b2 <- index can_data 2 ;;
             let data_length := Z.lor (Z.shiftl b1 8) b2 in
             Ok (Some (frame_of FIRST_FRAME (slice_from can_data 3)))
         else
           b1 <- index can_data 1 ;;
           let data_length := Z.lor (Z.shiftl (Z.land pci_low 0x0F) 8) b1 in
           Ok (Some (frame_of FIRST_FRAME (slice_from can_data 2)))
       else if frame_type =? ISOTPFrameType_value CONSECUTIVE_FRAME then
         let sequence_number := pci_low in
         Ok (Some (Frame.mkISOTPFrame CONSECUTIVE_FRAME
                     (slice_from can_data 1) sequence_number CONTINUE 0 0))
       else if frame_type =? ISOTPFrameType_value FLOW_CONTROL_FRAME then
         if len can_data <? 3 then Ok None
         else
           flow_status <- ISOTPFlowStatus_of pci_low ;;
           block_size <- index can_data 1 ;;
           st_min <- index can_data 2 ;;
           Ok (Some (Frame.mkISOTPFrame FLOW_CONTROL_FRAME []
                       0 flow_status block_size st_min))
       else Ok None
   end)%res.

(** [decode_frame]: [except Exception] logs and returns [None]. *)
Definition decode_frame (can_data : bytes) (is_fd : bool)
    : option Frame.ISOTPFrame :=
  match decode_frame_body can_data is_fd with
  | Ok r => r
  | Raise _ => None
  end.

(** *** The protocol object *)

(** A registered callback is an opaque handle; calling it is recorded. *)
Definition handle := nat.

Inductive callback_call : Type :=
| TransmissionComplete (h : handle) (success : bool) (payload : bytes)
| ErrorReported (h : handle) (what : string).

Record TxState : Type := mkTxState {
  tx_buffer : bytes;
  tx_sequence : Z;
  tx_total_length : Z;
  tx_remaining : Z;
  tx_next_frame_index : Z;
  tx_block_counter : Z;
  tx_last_time : time
}.

Record RxState : Type := mkRxState {
  rx_buffer : bytes;
  rx_expected_length : Z;
  rx_sequence : Z;
  rx_next_sequence : Z;
  rx_block_counter : Z;
  rx_flow_status : ISOTPFlowStatus;
  rx_flow_st_min : Z;
  rx_flow_block_size : Z;
  rx_last_time : time
}.

(** The timer thread is represented by what it was started with. *)
Record TimerState : Type := mkTimerState {
  timer_start_time : time;
  timer_running : bool;
  timer_timeout : Z
}.

(** [tx_queue] and [rx_queue] are [queue.Queue] objects drained by other
    threads; [put] is the append below (the wait of [put] on a full queue
    of 1000 entries is not represented). *)
Record ISOTPProtocol : Type := mkISOTPProtocol {
  config : ISOTPConfig;
  state : ISOTPState;
  tx : TxState;
  rx : RxState;
  timer : TimerState;
  on_data_received : option handle;
  on_transmission_complete : option handle;
  on_error : option handle;
  rx_queue : list bytes;
  tx_queue : list Can.CANFrame;
  calls : list callback_call
}.

(** [ISOTPProtocol.__init__] *)
Definition init (config : ISOTPConfig) : ISOTPProtocol :=
  {| config := config;
     state := IDLE;
     tx := mkTxState [] 0 0 0 0 0 0;
     rx := mkRxState [] 0 0 1 0 CONTINUE 0 0 0;
     timer := mkTimerState 0 false 0;
     on_data_received := None;
     on_transmission_complete := None;
     on_error := None;
     rx_queue := [];
     tx_queue := [];
     calls := [] |}.

Definition set_state (s : ISOTPState) (p : ISOTPProtocol) : ISOTPProtocol :=
  mkISOTPProtocol (config p) s (tx p) (rx p) (timer p) (on_data_received p)
    (on_transmission_complete p) (on_error p) (rx_queue p) (tx_queue p)
    (calls p).

Definition set_tx (t : TxState) (p : ISOTPProtocol) : ISOTPProtocol :=
  mkISOTPProtocol (config p) (state p) t (rx p) (timer p) (on_data_received p)
    (on_transmission_complete p) (on_error p) (rx_queue p) (tx_queue p)
    (calls p).

Definition set_rx (r : RxState) (p : ISOTPProtocol) : ISOTPProtocol :=
  mkISOTPProtocol (config p) (state p) (tx p) r (timer p) (on_data_received p)
    (on_transmission_complete p) (on_error p) (rx_queue p) (tx_queue p)
    (calls p).

Definition set_timer (t : TimerState) (p : ISOTPProtocol) : ISOTPProtocol :=
  mkISOTPProtocol (config p) (state p) (tx p) (rx p) t (on_data_received p)
    (on_transmission_complete p) (on_error p) (rx_queue p) (tx_queue p)
    (calls p).

Definition set_on_transmission_complete (h : option handle)
    (p : ISOTPProtocol) : ISOTPProtocol :=
  mkISOTPProtocol (config p) (state p) (tx p) (rx p) (timer p)
    (on_data_received p) h (on_error p) (rx_queue p) (tx_queue p) (calls p).

Definition set_rx_queue (q : list bytes) (p : ISOTPProtocol) : ISOTPProtocol :=
  mkISOTPProtocol (config p) (state p) (tx p) (rx p) (timer p)
    (on_data_received p) (on_transmission_complete p) (on_error p) q
    (tx_queue p) (calls p).

Definition set_tx_queue (q : list Can.CANFrame) (p : ISOTPProtocol)
    : ISOTPProtocol :=
  mkISOTPProtocol (config p) (state p) (tx p) (rx p) (timer p)
    (on_data_received p) (on_transmission_complete p) (on_error p)
    (rx_queue p) q (calls p).

Definition set_calls (c : list callback_call) (p : ISOTPProtocol)
    : ISOTPProtocol :=
  mkISOTPProtocol (config p) (state p) (tx p) (rx p) (timer p)
    (on_data_received p) (on_transmission_complete p) (on_error p)
    (rx_queue p) (tx_queue p) c.

Definition set_tx_buffer (b : bytes) (t : TxState) : TxState :=
  mkTxState b (tx_sequence t) (tx_total_length t) (tx_remaining t)
    (tx_next_frame_index t) (tx_block_counter t) (tx_last_time t).

Definition set_tx_sequence (v : Z) (t : TxState) : TxState :=
  mkTxState (tx_buffer t) v (tx_total_length t) (tx_remaining t)
    (tx_next_frame_index t) (tx_block_counter t) (tx_last_time t).

Definition set_tx_total_length (v : Z) (t : TxState) : TxState :=
  mkTxState (tx_buffer t) (tx_sequence t) v (tx_remaining t)
    (tx_next_frame_index t) (tx_block_counter t) (tx_last_time t).

Definition set_tx_remaining (v : Z) (t : TxState) : TxState :=
  mkTxState (tx_buffer t) (tx_sequence t) (tx_total_length t) v
    (tx_next_frame_index t) (tx_block_counter t) (tx_last_time t).

Definition set_tx_next_frame_index (v : Z) (t : TxState) : TxState :=
  mkTxState (tx_buffer t) (tx_sequence t) (tx_total_length t) (tx_remaining t)
    v (tx_block_counter t) (tx_last_time t).

Definition set_tx_block_counter (v : Z) (t : TxState) : TxState :=
  mkTxState (tx_buffer t) (tx_sequence t) (tx_total_length t) (tx_remaining t)
    (tx_next_frame_index t) v (tx_last_time t).

Definition set_tx_last_time (v : time) (t : TxState) : TxState :=
  mkTxState (tx_buffer t) (tx_sequence t) (tx_total_length t) (tx_remaining t)
    (tx_next_frame_index t) (tx_block_counter t) v.

(** *** The state-and-exception monad of the methods *)

Definition M (A : Type) : Type := ISOTPProtocol -> result A * ISOTPProtocol.

Definition ret {A : Type} (a : A) : M A := fun self => (Ok a, self).

Definition raise {A : Type} (e : exn) : M A := fun self => (Raise e, self).

Definition bind {A B : Type} (m : M A) (k : A -> M B) : M B :=
  fun self =>
    match m self with
    | (Ok a, self') => k a self'
    | (Raise e, self') => (Raise e, self')
    end.

Definition get : M ISOTPProtocol := fun self => (Ok self, self).

Definition modify (f : ISOTPProtocol -> ISOTPProtocol) : M unit :=
  fun self => (Ok tt, f self).

(** A pure computation that may raise, run inside a method. *)
Definition lift {A : Type} (r : result A) : M A := fun self => (r, self).

(** [try: body except Exception: handler] *)
Definition try_except {A : Type} (body : M A) (handler : M A) : M A :=
  fun self =>
    match body self with
    | (Ok a, self') => (Ok a, self')
    | (Raise _, self') => handler self'
    end.

Declare Scope isotp_scope.
Delimit Scope isotp_scope with isotp.
Notation "x <- m ;; k" := (bind m (fun x => k))
  (at level 61, m at next level, right associativity) : isotp_scope.
Notation "m ;; k" := (bind m (fun _ => k))
  (at level 61, right associativity) : isotp_scope.

Definition modify_tx (f : TxState -> TxState) : M unit :=
  modify (fun self => set_tx (f (tx self)) self).

Definition modify_rx (f : RxState -> RxState) : M unit :=
  modify (fun self => set_rx (f (rx self)) self).

(** [self.tx_queue.put(can_frame)] *)
Definition tx_queue_put (f : Can.CANFrame) : M unit :=
  modify (fun self => set_tx_queue (tx_queue self ++ [f]) self).

(** [self.rx_queue.put(data)] *)
Definition rx_queue_put (d : bytes) : M unit :=
  modify (fun self => set_rx_queue (rx_queue self ++ [d]) self).

(** [if self.on_transmission_complete: self.on_transmission_complete(ok, d)] *)
Definition call_on_transmission_complete (ok : bool) (d : bytes) : M unit :=
  modify (fun self =>
    match on_transmission_complete self with
    | Some h => set_calls (calls self ++ [TransmissionComplete h ok d]) self
    | None => self
    end).

(** [if self.on_error: self.on_error(message)] *)
Definition call_on_error (what : string) : M unit :=
  modify (fun self =>
    match on_error self with
    | Some h => set_calls (calls self ++ [ErrorReported h what]) self
    | None => self
    end).

(** [stop_timer] *)
Definition stop_timer : M unit :=
  modify (fun self =>
    set_timer (mkTimerState (timer_start_time (timer self)) false
                 (timer_timeout (timer self))) self).

(** [start_timer(timeout)]; [timeout] is kept in milliseconds. *)
Definition start_timer (timeout : Z) (now : time) : M unit :=
  (self <- get ;;
   (if timer_running (timer self) then stop_timer else ret tt) ;;
   modify (set_timer (mkTimerState now true timeout)))%isotp.

(** The [CANFrame(...)] built by every [_send_*] method. *)
Definition outgoing_frame (config : ISOTPConfig) (now : time)
    (frame_data : bytes) (dlc : Z) : Can.CANFrame :=
  Can.new now (tx_id config) frame_data
    (String.eqb (Config.frame_type config) "extended")
    false false (can_fd_enabled config) false false
    Can.default_channel dlc.

Definition set_rx_buffer (b : bytes) (r : RxState) : RxState :=
  mkRxState b (rx_expected_length r) (rx_sequence r) (rx_next_sequence r)
    (rx_block_counter r) (rx_flow_status r) (rx_flow_st_min r)
    (rx_flow_block_size r) (rx_last_time r).

Definition set_rx_expected_length (v : Z) (r : RxState) : RxState :=
  mkRxState (rx_buffer r) v (rx_sequence r) (rx_next_sequence r)
    (rx_block_counter r) (rx_flow_status r) (rx_flow_st_min r)
    (rx_flow_block_size r) (rx_last_time r).

Definition set_rx_sequence (v : Z) (r : RxState) : RxState :=
  mkRxState (rx_buffer r) (rx_expected_length r) v (rx_next_sequence r)
    (rx_block_counter r) (rx_flow_status r) (rx_flow_st_min r)
    (rx_flow_block_size r) (rx_last_time r).

Definition set_rx_next_sequence (v : Z) (r : RxState) : RxState :=
  mkRxState (rx_buffer r) (rx_expected_length r) (rx_sequence r) v
    (rx_block_counter r) (rx_flow_status r) (rx_flow_st_min r)
    (rx_flow_block_size r) (rx_last_time r).

Definition set_rx_block_counter (v : Z) (r : RxState) : RxState :=
  mkRxState (rx_buffer r) (rx_expected_length r) (rx_sequence r)
    (rx_next_sequence r) v (rx_flow_status r) (rx_flow_st_min r)
    (rx_flow_block_size r) (rx_last_time r).

Definition set_rx_flow_st_min (v : Z) (r : RxState) : RxState :=
  mkRxState (rx_buffer r) (rx_expected_length r) (rx_sequence r)
    (rx_next_sequence r) (rx_block_counter r) (rx_flow_status r) v
    (rx_flow_block_size r) (rx_last_time r).

Definition set_rx_flow_block_size (v : Z) (r : RxState) : RxState :=
  mkRxState (rx_buffer r) (rx_expected_length r) (rx_sequence r)
    (rx_next_sequence r) (rx_block_counter r) (rx_flow_status r)
    (rx_flow_st_min r) v (rx_last_time r).

Definition set_rx_last_time (v : time) (r : RxState) : RxState :=
  mkRxState (rx_buffer r) (rx_expected_length r) (rx_sequence r)
    (rx_next_sequence r) (rx_block_counter r) (rx_flow_status r)
    (rx_flow_st_min r) (rx_flow_block_size r) v.

(** *** Sending *)

(** [_send_single_frame]: the frame is encoded before the [try]. *)
Definition _send_single_frame (data : bytes) (now : time) : M unit :=
  (self <- get ;;
   let isotp_frame := frame_of SINGLE_FRAME data in
   enc <- lift (encode_frame (config self) isotp_frame
                  (can_fd_enabled (config self))) ;;
   try_except
     (tx_queue_put (outgoing_frame (config self) now (fst enc) (snd enc)) ;;
      modify (set_state IDLE) ;;
      modify_tx (set_tx_buffer []) ;;
      modify_tx (set_tx_total_length 0) ;;
      stop_timer ;;
      call_on_transmission_complete true data)
     (modify (set_state ERROR) ;;
      call_on_error "Send error"))%isotp.

(** [_send_first_frame] *)
Definition _send_first_frame (data : bytes) (now : time) : M unit :=
  (self <- get ;;
   let max_payload := if can_fd_enabled (config self) then 64 else 6 in
   let first_frame_data := slice data 0 max_payload in
   let isotp_frame := frame_of FIRST_FRAME first_frame_data in
   enc <- lift (encode_frame (config self) isotp_frame
                  (can_fd_enabled (config self))) ;;
   try_except
     (tx_queue_put (outgoing_frame (config self) now (fst enc) (snd enc)) ;;
      modify_tx (set_tx_next_frame_index (len first_frame_data)) ;;
      modify_tx (fun t =>
        set_tx_remaining (tx_remaining t - len first_frame_data) t))
     (modify (set_state ERROR) ;;
      call_on_error "Send error"))%isotp.

(** [_send_consecutive_frame] *)
Definition _send_consecutive_frame (now : time) : M unit :=
  (self <- get ;;
   if tx_remaining (tx self) <=? 0 then ret tt
   else
     let max_payload := if can_fd_enabled (config self) then 64 else 7 in
     let start := tx_next_frame_index (tx self) in
     let end_ := Z.min (start + max_payload) (tx_total_length (tx self)) in
     let frame_data := slice (tx_buffer (tx self)) start end_ in
     let isotp_frame :=
       Frame.mkISOTPFrame CONSECUTIVE_FRAME frame_data
         (tx_sequence (tx self)) CONTINUE 0 0 in
     enc <- lift (encode_frame (config self) isotp_frame
                    (can_fd_enabled (config self))) ;;
     try_except
       (tx_queue_put (outgoing_frame (config self) now (fst enc) (snd enc)) ;;
        modify_tx (set_tx_next_frame_index end_) ;;
        modify_tx (fun t =>
          set_tx_remaining (tx_remaining t - len frame_data) t) ;;
        modify_tx (fun t =>
          set_tx_sequence (Z.land (tx_sequence t + 1) 0x0F) t) ;;
        modify_tx (fun t =>
          set_tx_block_counter (tx_block_counter t + 1) t) ;;
        modify_tx (set_tx_last_time now) ;;
        self' <- get ;;
        if tx_remaining (tx self') <=? 0 then
          modify (set_state IDLE) ;;
          modify_tx (set_tx_buffer []) ;;
          modify_tx (set_tx_total_length 0) ;;
          stop_timer ;;
          cleared <- get ;;
          call_on_transmission_complete true (tx_buffer (tx cleared))
        else ret tt)
       (modify (set_state ERROR) ;;
        call_on_error "Send error"))%isotp.

(** [_send_flow_control_frame] *)
Definition _send_flow_control_frame (status : ISOTPFlowStatus)
    (block_size st_min : Z) (now : time) : M unit :=
  (self <- get ;;
   let isotp_frame :=
     Frame.mkISOTPFrame FLOW_CONTROL_FRAME [] 0 status block_size st_min in
   enc <- lift (encode_frame (config self) isotp_frame
                  (can_fd_enabled (config self))) ;;
   try_except
     (tx_queue_put (outgoing_frame (config self) now (fst enc) (snd enc)))
     (ret tt))%isotp.

(** [send_data] *)
Definition send_data (data : bytes) (callback : option handle) (now : time)
    : M bool :=
  (self <- get ;;
   if negb (ISOTPState_eqb (state self) IDLE) then ret false
   else if len data >? max_frame_size (config self) then ret false
   else
     modify_tx (fun _ => mkTxState data 0 (len data) (len data) 0 0 now) ;;
     match callback with
     | Some h => modify (set_on_transmission_complete (Some h))
     | None => ret tt
     end ;;
     let max_payload := if can_fd_enabled (config self) then 64 else 7 in
     (if len data <=? max_payload then
        modify (set_state TRANSMITTING) ;;
        _send_single_frame data now
      else
        modify (set_state WAITING_FOR_FC) ;;
        _send_first_frame data now) ;;
     start_timer (p2_timeout (config self)) now ;;
     ret true)%isotp.

(** *** Receiving *)

(** [_process_single_frame] *)
Definition _process_single_frame (isotp_frame : Frame.ISOTPFrame) : M bool :=
  try_except
    (rx_queue_put (Frame.data isotp_frame) ;; ret true)%isotp
    (ret false).

(** [_process_first_frame] *)
Definition _process_first_frame (isotp_frame : Frame.ISOTPFrame) (now : time)
    : M bool :=
  try_except
    (self <- get ;;
     if negb (ISOTPState_eqb (state self) IDLE) then ret false
     else if len (Frame.data isotp_frame) >=? 2 then
       let length_bytes := slice (Frame.data isotp_frame) 0 2 in
       b0 <- lift (index length_bytes 0) ;;
       b1 <- lift (index length_bytes 1) ;;
       modify_rx (set_rx_expected_length (Z.lor (Z.shiftl b0 8) b1)) ;;
       modify_rx (set_rx_buffer (slice_from (Frame.data isotp_frame) 2)) ;;
       modify (set_state RECEIVING) ;;
       modify_rx (set_rx_sequence 0) ;;
       modify_rx (set_rx_next_sequence 1) ;;
       modify_rx (set_rx_block_counter 0) ;;
       modify_rx (set_rx_last_time now) ;;
       _send_flow_control_frame CONTINUE (Config.block_size (config self))
         (Config.st_min (config self)) now ;;
       start_timer (p4_timeout (config self)) now ;;
       ret true
     else ret false)%isotp
    (modify (set_state ERROR) ;; ret false)%isotp.

(** [_process_consecutive_frame] *)
Definition _process_consecutive_frame (isotp_frame : Frame.ISOTPFrame)
    (now : time) : M bool :=
  try_except
    (self <- get ;;
     if negb (ISOTPState_eqb (state self) RECEIVING) then ret false
     else
       let expected_sequence := Z.land (rx_next_sequence (rx self)) 0x0F in
       if negb (Frame.sequence_number isotp_frame =? expected_sequence) then
         modify (set_state ERROR) ;;
         ret false
       else
         modify_rx (fun r =>
           set_rx_buffer (rx_buffer r ++ Frame.data isotp_frame) r) ;;
         modify_rx (set_rx_sequence (Frame.sequence_number isotp_frame)) ;;
         modify_rx (fun r =>
           set_rx_next_sequence (Z.land (rx_next_sequence r + 1) 0x0F) r) ;;
         modify_rx (fun r =>
           set_rx_block_counter (rx_block_counter r + 1) r) ;;
         modify_rx (set_rx_last_time now) ;;
         self' <- get ;;
         (if len (rx_buffer (rx self')) >=? rx_expected_length (rx self') then
            let received_data :=
              slice (rx_buffer (rx self')) 0 (rx_expected_length (rx self')) in
            rx_queue_put received_data ;;
            modify (set_state IDLE) ;;
            modify_rx (set_rx_buffer []) ;;
            modify_rx (set_rx_expected_length 0) ;;
            stop_timer
          else if (rx_block_counter (rx self')
                     >=? rx_flow_block_size (rx self'))
                  && (rx_flow_block_size (rx self') >? 0) then
            _send_flow_control_frame CONTINUE
              (Config.block_size (config self'))
              (Config.st_min (config self')) now ;;
            modify_rx (set_rx_block_counter 0)
          else ret tt) ;;
         ret true)%isotp
    (modify (set_state ERROR) ;; ret false)%isotp.

(** The [for _ in range(n)] loop of [_process_flow_control_frame]. *)
Fixpoint send_block (n : nat) (now : time) : M unit :=
  match n with
  | O => ret tt
  | S n' =>
      (self <- get ;;
       if tx_remaining (tx self) >? 0 then
         _send_consecutive_frame now ;;
         send_block n' now
       else ret tt)%isotp
  end.

(** [_process_flow_control_frame] *)
Definition _process_flow_control_frame (isotp_frame : Frame.ISOTPFrame)
    (now : time) : M bool :=
  try_except
    (self <- get ;;
     if negb (ISOTPState_eqb (state self) WAITING_FOR_FC) then ret false
     else
       match Frame.flow_status isotp_frame with
       | CONTINUE =>
           modify (set_state TRANSMITTING) ;;
           modify_rx (set_rx_flow_block_size (Frame.block_size isotp_frame)) ;;
           modify_rx (set_rx_flow_st_min (Frame.st_min isotp_frame)) ;;
           modify_tx (set_tx_block_counter 0) ;;
           send_block
             (Z.to_nat (Z.min (Frame.block_size isotp_frame)
                          (tx_remaining (tx self)))) now ;;
           start_timer (p2_timeout (config self)) now ;;
           ret true
       | WAIT =>
           modify (set_state WAITING_FOR_FC) ;;
           start_timer (p2_extended (config self)) now ;;
           ret true
       | OVERFLOW =>
           modify (set_state ERROR) ;;
           call_on_error "Flow control overflow" ;;
           ret false
       end)%isotp
    (modify (set_state ERROR) ;; ret false)%isotp.

(** [process_can_frame] *)
Definition process_can_frame (can_frame : Can.CANFrame) (now : time)
    : M bool :=
  try_except
    (self <- get ;;
     if negb (Can.arbitration_id can_frame =? rx_id (config self)) then
       ret false
     else
       match decode_frame (Can.data can_frame) (Can.is_fd can_frame) with
       | None => ret false
       | Some isotp_frame =>
           match Frame.frame_type isotp_frame with
           | SINGLE_FRAME => _process_single_frame isotp_frame
           | FIRST_FRAME => _process_first_frame isotp_frame now
           | CONSECUTIVE_FRAME => _process_consecutive_frame isotp_frame now
           | FLOW_CONTROL_FRAME => _process_flow_control_frame isotp_frame now
           end
       end)%isotp
    (call_on_error "Frame processing error" ;; ret false)%isotp.

(** A configuration under which padding cannot fail: padding is off, or the
    padding value fits in a byte. *)
Definition padding_ok (config : ISOTPConfig) : bool :=
  negb (tx_padding config) || is_byte (tx_padding_value config).

End IsoTp.

(** ** [uds_session_manager.py]: the UDS session engine *)

Module Uds.

Inductive UDSResponseCode : Type :=
| POSITIVE_RESPONSE
| NEGATIVE_RESPONSE.

Definition UDSResponseCode_value (c : UDSResponseCode) : Z :=
  match c with
  | POSITIVE_RESPONSE => 0x40
  | NEGATIVE_RESPONSE => 0x7F
  end.

(** The values of the members of [UDSNegativeResponseCode]. *)
Definition UDSNegativeResponseCode_values : list Z :=
  [0x10; 0x11; 0x12; 0x13; 0x14; 0x21; 0x22; 0x24; 0x25; 0x26; 0x31; 0x33;
   0x35; 0x36; 0x37; 0x70; 0x71; 0x72; 0x73; 0x78; 0x7E; 0x7F; 0x81; 0x82;
   0x83; 0x84; 0x85; 0x86; 0x87; 0x88; 0x89; 0x8A; 0x8B; 0x8C; 0x8D; 0x8F;
   0x90; 0x91; 0x92; 0x93; 0x94].

Definition REQUEST_CORRECTLY_RECEIVED_RESPONSE_PENDING : Z := 0x78.

(** [UDSNegativeResponseCode(x)]: [ValueError] when no member has value
    [x]; a member is represented by its value. *)
Definition UDSNegativeResponseCode_of (x : Z) : result Z :=
  if existsb (Z.eqb x) UDSNegativeResponseCode_values then Ok x
  else Raise ValueError.

Module Request.

Record UDSRequest : Type := mkUDSRequest {
  service_id : Z;
  data : bytes;
  subfunction : option Z;
  timeout : Z;
  expect_response : bool
}.

(** [UDSRequest.encode] *)
Definition encode (self : UDSRequest) : result bytes :=
  (match subfunction self with
   | Some sf =>
       hd <- bytes_of [service_id self; sf] ;;
       Ok (hd ++ data self)
   | None =>
       hd <- bytes_of [service_id self] ;;
       Ok (hd ++ data self)
   end)%res.

End Request.

Module Response.

Record UDSResponse : Type := mkUDSResponse {
  service_id : Z;
  data : bytes;
  subfunction : option Z;
  response_code : UDSResponseCode;
  negative_response_code : option Z;
  timestamp : time;
  request : option Request.UDSRequest
}.

Definition is_positive (self : UDSResponse) : bool :=
  match response_code self with
  | POSITIVE_RESPONSE => true
  | NEGATIVE_RESPONSE => false
  end.

Definition is_negative (self : UDSResponse) : bool :=
  match response_code self with
  | POSITIVE_RESPONSE => false
  | NEGATIVE_RESPONSE => true
  end.

(** [response.request = request] *)
Definition set_request (r : Request.UDSRequest) (self : UDSResponse)
    : UDSResponse :=
  mkUDSResponse (service_id self) (data self) (subfunction self)
    (response_code self) (negative_response_code self) (timestamp self)
    (Some r).

End Response.

(** What the logger is handed: level and the fixed part of the message. *)
Inductive log_record : Type :=
| LogDebug (what : string)
| LogWarning (what : string)
| LogError (what : string).

(** The closure [response_callback] that [send_request] registers.  It
    owns the list [response_data] and the event [response_received], and
    remembers the service identifier of its request. *)
Record Waiter : Type := mkWaiter {
  wanted : Z;
  response_data : list Response.UDSResponse;
  response_received : bool
}.

(** Calling the closure. *)
Definition response_callback (response : Response.UDSResponse) (w : Waiter)
    : Waiter :=
  if Response.service_id response =? wanted w then
    mkWaiter (wanted w) (response_data w ++ [response]) true
  else w.

(** The Python dictionary [response_callbacks], keyed by service id. *)
Definition callbacks := list (Z * Waiter).

Fixpoint dict_get (k : Z) (d : callbacks) : option Waiter :=
  match d with
  | [] => None
  | (k', w) :: rest => if k' =? k then Some w else dict_get k rest
  end.

Fixpoint dict_del (k : Z) (d : callbacks) : callbacks :=
  match d with
  | [] => []
  | (k', w) :: rest =>
      if k' =? k then dict_del k rest else (k', w) :: dict_del k rest
  end.

Definition dict_set (k : Z) (w : Waiter) (d : callbacks) : callbacks :=
  (k, w) :: dict_del k d.

(** The session manager.  [isotp] is what
    [isotp_manager.get_protocol(protocol_id)] finds; [response_queue] is a
    [queue.Queue] ([put] is the append below); [log] collects what the
    methods hand to the logger. *)
Record UDSSessionManager : Type := mkUDSSessionManager {
  isotp : option IsoTp.ISOTPProtocol;
  response_queue : list Response.UDSResponse;
  response_callbacks : callbacks;
  response_timeout : Z;
  log : list log_record
}.

(** [UDSSessionManager.__init__] over a manager holding [p] under the
    protocol id. *)
Definition init (p : option IsoTp.ISOTPProtocol) : UDSSessionManager :=
  mkUDSSessionManager p [] [] 2000 [].

Definition set_isotp (p : option IsoTp.ISOTPProtocol)
    (self : UDSSessionManager) : UDSSessionManager :=
  mkUDSSessionManager p (response_queue self) (response_callbacks self)
    (response_timeout self) (log self).

Definition set_response_queue (q : list Response.UDSResponse)
    (self : UDSSessionManager) : UDSSessionManager :=
  mkUDSSessionManager (isotp self) q (response_callbacks self)
    (response_timeout self) (log self).

Definition set_response_callbacks (d : callbacks) (self : UDSSessionManager)
    : UDSSessionManager :=
  mkUDSSessionManager (isotp self) (response_queue self) d
    (response_timeout self) (log self).

Definition logger (r : log_record) (self : UDSSessionManager)
    : UDSSessionManager :=
  mkUDSSessionManager (isotp self) (response_queue self)
    (response_callbacks self) (response_timeout self) (log self ++ [r]).

(** The outcome of the [if / elif / else] chain in [_process_response]. *)
Inductive classification : Type :=
| Empty
| Invalid
| Classified (service_id : Z) (response : Response.UDSResponse)
    (note : log_record).

(** The chain itself: everything in [_process_response] up to the point
    where [response] and [service_id] are bound or the method returns. *)
Definition classify (data : bytes) (now : time) : result classification :=
  (if len data <? 1 then Ok Empty
   else
     b0 <- index data 0 ;;
     if (b0 =? UDSResponseCode_value NEGATIVE_RESPONSE)
        && (len data >=? 3) then
       service_id <- index data 1 ;;
       b2 <- index data 2 ;;
       negative_response_code <- UDSNegativeResponseCode_of b2 ;;
       Ok (Classified service_id
             (Response.mkUDSResponse service_id
                (if len data >? 3 then slice_from data 3 else [])
                None NEGATIVE_RESPONSE (Some negative_response_code)
                now None)
             (LogWarning "Negative response"))
     else if (b0 =? UDSResponseCode_value POSITIVE_RESPONSE)
             && (len data >=? 1) then
       let service_id := b0 - UDSResponseCode_value POSITIVE_RESPONSE in
       let response_data := slice_from data 1 in
       Ok (Classified service_id
             (Response.mkUDSResponse service_id response_data None
                POSITIVE_RESPONSE None now None)
             (LogDebug "Positive response"))
     else Ok Invalid)%res.

(** [_process_response] *)
Definition _process_response (data : bytes) (now : time)
    (self : UDSSessionManager) : UDSSessionManager :=
  match classify data now with
  | Ok Empty => logger (LogWarning "Empty response data") self
  | Ok Invalid => logger (LogWarning "Invalid response format") self
  | Ok (Classified service_id response note) =>
      let self := logger note self in
      let self :=
        set_response_queue (response_queue self ++ [response]) self in
      match dict_get service_id (response_callbacks self) with
      | Some w =>
          set_response_callbacks
            (dict_set service_id (response_callback response w)
               (response_callbacks self)) self
      | None => self
      end
  | Raise _ => logger (LogError "Error processing response") self
  end.

(** A message handed over by ISO-TP to the response thread, with the time
    in milliseconds since the caller of [send_request] began to wait. *)
Record Arrival : Type := mkArrival {
  at_ms : Z;
  payload : bytes
}.

(** One turn of the loop in [_response_thread_func]: a message is handed
    to [_process_response] only [if data]. *)
Definition response_thread_step (data : bytes) (now : time)
    (self : UDSSessionManager) : UDSSessionManager :=
  match data with
  | [] => self
  | _ :: _ => _process_response data now self
  end.

(** [response_received.wait(timeout / 1000.0)] while the response thread
    runs: messages arriving before the timeout are processed in order
    until the event is set. *)
Fixpoint wait (sid : Z) (timeout : Z) (now : time) (arrivals : list Arrival)
    (self : UDSSessionManager) : bool * UDSSessionManager :=
  match dict_get sid (response_callbacks self) with
  | Some w =>
      if response_received w then (true, self)
      else
        match arrivals with
        | [] => (false, self)
        | a :: rest =>
            if at_ms a <? timeout then
              wait sid timeout now rest
                (response_thread_step (payload a) (now + at_ms a) self)
            else (false, self)
        end
  | None => (false, self)
  end.

(** The [finally] clause (and the clean-up on a failed send). *)
Definition cleanup (request : Request.UDSRequest) (self : UDSSessionManager)
    : UDSSessionManager :=
  if Request.expect_response request then
    set_response_callbacks
      (dict_del (Request.service_id request) (response_callbacks self)) self
  else self.

(** [self.isotp_manager.send_data(self.protocol_id, request_data,
    callback=None)] *)
Definition isotp_send (request_data : bytes) (now : time)
    (self : UDSSessionManager) : result bool * UDSSessionManager :=
  match isotp self with
  | None => (Ok false, self)
  | Some p =>
      let r := IsoTp.send_data request_data None now p in
      (fst r, set_isotp (Some (snd r)) self)
  end.

(** The first statement of [send_request]:
    [if timeout is None: timeout = request.timeout if request.timeout else
    self.response_timeout]. *)
Definition effective_timeout (request : Request.UDSRequest)
    (timeout : option Z) (self : UDSSessionManager) : Z :=
  match timeout with
  | Some t => t
  | None =>
      if Request.timeout request =? 0 then response_timeout self
      else Request.timeout request
  end.

(** [send_request].  [timeout = None] stands for the omitted argument.
    [request.encode()] is evaluated before the [try], so its [ValueError]
    leaves the method; inside the [try] every exception gives [None]. *)
Definition send_request (request : Request.UDSRequest) (timeout : option Z)
    (arrivals : list Arrival) (now : time) (self : UDSSessionManager)
    : result (option Response.UDSResponse) * UDSSessionManager :=
  let timeout := effective_timeout request timeout self in
  match Request.encode request with
  | Raise e => (Raise e, self)
  | Ok request_data =>
      let self :=
        if Request.expect_response request then
          set_response_callbacks
            (dict_set (Request.service_id request)
               (mkWaiter (Request.service_id request) [] false)
               (response_callbacks self)) self
        else self in
      let self := logger (LogDebug "Sending UDS request") self in
      match isotp_send request_data now self with
      | (Raise _, self) =>
          (Ok None,
           cleanup request (logger (LogError "Error sending UDS request") self))
      | (Ok false, self) =>
          (Ok None,
           cleanup request
             (cleanup request
                (logger (LogError "Failed to send UDS request") self)))
      | (Ok true, self) =>
          if Request.expect_response request then
            match wait (Request.service_id request) timeout now arrivals self
            with
            | (true, self) =>
                match
                  option_map response_data
                    (dict_get (Request.service_id request)
                       (response_callbacks self))
                with
                | Some (response :: _) =>
                    (Ok (Some (Response.set_request request response)),
                     cleanup request self)
                | _ => (Ok None, cleanup request self)
                end
            | (false, self) =>
                (Ok None,
                 cleanup request
                   (logger (LogWarning "Timeout waiting for response") self))
            end
          else
            (Ok (Some (Response.mkUDSResponse (Request.service_id request)
                         [] None POSITIVE_RESPONSE None now (Some request))),
             cleanup request self)
      end
  end.


(** The response object built from the message [7F sid 78] at [now]. *)
Definition pending_response (sid : Z) (now : time) : Response.UDSResponse :=
  Response.mkUDSResponse sid [] None NEGATIVE_RESPONSE
    (Some REQUEST_CORRECTLY_RECEIVED_RESPONSE_PENDING) now None.

End Uds.

(** ** [core/command_project_manager.py]: commands, groups, projects *)

Module Project.

Inductive CommandType : Type :=
| CAN_FRAME
| UDS_COMMAND
| WAIT
| COMMENT
| SCRIPT.

Definition CommandType_value (t : CommandType) : string :=
  match t with
  | CAN_FRAME => "can_frame"
  | UDS_COMMAND => "uds_command"
  | WAIT => "wait"
  | COMMENT => "comment"
  | SCRIPT => "script"
  end.

Inductive SendMode : Type :=
| SINGLE
| PERIODIC
| ON_CHANGE.

Definition SendMode_value (m : SendMode) : string :=
  match m with
  | SINGLE => "single"
  | PERIODIC => "periodic"
  | ON_CHANGE => "on_change"
  end.

Inductive CommandStatus : Type :=
| PENDING
| RUNNING
| SUCCESS
| FAILED
| STOPPED.

Definition CommandStatus_value (s : CommandStatus) : string :=
  match s with
  | PENDING => "pending"
  | RUNNING => "running"
  | SUCCESS => "success"
  | FAILED => "failed"
  | STOPPED => "stopped"
  end.

Module CanCmd.

Record CANFrameCommand : Type := mkCANFrameCommand {
  arbitration_id : Z;
  data : bytes;
  is_extended_id : bool;
  is_fd : bool;
  bitrate_switch : bool;
  error_state_indicator : bool;
  dlc : Z;
  comment : string
}.

(** [CANFrameCommand.to_can_frame] *)
Definition to_can_frame (self : CANFrameCommand) (now : time) : Can.CANFrame :=
  Can.new now (arbitration_id self) (data self) (is_extended_id self)
    false false (is_fd self) (bitrate_switch self)
    (error_state_indicator self) Can.default_channel (dlc self).

End CanCmd.

Module UdsCmd.

Record UDSCommand : Type := mkUDSCommand {
  service_id : Z;
  data : bytes;
  subfunction : option Z;
  timeout : Z;
  expect_response : bool;
  comment : string
}.

(** [UDSCommand.to_uds_request] *)
Definition to_uds_request (self : UDSCommand) : Uds.Request.UDSRequest :=
  Uds.Request.mkUDSRequest (service_id self) (data self) (subfunction self)
    (timeout self) (expect_response self).

End UdsCmd.

Module WaitCmd.

Record WaitCommand : Type := mkWaitCommand {
  duration : Z;
  comment : string
}.

End WaitCmd.

Module CommentCmd.

Record CommentCommand : Type := mkCommentCommand {
  comment : string
}.

End CommentCmd.

Module ScriptCmd.

Record ScriptCommand : Type := mkScriptCommand {
  script_code : string;
  comment : string
}.

End ScriptCmd.

Module Cmd.

Record Command : Type := mkCommand {
  id : string;
  name : string;
  command_type : CommandType;
  send_mode : SendMode;
  period : Z;
  enabled : bool;
  status : CommandStatus;
  last_executed : time;
  execution_count : Z;
  success_count : Z;
  fail_count : Z;
  can_frame : option CanCmd.CANFrameCommand;
  uds_command : option UdsCmd.UDSCommand;
  wait_command : option WaitCmd.WaitCommand;
  comment_command : option CommentCmd.CommentCommand;
  script_command : option ScriptCmd.ScriptCommand
}.

End Cmd.

Module Group.

Record CommandGroup : Type := mkCommandGroup {
  id : string;
  name : string;
  description : string;
  enabled : bool;
  commands : list Cmd.Command;
  repeat_count : Z;
  repeat_interval : Z;
  run_in_sequence : bool
}.

Definition set_commands (cs : list Cmd.Command) (g : CommandGroup)
    : CommandGroup :=
  mkCommandGroup (id g) (name g) (description g) (enabled g) cs
    (repeat_count g) (repeat_interval g) (run_in_sequence g).

End Group.

Module Proj.

Record CommandProject : Type := mkCommandProject {
  id : string;
  name : string;
  description : string;
  version : string;
  created_at : time;
  updated_at : time;
  groups : list Group.CommandGroup
}.

Definition set_updated_at (t : time) (p : CommandProject) : CommandProject :=
  mkCommandProject (id p) (name p) (description p) (version p)
    (created_at p) t (groups p).

Definition set_groups (gs : list Group.CommandGroup) (p : CommandProject)
    : CommandProject :=
  mkCommandProject (id p) (name p) (description p) (version p)
    (created_at p) (updated_at p) gs.

End Proj.

(** *** Dictionaries and JSON *)

(** The Python values that occur in the dictionary form of a project. *)
Unset Elimination Schemes.
Inductive pyval : Type :=
| PNone
| PBool (b : bool)
| PInt (z : Z)
| PFloat (t : time)
| PStr (s : string)
| PBytes (b : bytes)
| PEnum (class_name : string) (value : string)
| PList (items : list pyval)
| PDict (items : list (string * pyval)).
Set Elimination Schemes.

Definition POption {A : Type} (f : A -> pyval) (o : option A) : pyval :=
  match o with
  | Some a => f a
  | None => PNone
  end.

(** [d[key] = v] on a dictionary in insertion order: an existing key keeps
    its place. *)
Fixpoint dict_store (key : string) (v : pyval) (d : list (string * pyval))
    : list (string * pyval) :=
  match d with
  | [] => [(key, v)]
  | (k, x) :: rest =>
      if String.eqb k key then (k, v) :: rest
      else (k, x) :: dict_store key v rest
  end.

(** [d.pop(key, None)] *)
Fixpoint dict_pop (key : string) (d : list (string * pyval))
    : list (string * pyval) :=
  match d with
  | [] => []
  | (k, x) :: rest =>
      if String.eqb k key then rest else (k, x) :: dict_pop key rest
  end.

(** The field-by-field dictionary of a flat dataclass: what
    [dataclasses.asdict] gives, and what the [to_dict] that the
    [dataclass_json] decorator adds gives with its default
    [encode_json=False].  A [bytes] value stays a [bytes] value. *)
Definition CANFrameCommand_asdict (c : CanCmd.CANFrameCommand) : pyval :=
  PDict [("arbitration_id"%string, PInt (CanCmd.arbitration_id c));
         ("data"%string, PBytes (CanCmd.data c));
         ("is_extended_id"%string, PBool (CanCmd.is_extended_id c));
         ("is_fd"%string, PBool (CanCmd.is_fd c));
         ("bitrate_switch"%string, PBool (CanCmd.bitrate_switch c));
         ("error_state_indicator"%string, PBool (CanCmd.error_state_indicator c));
         ("dlc"%string, PInt (CanCmd.dlc c));
         ("comment"%string, PStr (CanCmd.comment c))].

Definition UDSCommand_asdict (c : UdsCmd.UDSCommand) : pyval :=
  PDict [("service_id"%string, PInt (UdsCmd.service_id c));
         ("data"%string, PBytes (UdsCmd.data c));
         ("subfunction"%string, POption PInt (UdsCmd.subfunction c));
         ("timeout"%string, PInt (UdsCmd.timeout c));
         ("expect_response"%string, PBool (UdsCmd.expect_response c));
         ("comment"%string, PStr (UdsCmd.comment c))].

Definition WaitCommand_asdict (c : WaitCmd.WaitCommand) : pyval :=
  PDict [("duration"%string, PInt (WaitCmd.duration c));
         ("comment"%string, PStr (WaitCmd.comment c))].

Definition CommentCommand_asdict (c : CommentCmd.CommentCommand) : pyval :=
  PDict [("comment"%string, PStr (CommentCmd.comment c))].

Definition ScriptCommand_asdict (c : ScriptCmd.ScriptCommand) : pyval :=
  PDict [("script_code"%string, PStr (ScriptCmd.script_code c));
         ("comment"%string, PStr (ScriptCmd.comment c))].

(** [asdict(self)] on a [Command]: enum members are copied as they are. *)
Definition Command_asdict (c : Cmd.Command) : list (string * pyval) :=
  [("id"%string, PStr (Cmd.id c));
   ("name"%string, PStr (Cmd.name c));
   ("command_type"%string,
      PEnum "CommandType" (CommandType_value (Cmd.command_type c)));
   ("send_mode"%string, PEnum "SendMode" (SendMode_value (Cmd.send_mode c)));
   ("period"%string, PInt (Cmd.period c));
   ("enabled"%string, PBool (Cmd.enabled c));
   ("status"%string, PEnum "CommandStatus" (CommandStatus_value (Cmd.status c)));
   ("last_executed"%string, PFloat (Cmd.last_executed c));
   ("execution_count"%string, PInt (Cmd.execution_count c));
   ("success_count"%string, PInt (Cmd.success_count c));
   ("fail_count"%string, PInt (Cmd.fail_count c));
   ("can_frame"%string, POption CANFrameCommand_asdict (Cmd.can_frame c));
   ("uds_command"%string, POption UDSCommand_asdict (Cmd.uds_command c));
   ("wait_command"%string, POption WaitCommand_asdict (Cmd.wait_command c));
   ("comment_command"%string,
      POption CommentCommand_asdict (Cmd.comment_command c));
   ("script_command"%string, POption ScriptCommand_asdict (Cmd.script_command c))].

(** One of the five [if self.x: data['x'] = self.x.to_dict() else:
    data.pop('x', None)] steps of [Command.to_dict]. *)
Definition keep_or_pop {A : Type} (key : string) (field : option A)
    (to_dict : A -> pyval) (d : list (string * pyval))
    : list (string * pyval) :=
  match field with
  | Some x => dict_store key (to_dict x) d
  | None => dict_pop key d
  end.

(** [Command.to_dict] as the class body defines it.  The class is
    decorated with [@dataclass_json], which runs after the class body and
    assigns its own [to_dict] to the class: a call of [to_dict] at run
    time gives the field walk [Command_asdict], enum members included, and
    the method below is never reached.  It is kept as the source text
    has it, next to the path that runs. *)
Definition Command_to_dict (self : Cmd.Command) : pyval :=
  let data := Command_asdict self in
  let data :=
    dict_store "command_type"
      (PStr (CommandType_value (Cmd.command_type self))) data in
  let data :=
    dict_store "send_mode" (PStr (SendMode_value (Cmd.send_mode self))) data in
  let data :=
    dict_store "status" (PStr (CommandStatus_value (Cmd.status self))) data in
  let data :=
    keep_or_pop "can_frame" (Cmd.can_frame self) CANFrameCommand_asdict data in
  let data :=
    keep_or_pop "uds_command" (Cmd.uds_command self) UDSCommand_asdict data in
  let data :=
    keep_or_pop "wait_command" (Cmd.wait_command self) WaitCommand_asdict
      data in
  let data :=
    keep_or_pop "comment_command" (Cmd.comment_command self)
      CommentCommand_asdict data in
  let data :=
    keep_or_pop "script_command" (Cmd.script_command self)
      ScriptCommand_asdict data in
  PDict data.

(** [CommandGroup] and [CommandProject] define no [to_dict]; theirs comes
    from the [dataclass_json] decorator and walks the fields, those of the
    nested dataclasses too.  How a nested [Command] becomes a dictionary
    is the parameter [command_to_dict]: at run time the plain field walk
    [fun c => PDict (Command_asdict c)]; [Command_to_dict], the method of
    the class body, is the other reading the saving theorem covers. *)
Definition CommandGroup_to_dict (command_to_dict : Cmd.Command -> pyval)
    (g : Group.CommandGroup) : pyval :=
  PDict [("id"%string, PStr (Group.id g));
         ("name"%string, PStr (Group.name g));
         ("description"%string, PStr (Group.description g));
         ("enabled"%string, PBool (Group.enabled g));
         ("commands"%string, PList (map command_to_dict (Group.commands g)));
         ("repeat_count"%string, PInt (Group.repeat_count g));
         ("repeat_interval"%string, PInt (Group.repeat_interval g));
         ("run_in_sequence"%string, PBool (Group.run_in_sequence g))].

Definition CommandProject_to_dict (command_to_dict : Cmd.Command -> pyval)
    (p : Proj.CommandProject) : pyval :=
  PDict [("id"%string, PStr (Proj.id p));
         ("name"%string, PStr (Proj.name p));
         ("description"%string, PStr (Proj.description p));
         ("version"%string, PStr (Proj.version p));
         ("created_at"%string, PFloat (Proj.created_at p));
         ("updated_at"%string, PFloat (Proj.updated_at p));
         ("groups"%string,
            PList (map (CommandGroup_to_dict command_to_dict)
                     (Proj.groups p)))].

(** Whether [json.dump] can serialise a value with the default encoder:
    [None], booleans, numbers, strings, lists and string-keyed
    dictionaries of such; a [bytes] object or a plain [Enum] member makes
    it raise [TypeError]. *)
Fixpoint json_serializable (v : pyval) : bool :=
  match v with
  | PNone | PBool _ | PInt _ | PFloat _ | PStr _ => true
  | PBytes _ | PEnum _ _ => false
  | PList items => forallb json_serializable items
  | PDict items =>
      (fix fields (l : list (string * pyval)) : bool :=
         match l with
         | [] => true
         | (_, x) :: rest => json_serializable x && fields rest
         end) items
  end.

(** [json.dump(data, f, indent=2, ensure_ascii=False)]: the document
    written, in the form [json.load] reads it back. *)
Definition json_dump (data : pyval) : result pyval :=
  if json_serializable data then Ok data else Raise TypeError.

(** [CommandProjectManager.save_project] for a project found under
    [project_id]: the stored project after the call, the return value, and
    the document written when the dump went through. *)
Definition save_project (command_to_dict : Cmd.Command -> pyval)
    (project : Proj.CommandProject) (now : time)
    : Proj.CommandProject * bool * option pyval :=
  let project := Proj.set_updated_at now project in
  let data := CommandProject_to_dict command_to_dict project in
  match json_dump data with
  | Ok document => (project, true, Some document)
  | Raise _ => (project, false, None)
  end.

(** A command that carries payload bytes: a CAN-frame or a UDS payload
    is attached to it. *)
Definition has_bytes_payload (c : Cmd.Command) : bool :=
  match Cmd.can_frame c, Cmd.uds_command c with
  | None, None => false
  | _, _ => true
  end.

End Project.

(** ** [core/command_project_manager.py]: the command executor *)

Module Executor.
Import Project.

(** The two places that call [time.sleep] on the control thread. *)
Inductive sleep_site : Type :=
| InWaitCommand
| BetweenGroups.

(** What the control thread does that can be seen from outside. *)
Inductive event : Type :=
| Hook (name : string) (subject : string)
| CommandEntered (id : string)
| CanSend (frame : Can.CANFrame)
| UdsSend (request : Uds.Request.UDSRequest)
| ThreadStarted (name : string) (command_id : string)
| Sleep (site : sleep_site) (ms : Z).

(** The surroundings of the control thread.  [stop_is_set k] is what the
    [k]-th call of [self.stop_event.is_set()] returns (another thread sets
    the event); [send_frame k] and [send_request k] are what the CAN
    manager and the UDS manager return to the [k]-th call made to them. *)
Record World : Type := mkWorld {
  stop_is_set : nat -> bool;
  send_frame : nat -> Can.CANFrame -> bool;
  send_request :
    nat -> Uds.Request.UDSRequest -> option Uds.Response.UDSResponse
}.

(** Which of the observation hooks are set (they are [None] at first). *)
Record Hooks : Type := mkHooks {
  on_command_started : bool;
  on_command_completed : bool;
  on_command_failed : bool;
  on_group_started : bool;
  on_group_completed : bool;
  on_project_started : bool;
  on_project_completed : bool
}.

Record CommandExecutor : Type := mkCommandExecutor {
  uds_manager : bool;
  hooks : Hooks;
  running : bool;
  periodic_threads : list string;
  polls : nat;
  calls : nat
}.

(** A step of the control thread: a value, the events it caused, and the
    executor afterwards. *)
Definition E (A : Type) : Type :=
  CommandExecutor -> A * list event * CommandExecutor.

Definition ret {A : Type} (a : A) : E A := fun self => (a, [], self).

Definition bind {A B : Type} (m : E A) (k : A -> E B) : E B :=
  fun self =>
    match m self with
    | (a, t1, self1) =>
        match k a self1 with
        | (b, t2, self2) => (b, t1 ++ t2, self2)
        end
    end.

Declare Scope exec_scope.
Delimit Scope exec_scope with exec.
Notation "x <- m ;; k" := (bind m (fun x => k))
  (at level 61, m at next level, right associativity) : exec_scope.
Notation "m ;; k" := (bind m (fun _ => k))
  (at level 61, right associativity) : exec_scope.

Definition emit (e : event) : E unit := fun self => (tt, [e], self).

Definition get : E CommandExecutor := fun self => (self, [], self).

(** [self.stop_event.is_set()] *)
Definition poll_stop (w : World) : E bool :=
  fun self =>
    (stop_is_set w (polls self), [],
     mkCommandExecutor (uds_manager self) (hooks self) (running self)
       (periodic_threads self) (S (polls self)) (calls self)).

(** The number of the next call to a manager. *)
Definition next_call : E nat :=
  fun self =>
    (calls self, [],
     mkCommandExecutor (uds_manager self) (hooks self) (running self)
       (periodic_threads self) (polls self) (S (calls self))).

(** [self.periodic_threads[command.id] = thread; thread.start()] *)
Definition start_thread (name : string) (command_id : string) : E unit :=
  fun self =>
    (tt, [ThreadStarted name command_id],
     mkCommandExecutor (uds_manager self) (hooks self) (running self)
       (command_id
          :: filter (fun k => negb (String.eqb k command_id))
               (periodic_threads self))
       (polls self) (calls self)).

Definition set_running (b : bool) : E unit :=
  fun self =>
    (tt, [],
     mkCommandExecutor (uds_manager self) (hooks self) b
       (periodic_threads self) (polls self) (calls self)).

(** [if self.on_x: self.on_x(subject)] *)
Definition hook (which : Hooks -> bool) (name : string) (subject : string)
    : E unit :=
  (self <- get ;;
   if which (hooks self) then emit (Hook name subject) else ret tt)%exec.

(** [_execute_can_frame_command] *)
Definition _execute_can_frame_command (w : World) (command : Cmd.Command)
    (now : time) : E bool :=
  match Cmd.can_frame command with
  | None => ret false
  | Some can_frame_cmd =>
      let can_frame := CanCmd.to_can_frame can_frame_cmd now in
      match Cmd.send_mode command with
      | SINGLE =>
          (k <- next_call ;;
           emit (CanSend can_frame) ;;
           ret (send_frame w k can_frame))%exec
      | PERIODIC =>
          (start_thread "PeriodicCAN" (Cmd.id command) ;; ret true)%exec
      | ON_CHANGE => ret false
      end
  end.

(** [_execute_uds_command] *)
Definition _execute_uds_command (w : World) (command : Cmd.Command) : E bool :=
  (self <- get ;;
   match Cmd.uds_command command with
   | None => ret false
   | Some uds_cmd =>
       if negb (uds_manager self) then ret false
       else
         let uds_request := UdsCmd.to_uds_request uds_cmd in
         match Cmd.send_mode command with
         | SINGLE =>
             k <- next_call ;;
             emit (UdsSend uds_request) ;;
             match send_request w k uds_request with
             | Some response => ret (Uds.Response.is_positive response)
             | None => ret (negb (UdsCmd.expect_response uds_cmd))
             end
         | PERIODIC =>
             start_thread "PeriodicUDS" (Cmd.id command) ;; ret true
         | ON_CHANGE => ret false
         end
   end)%exec.

(** [_execute_wait_command]; [time.sleep] of a negative length raises
    [ValueError], which the method turns into [False]. *)
Definition _execute_wait_command (command : Cmd.Command) : E bool :=
  match Cmd.wait_command command with
  | None => ret false
  | Some wait_cmd =>
      if WaitCmd.duration wait_cmd <? 0 then ret false
      else
        (emit (Sleep InWaitCommand (WaitCmd.duration wait_cmd)) ;;
         ret true)%exec
  end.

(** [_execute_comment_command] *)
Definition _execute_comment_command (command : Cmd.Command) : E bool :=
  match Cmd.comment_command command with
  | None => ret false
  | Some _ => ret true
  end.

(** [_execute_script_command]: the script is not run. *)
Definition _execute_script_command (command : Cmd.Command) : E bool :=
  match Cmd.script_command command with
  | None => ret false
  | Some _ => ret true
  end.

Definition is_some {A : Type} (o : option A) : bool :=
  match o with
  | Some _ => true
  | None => false
  end.

(** [_execute_command] *)
Definition _execute_command (w : World) (command : Cmd.Command) (now : time)
    : E bool :=
  match Cmd.command_type command with
  | CAN_FRAME =>
      if is_some (Cmd.can_frame command)
      then _execute_can_frame_command w command now else ret false
  | UDS_COMMAND =>
      if is_some (Cmd.uds_command command)
      then _execute_uds_command w command else ret false
  | WAIT =>
      if is_some (Cmd.wait_command command)
      then _execute_wait_command command else ret false
  | COMMENT =>
      if is_some (Cmd.comment_command command)
      then _execute_comment_command command else ret false
  | SCRIPT =>
      if is_some (Cmd.script_command command)
      then _execute_script_command command else ret false
  end.

(** The bookkeeping after [_execute_command] in [_execute_group]. *)
Definition record_result (success : bool) (now : time) (c : Cmd.Command)
    : Cmd.Command :=
  Cmd.mkCommand (Cmd.id c) (Cmd.name c) (Cmd.command_type c)
    (Cmd.send_mode c) (Cmd.period c) (Cmd.enabled c)
    (if success then SUCCESS else FAILED)
    now
    (Cmd.execution_count c + 1)
    (if success then Cmd.success_count c + 1 else Cmd.success_count c)
    (if success then Cmd.fail_count c else Cmd.fail_count c + 1)
    (Cmd.can_frame c) (Cmd.uds_command c) (Cmd.wait_command c)
    (Cmd.comment_command c) (Cmd.script_command c).

(** The [for command in group.commands] loop of [_execute_group]; the
    commands come back with their statistics updated.  A disabled command
    is skipped without looking at the stop event ([or] short-circuits). *)
Fixpoint run_commands (w : World) (now : time) (commands : list Cmd.Command)
    : E (list Cmd.Command) :=
  match commands with
  | [] => ret []
  | command :: rest =>
      if negb (Cmd.enabled command) then
        (rest' <- run_commands w now rest ;; ret (command :: rest'))%exec
      else
        (stopped <- poll_stop w ;;
         if stopped then
           rest' <- run_commands w now rest ;; ret (command :: rest')
         else
           emit (CommandEntered (Cmd.id command)) ;;
           hook on_command_started "on_command_started" (Cmd.id command) ;;
           success <- _execute_command w command now ;;
           let command' := record_result success now command in
           (if success then
              hook on_command_completed "on_command_completed"
                (Cmd.id command)
            else
              hook on_command_failed "on_command_failed" (Cmd.id command)) ;;
           stopped' <- poll_stop w ;;
           if stopped' then ret (command' :: rest)
           else
             rest' <- run_commands w now rest ;;
             ret (command' :: rest'))%exec
  end.

(** How a loop that may run for ever ended within the steps allowed. *)
Inductive outcome : Type :=
| Finished (repeat_count : Z) (group : Group.CommandGroup)
| OutOfFuel (repeat_count : Z) (group : Group.CommandGroup).

(** The [while] loop of [_execute_group], entered with the local variable
    [repeat_count]; [fuel] bounds the number of iterations looked at. *)
Fixpoint group_loop (fuel : nat) (w : World) (now : time)
    (group : Group.CommandGroup) (repeat_count : Z) : E outcome :=
  if (repeat_count <? Group.repeat_count group)
     || (Group.repeat_count group =? 0) then
    match fuel with
    | O => ret (OutOfFuel repeat_count group)
    | S fuel' =>
        (stopped <- poll_stop w ;;
         if stopped then ret (Finished repeat_count group)
         else
           commands' <- run_commands w now (Group.commands group) ;;
           let group' := Group.set_commands commands' group in
           let repeat_count := repeat_count + 1 in
           if (Group.repeat_count group >? 0)
              && (repeat_count >=? Group.repeat_count group) then
             ret (Finished repeat_count group')
           else group_loop fuel' w now group' repeat_count)%exec
    end
  else ret (Finished repeat_count group).

(** [_execute_group] *)
Definition _execute_group (fuel : nat) (w : World) (now : time)
    (group : Group.CommandGroup) : E outcome :=
  group_loop fuel w now group 0.

(** The [for group in project.groups] loop of [_execute_project]:
    [None] when a group loop did not end within [fuel] iterations. *)
Fixpoint run_groups (fuel : nat) (w : World) (now : time)
    (groups : list Group.CommandGroup)
    : E (option (list Group.CommandGroup)) :=
  match groups with
  | [] => ret (Some [])
  | group :: rest =>
      let continue_ (g : Group.CommandGroup) :=
        (r <- run_groups fuel w now rest ;;
         ret (option_map (cons g) r))%exec in
      if negb (Group.enabled group) then continue_ group
      else
        (stopped <- poll_stop w ;;
         if stopped then continue_ group
         else
           hook on_group_started "on_group_started" (Group.id group) ;;
           r <- _execute_group fuel w now group ;;
           match r with
           | OutOfFuel _ _ => ret None
           | Finished _ group' =>
               hook on_group_completed "on_group_completed"
                 (Group.id group) ;;
               stopped' <- poll_stop w ;;
               if stopped' then ret (Some (group' :: rest))
               else
                 gap <-
                   (if Group.repeat_interval group >? 0 then
                      stopped'' <- poll_stop w ;;
                      if stopped'' then ret tt
                      else emit (Sleep BetweenGroups
                                   (Group.repeat_interval group))
                    else ret tt) ;;
                 continue_ group'
           end)%exec
  end.

(** [_execute_project] on [self.current_project = project]. *)
Definition _execute_project (fuel : nat) (w : World) (now : time)
    (project : Proj.CommandProject) : E (option Proj.CommandProject) :=
  (let project := Proj.set_updated_at now project in
   r <- run_groups fuel w now (Proj.groups project) ;;
   match r with
   | None => ret None
   | Some groups' =>
       set_running false ;;
       hook on_project_completed "on_project_completed" (Proj.id project) ;;
       ret (Some (Proj.set_groups groups' project))
   end)%exec.

(** [CommandExecutor.__init__] *)
Definition init (uds_manager : bool) : CommandExecutor :=
  mkCommandExecutor uds_manager
    (mkHooks false false false false false false false) false [] 0 0.

(** The command identifiers in the order the control thread entered them. *)
Fixpoint entered (t : list event) : list string :=
  match t with
  | [] => []
  | CommandEntered id :: rest => id :: entered rest
  | _ :: rest => entered rest
  end.

(** The lengths of the sleeps between groups, in order. *)
Fixpoint group_gaps (t : list event) : list Z :=
  match t with
  | [] => []
  | Sleep BetweenGroups ms :: rest => ms :: group_gaps rest
  | _ :: rest => group_gaps rest
  end.

(** The identifiers of the enabled commands of a list. *)
Definition enabled_ids (commands : list Cmd.Command) : list string :=
  map Cmd.id (filter Cmd.enabled commands).

(** A world in which nobody asks the executor to stop. *)
Definition never_stopped (w : World) : Prop :=
  forall k, stop_is_set w k = false.

(** A world in which the stop is requested between poll [k - 1] and poll
    [k]: [stop_event.set()] is called once and the event stays set, so the
    polls before the [k]-th find it clear and the [k]-th and all later
    ones find it set. *)
Definition stop_requested_at (w : World) (k : nat) : Prop :=
  forall j, stop_is_set w j = (k <=? j)%nat.

(** The durations of the wait commands of a list, in order. *)
Definition wait_durations (commands : list Cmd.Command) : list Z :=
  flat_map (fun command =>
              match Cmd.wait_command command with
              | Some wait_cmd => [WaitCmd.duration wait_cmd]
              | None => []
              end) commands.

(** The value and the events of a step. *)
Definition value {A : Type} (r : A * list event * CommandExecutor) : A :=
  fst (fst r).

Definition events {A : Type} (r : A * list event * CommandExecutor)
    : list event :=
  snd (fst r).

End Executor.

(** ** Sample inputs *)

Module Samples.

(** A freshly created protocol object with the default configuration
    (classical CAN, padding with [0xCC]). *)
Definition idle : IsoTp.ISOTPProtocol := IsoTp.init IsoTp.Config.default.

(** A 20-byte message [01 02 ... 14]. *)
Definition msg20 : bytes :=
  [0x01; 0x02; 0x03; 0x04; 0x05; 0x06; 0x07; 0x08; 0x09; 0x0A;
   0x0B; 0x0C; 0x0D; 0x0E; 0x0F; 0x10; 0x11; 0x12; 0x13; 0x14].

(** A 125-byte message: a first frame and 17 consecutive frames. *)
Definition msg125 : bytes := repeat 0xAA 125.

(** One byte more than the default [max_frame_size]. *)
Definition msg4096 : bytes := repeat 0x00 4096.

(** The sender right after the first frame of [msg20] was queued. *)
Definition after_first_frame : IsoTp.ISOTPProtocol :=
  snd (IsoTp.send_data msg20 None 0 idle).

(** FC(Continue, BS, STmin = 0) as [decode_frame] delivers it. *)
Definition fc_continue (bs : Z) : IsoTp.Frame.ISOTPFrame :=
  IsoTp.Frame.mkISOTPFrame IsoTp.FLOW_CONTROL_FRAME [] 0 IsoTp.CONTINUE bs 0.

(** The first PCI byte of every queued frame. *)
Definition pci_bytes (q : list Can.CANFrame) : list (option Z) :=
  map (fun f => hd_error (Can.data f)) q.

(** A peer built from the same class, listening on the identifier the
    sender transmits on. *)
Definition peer : IsoTp.ISOTPProtocol :=
  IsoTp.init
    (IsoTp.Config.mkISOTPConfig 0x7E8 0x7E0 IsoTp.NORMAL "standard" 0 8 0
       false true true 64 50 5000 5000 4095 4096 1000 true 0xCC).

(** Feeds frames to a protocol object, one [process_can_frame] each. *)
Fixpoint deliver (frames : list Can.CANFrame) (p : IsoTp.ISOTPProtocol)
    : list (result bool) * IsoTp.ISOTPProtocol :=
  match frames with
  | [] => ([], p)
  | f :: rest =>
      let r := IsoTp.process_can_frame f 0 p in
      let rs := deliver rest (snd r) in
      (fst r :: fst rs, snd rs)
  end.

(** A session over the idle default ISO-TP channel. *)
Definition session : Uds.UDSSessionManager := Uds.init (Some idle).

(** ReadDataByIdentifier of the VIN: [22 F1 81]. *)
Definition rdbi_request : Uds.Request.UDSRequest :=
  Uds.Request.mkUDSRequest 0x22 [0xF1; 0x81] None 2000 true.

(** The positive reply to it: [62 F1 81] and a 17-byte VIN. *)
Definition vin_reply : bytes :=
  [0x62; 0xF1; 0x81; 0x57; 0x30; 0x4C; 0x30; 0x30; 0x30; 0x30;
   0x30; 0x30; 0x30; 0x30; 0x30; 0x30; 0x30; 0x30; 0x30; 0x30].

(** RoutineControl start of routine [FF 00]: [31 01 FF 00]. *)
Definition routine_request : Uds.Request.UDSRequest :=
  Uds.Request.mkUDSRequest 0x31 [0xFF; 0x00] (Some 0x01) 2000 true.

(** The ECU answers response-pending after 900 ms and the positive
    response after 1800 ms, both inside the 2000 ms of the request. *)
Definition pending_then_final : list Uds.Arrival :=
  [Uds.mkArrival 900 [0x7F; 0x31; 0x78];
   Uds.mkArrival 1800 [0x71; 0x01; 0xFF; 0x00]].


(** A comment command and a 5 ms wait command. *)
Definition comment_cmd : Project.Cmd.Command :=
  Project.Cmd.mkCommand "c1" "note" Project.COMMENT Project.SINGLE 1000 true
    Project.PENDING 0 0 0 0 None None None
    (Some (Project.CommentCmd.mkCommentCommand "start")) None.

Definition wait_cmd : Project.Cmd.Command :=
  Project.Cmd.mkCommand "w1" "pause" Project.WAIT Project.SINGLE 1000 true
    Project.PENDING 0 0 0 0 None None
    (Some (Project.WaitCmd.mkWaitCommand 5 "")) None None.

(** A CAN-frame command sending [02 10 01] to 0x7E0. *)
Definition can_cmd : Project.Cmd.Command :=
  Project.Cmd.mkCommand "cmd1" "session" Project.CAN_FRAME Project.SINGLE
    1000 true Project.PENDING 0 0 0 0
    (Some (Project.CanCmd.mkCANFrameCommand 0x7E0 [0x02; 0x10; 0x01]
             false false false false 8 ""))
    None None None None.

(** A group run twice, with a repeat interval of 1000 ms. *)
Definition group_twice : Project.Group.CommandGroup :=
  Project.Group.mkCommandGroup "g1" "twice" "" true [comment_cmd] 2 1000 true.

(** The same commands with [repeat_count = 0]. *)
Definition group_forever : Project.Group.CommandGroup :=
  Project.Group.mkCommandGroup "g2" "forever" "" true [comment_cmd; wait_cmd]
    0 1000 true.

Definition project_twice : Project.Proj.CommandProject :=
  Project.Proj.mkCommandProject "p1" "demo" "" "1.0" 0 0 [group_twice].

(** A project whose only command carries payload bytes. *)
Definition project_can : Project.Proj.CommandProject :=
  Project.Proj.mkCommandProject "p2" "can" "" "1.0" 0 0
    [Project.Group.mkCommandGroup "g1" "frames" "" true [can_cmd] 1 1000 true].

(** Nobody stops the executor; every send succeeds; no UDS reply. *)
Definition quiet_world : Executor.World :=
  Executor.mkWorld (fun _ => false) (fun _ _ => true) (fun _ _ => None).

(** The stop event is set from the start. *)
Definition stopped_world : Executor.World :=
  Executor.mkWorld (fun _ => true) (fun _ _ => true) (fun _ _ => None).

(** The stop event is set between poll [k - 1] and poll [k]. *)
Definition stopping_world (k : nat) : Executor.World :=
  Executor.mkWorld (fun j => (k <=? j)%nat) (fun _ _ => true)
    (fun _ _ => None).

End Samples.

(** ** Python dictionaries with string keys, in insertion order *)

Module StrDict.

Definition t (V : Type) : Type := list (string * V).

(** [d.get(k)] *)
Fixpoint lookup {V : Type} (k : string) (d : t V) : option V :=
  match d with
  | [] => None
  | (k', v) :: rest => if String.eqb k' k then Some v else lookup k rest
  end.

(** [d[k] = v]: an existing key keeps its place. *)
Fixpoint store {V : Type} (k : string) (v : V) (d : t V) : t V :=
  match d with
  | [] => [(k, v)]
  | (k', v') :: rest =>
      if String.eqb k' k then (k', v) :: rest
      else (k', v') :: store k v rest
  end.

(** [del d[k]] for a key that is present. *)
Fixpoint delete {V : Type} (k : string) (d : t V) : t V :=
  match d with
  | [] => []
  | (k', v') :: rest =>
      if String.eqb k' k then rest else (k', v') :: delete k rest
  end.

(** [list(d.keys())]; a dictionary built by [store] has no key twice. *)
Definition keys {V : Type} (d : t V) : list string := map fst d.

End StrDict.

(** ** [isotp_protocol.py]: configuration check, reset and the protocol
    registry *)

Module IsoTpMore.
Import IsoTp.
Import IsoTp.Config.

(** [lo <= x <= hi] *)
Definition between (lo x hi : Z) : bool := (lo <=? x) && (x <=? hi).

(** [ISOTPConfig.validate] *)
Definition validate (self : ISOTPConfig) : bool :=
  if negb (between 0x000 (rx_id self) 0x7FF)
     && negb (between 0x000 (rx_id self) 0x1FFFFFFF) then false
  else if negb (between 0x000 (tx_id self) 0x7FF)
          && negb (between 0x000 (tx_id self) 0x1FFFFFFF) then false
  else if (st_min self <? 0) || (st_min self >? 127) then false
  else if (block_size self <? 0) || (block_size self >? 255) then false
  else if (fd_dlc self <? 0) || (fd_dlc self >? 64) then false
  else true.

(** [ISOTPProtocol.reset], called from a thread other than the timer
    thread: the transmit queue and the callbacks stay. *)
Definition reset (p : ISOTPProtocol) : ISOTPProtocol :=
  let p := set_state IDLE p in
  let p := set_tx (mkTxState [] 0 0 0 0 0 0) p in
  let p := set_rx (mkRxState [] 0 0 1 0 CONTINUE 0 0 0) p in
  let p := snd (stop_timer p) in
  set_rx_queue [] p.

(** The dictionary [ISOTPManager.protocols]. *)
Definition ISOTPManager := StrDict.t ISOTPProtocol.

(** [ISOTPManager.create_protocol] *)
Definition create_protocol (protocol_id : string) (config : ISOTPConfig)
    (m : ISOTPManager) : option ISOTPProtocol * ISOTPManager :=
  match StrDict.lookup protocol_id m with
  | Some existing => (Some existing, m)
  | None =>
      if negb (validate config) then (None, m)
      else
        let protocol := init config in
        (Some protocol, StrDict.store protocol_id protocol m)
  end.

(** [ISOTPManager.get_protocol] *)
Definition get_protocol (protocol_id : string) (m : ISOTPManager)
    : option ISOTPProtocol :=
  StrDict.lookup protocol_id m.

(** [ISOTPManager.remove_protocol] *)
Definition remove_protocol (protocol_id : string) (m : ISOTPManager)
    : bool * ISOTPManager :=
  match StrDict.lookup protocol_id m with
  | None => (false, m)
  | Some _ => (true, StrDict.delete protocol_id m)
  end.

(** [ISOTPManager.send_data] *)
Definition manager_send_data (protocol_id : string) (data : bytes)
    (callback : option handle) (now : time) (m : ISOTPManager)
    : result bool * ISOTPManager :=
  match get_protocol protocol_id m with
  | None => (Ok false, m)
  | Some protocol =>
      let r := send_data data callback now protocol in
      (fst r, StrDict.store protocol_id (snd r) m)
  end.

(** [ISOTPManager.process_can_frame]: the protocols are tried in
    insertion order until one returns [True]; an exception is logged and
    the next one is tried. *)
Fixpoint manager_process_can_frame (can_frame : Can.CANFrame) (now : time)
    (m : ISOTPManager) : bool * ISOTPManager :=
  match m with
  | [] => (false, [])
  | (k, p) :: rest =>
      let r := process_can_frame can_frame now p in
      match fst r with
      | Ok true => (true, (k, snd r) :: rest)
      | _ =>
          let r' := manager_process_can_frame can_frame now rest in
          (fst r', (k, snd r) :: snd r')
      end
  end.

(** [ISOTPManager.reset_all_protocols] *)
Definition reset_all_protocols (m : ISOTPManager) : ISOTPManager :=
  map (fun entry => (fst entry, reset (snd entry))) m.

(** The table [encode_frame] hands to [_calculate_dlc]. *)
Definition dlc_table_for (is_fd : bool) : list (Z * Z) :=
  if is_fd then _get_fd_dlc_table else _get_standard_dlc_table.

(** The padding [encode_frame] appends to the [raw] bytes of a frame. *)
Definition padding_for (config : ISOTPConfig) (is_fd : bool) (raw : bytes)
    : bytes :=
  if tx_padding config && (len raw <? (if is_fd then 64 else 8)) then
    repeat (tx_padding_value config)
      (Z.to_nat ((if is_fd then 64 else 8) - len raw))
  else [].

(** The CAN frame every [_send_*] method builds from the [raw] bytes of an
    ISO-TP frame: padding, DLC, the transmit identifier. *)
Definition wire_frame (config : ISOTPConfig) (now : time) (raw : bytes)
    : Can.CANFrame :=
  let fd := can_fd_enabled config in
  let padded := raw ++ padding_for config fd raw in
  outgoing_frame config now padded
    (_calculate_dlc (len padded) fd (dlc_table_for fd)).

(** [max_payload] in [_send_consecutive_frame]. *)
Definition cf_width (config : ISOTPConfig) : Z :=
  if can_fd_enabled config then 64 else 7.

(** The first [n] pieces of [width] bytes of [pending]; the last piece may
    be shorter, and nothing follows the end of [pending]. *)
Fixpoint segments (width n : nat) (pending : bytes) : list bytes :=
  match n with
  | O => []
  | S n' =>
      match pending with
      | [] => []
      | _ :: _ =>
          firstn width pending :: segments width n' (skipn width pending)
      end
  end.

(** The consecutive frames for [payloads], numbered upwards from
    [sequence] modulo 16. *)
Fixpoint consecutive_frames (config : ISOTPConfig) (now : time)
    (sequence : Z) (payloads : list bytes) : list Can.CANFrame :=
  match payloads with
  | [] => []
  | payload :: rest =>
      wire_frame config now ((0x20 + sequence mod 16) :: payload)
      :: consecutive_frames config now (sequence + 1) rest
  end.

(** The bytes still pending after [n] consecutive frames of [width] bytes
    were taken from [remaining]. *)
Definition left_after (remaining : Z) (n : nat) (width : Z) : Z :=
  Z.max 0 (remaining - Z.of_nat n * width).

(** The frames [process_can_frame] turns down before any handler touches
    the object: another identifier, undecodable data, or a frame type the
    current state does not take. *)
Definition frame_ignored (can_frame : Can.CANFrame) (p : ISOTPProtocol)
    : bool :=
  negb (Can.arbitration_id can_frame =? rx_id (config p))
  || match decode_frame (Can.data can_frame) (Can.is_fd can_frame) with
     | None => true
     | Some f =>
         match Frame.frame_type f with
         | SINGLE_FRAME => false
         | FIRST_FRAME => negb (ISOTPState_eqb (state p) IDLE)
         | CONSECUTIVE_FRAME => negb (ISOTPState_eqb (state p) RECEIVING)
         | FLOW_CONTROL_FRAME =>
             negb (ISOTPState_eqb (state p) WAITING_FOR_FC)
         end
     end.

End IsoTpMore.

(** ** [uds_session_manager.py]: service methods, closing, the session
    registry *)

Module UdsMore.
Import Uds.

(** The members of [UDSServiceID] used below
    ([config/protocol_definitions.py]). *)
Definition COMMUNICATION_CONTROL : Z := 0x28.
Definition TESTER_PRESENT : Z := 0x3E.

(** [UDSSessionManager.tester_present] *)
Definition tester_present (suppress_response : bool)
    (arrivals : list Arrival) (now : time) (self : UDSSessionManager)
    : result (option Response.UDSResponse) * UDSSessionManager :=
  let subfunction := if suppress_response then 0x80 else 0x00 in
  let request :=
    Request.mkUDSRequest TESTER_PRESENT [] (Some subfunction) 2000
      (negb suppress_response) in
  send_request request None arrivals now self.

(** [UDSSessionManager.communication_control]; [bytes([...])] raises
    [ValueError] before a request exists. *)
Definition communication_control (control_type communication_type : Z)
    (arrivals : list Arrival) (now : time) (self : UDSSessionManager)
    : result (option Response.UDSResponse) * UDSSessionManager :=
  match bytes_of [control_type; communication_type] with
  | Raise e => (Raise e, self)
  | Ok data =>
      let request :=
        Request.mkUDSRequest COMMUNICATION_CONTROL data (Some control_type)
          2000 true in
      send_request request None arrivals now self
  end.

(** The frames waiting in the transmit queue of the session's channel. *)
Definition wire (self : UDSSessionManager) : list Can.CANFrame :=
  match isotp self with
  | Some p => IsoTp.tx_queue p
  | None => []
  end.

(** A session manager with the attributes that do not come from
    [__init__]: [_keep_alive_running] and [_keep_alive_thread] exist only
    once [keep_alive] or [stop_keep_alive] has assigned them ([None]: the
    attribute is missing). *)
Record Session : Type := mkSession {
  core : UDSSessionManager;
  response_thread_running : bool;
  _keep_alive_running : option bool;
  _keep_alive_thread : option unit
}.

(** A method that ends by returning or by raising [AttributeError]. *)
Inductive outcome (A : Type) : Type :=
| Returned (a : A)
| AttributeError (attribute : string).
Arguments Returned {A} a.
Arguments AttributeError {A} attribute.

(** [UDSSessionManager.__init__]: the response thread is started. *)
Definition new_session (p : option IsoTp.ISOTPProtocol) : Session :=
  mkSession (init p) true None None.

(** [keep_alive]: the attributes it assigns. *)
Definition keep_alive (s : Session) : Session :=
  mkSession (core s) (response_thread_running s) (Some true) (Some tt).

(** [stop_keep_alive] *)
Definition stop_keep_alive (s : Session) : outcome unit * Session :=
  let s :=
    mkSession (core s) (response_thread_running s) (Some false)
      (_keep_alive_thread s) in
  match _keep_alive_thread s with
  | None => (AttributeError "_keep_alive_thread", s)
  | Some _ => (Returned tt, s)
  end.

(** [stop_response_thread] *)
Definition stop_response_thread (s : Session) : Session :=
  mkSession (core s) false (_keep_alive_running s) (_keep_alive_thread s).

(** [close] *)
Definition close (s : Session) : outcome unit * Session :=
  match stop_keep_alive s with
  | (AttributeError a, s) => (AttributeError a, s)
  | (Returned _, s) =>
      let s := stop_response_thread s in
      (Returned tt,
       mkSession
         (set_response_queue [] (set_response_callbacks [] (core s)))
         (response_thread_running s) (_keep_alive_running s)
         (_keep_alive_thread s))
  end.

(** [UDSManager]: the sessions by id, in insertion order, over the ISO-TP
    registry they share. *)
Record UDSManager : Type := mkUDSManager {
  isotp_manager : IsoTpMore.ISOTPManager;
  sessions : StrDict.t Session
}.

(** [UDSManager.create_session] *)
Definition create_session (session_id : string)
    (isotp_config : IsoTp.Config.ISOTPConfig) (m : UDSManager)
    : option Session * UDSManager :=
  match StrDict.lookup session_id (sessions m) with
  | Some existing => (Some existing, m)
  | None =>
      let r :=
        IsoTpMore.create_protocol session_id isotp_config (isotp_manager m) in
      match fst r with
      | None => (None, mkUDSManager (snd r) (sessions m))
      | Some isotp_protocol =>
          let session_manager := new_session (Some isotp_protocol) in
          (Some session_manager,
           mkUDSManager (snd r)
             (StrDict.store session_id session_manager (sessions m)))
      end
  end.

(** [UDSManager.get_session] *)
Definition get_session (session_id : string) (m : UDSManager)
    : option Session :=
  StrDict.lookup session_id (sessions m).

(** [UDSManager.remove_session]: an exception in [close] leaves the
    method before anything is deleted. *)
Definition remove_session (session_id : string) (m : UDSManager)
    : outcome bool * UDSManager :=
  match StrDict.lookup session_id (sessions m) with
  | None => (Returned false, m)
  | Some session =>
      match close session with
      | (AttributeError a, session') =>
          (AttributeError a,
           mkUDSManager (isotp_manager m)
             (StrDict.store session_id session' (sessions m)))
      | (Returned _, _) =>
          (Returned true,
           mkUDSManager
             (snd (IsoTpMore.remove_protocol session_id (isotp_manager m)))
             (StrDict.delete session_id (sessions m)))
      end
  end.

End UdsMore.

(** ** [core/command_project_manager.py]: editing groups and projects *)

Module ProjectMore.
Import Project.

(** [cmd.id == command_id] *)
Definition has_id (command_id : string) (c : Cmd.Command) : bool :=
  String.eqb (Cmd.id c) command_id.

(** [CommandGroup.add_command] *)
Definition add_command (command : Cmd.Command) (g : Group.CommandGroup)
    : Group.CommandGroup :=
  Group.set_commands (Group.commands g ++ [command]) g.

(** The loop of [remove_command]: the first command with the id is
    popped; [None] when the loop ends without a match. *)
Fixpoint pop_first (command_id : string) (commands : list Cmd.Command)
    : option (list Cmd.Command) :=
  match commands with
  | [] => None
  | cmd :: rest =>
      if has_id command_id cmd then Some rest
      else option_map (cons cmd) (pop_first command_id rest)
  end.

(** [CommandGroup.remove_command] *)
Definition remove_command (command_id : string) (g : Group.CommandGroup)
    : bool * Group.CommandGroup :=
  match pop_first command_id (Group.commands g) with
  | Some commands => (true, Group.set_commands commands g)
  | None => (false, g)
  end.

(** [CommandGroup.get_command] *)
Definition get_command (command_id : string) (g : Group.CommandGroup)
    : option Cmd.Command :=
  find (has_id command_id) (Group.commands g).

(** [CommandProject.get_group] *)
Definition get_group (group_id : string) (p : Proj.CommandProject)
    : option Group.CommandGroup :=
  find (fun group => String.eqb (Group.id group) group_id) (Proj.groups p).

(** A change made to the object [get_group] returned: the first group with
    the id is the one that changes (the groups of a project are distinct
    objects). *)
Fixpoint update_group (group_id : string)
    (f : Group.CommandGroup -> Group.CommandGroup)
    (groups : list Group.CommandGroup) : list Group.CommandGroup :=
  match groups with
  | [] => []
  | group :: rest =>
      if String.eqb (Group.id group) group_id then f group :: rest
      else group :: update_group group_id f rest
  end.

(** [CommandProjectManager]: the projects by id. *)
Record CommandProjectManager : Type := mkCommandProjectManager {
  projects : StrDict.t Proj.CommandProject;
  current_project_id : option string
}.

(** [CommandProjectManager.get_project] *)
Definition get_project (project_id : string) (self : CommandProjectManager)
    : option Proj.CommandProject :=
  StrDict.lookup project_id (projects self).

(** [CommandProjectManager.create_command] *)
Definition create_command (project_id group_id : string)
    (command : Cmd.Command) (now : time) (self : CommandProjectManager)
    : bool * CommandProjectManager :=
  match get_project project_id self with
  | None => (false, self)
  | Some project =>
      match get_group group_id project with
      | None => (false, self)
      | Some group =>
          if existsb (has_id (Cmd.id command)) (Group.commands group) then
            (false, self)
          else
            let groups :=
              update_group group_id (add_command command)
                (Proj.groups project) in
            let project :=
              Proj.set_updated_at now (Proj.set_groups groups project) in
            (true,
             mkCommandProjectManager
               (StrDict.store project_id project (projects self))
               (current_project_id self))
      end
  end.

(** [CommandProjectManager.delete_command]: the group found is changed in
    place by its own [remove_command]. *)
Definition delete_command (project_id group_id command_id : string)
    (self : CommandProjectManager) : bool * CommandProjectManager :=
  match get_project project_id self with
  | None => (false, self)
  | Some project =>
      match get_group group_id project with
      | None => (false, self)
      | Some group =>
          let r := remove_command command_id group in
          let groups :=
            update_group group_id (fun _ => snd r) (Proj.groups project) in
          (fst r,
           mkCommandProjectManager
             (StrDict.store project_id (Proj.set_groups groups project)
                (projects self))
             (current_project_id self))
      end
  end.

(** The ids of the commands of a group, in order. *)
Definition command_ids (g : Group.CommandGroup) : list string :=
  map Cmd.id (Group.commands g).

End ProjectMore.

(** ** [core/command_project_manager.py]: what a run leaves behind *)

Module ExecutorMore.
Import Project.
Import Executor.

(** The group as the loop of [_execute_group] left it. *)
Definition group_of (o : outcome) : Group.CommandGroup :=
  match o with
  | Finished _ group => group
  | OutOfFuel _ group => group
  end.

(** What a command may differ in after a run from what it was before:
    status, time of the last execution, and the three counters, which
    only go up and whose increases add up. *)
Definition advanced (before after : Cmd.Command) : Prop :=
  Cmd.id after = Cmd.id before /\
  Cmd.name after = Cmd.name before /\
  Cmd.command_type after = Cmd.command_type before /\
  Cmd.send_mode after = Cmd.send_mode before /\
  Cmd.period after = Cmd.period before /\
  Cmd.enabled after = Cmd.enabled before /\
  Cmd.can_frame after = Cmd.can_frame before /\
  Cmd.uds_command after = Cmd.uds_command before /\
  Cmd.wait_command after = Cmd.wait_command before /\
  Cmd.comment_command after = Cmd.comment_command before /\
  Cmd.script_command after = Cmd.script_command before /\
  Cmd.success_count before <= Cmd.success_count after /\
  Cmd.fail_count before <= Cmd.fail_count after /\
  Cmd.execution_count after - Cmd.execution_count before
  = (Cmd.success_count after - Cmd.success_count before)
    + (Cmd.fail_count after - Cmd.fail_count before) /\
  (Cmd.enabled before = false -> after = before).

(** A world in which the stop event is set from the start. *)
Definition always_stopped (w : World) : Prop :=
  forall k, stop_is_set w k = true.

End ExecutorMore.

(** ** More sample inputs *)

Module MoreSamples.
Import IsoTp.

(** TesterPresent, [3E 00]. *)
Definition tester_present_bytes : bytes := [0x3E; 0x00].

(** The default configuration with CAN FD switched on. *)
Definition fd_config : Config.ISOTPConfig :=
  Config.mkISOTPConfig 0x7E0 0x7E8 NORMAL "standard" 0 8 0
    true true true 64 50 5000 5000 4095 4096 1000 true 0xCC.

Definition fd_idle : ISOTPProtocol := init fd_config.

(** 40 bytes: a single frame on CAN FD; 100 bytes: a segmented message. *)
Definition msg40 : bytes := repeat 0x55 40.
Definition msg100 : bytes := repeat 0x11 100.

(** A first frame announcing 20 bytes, [10 14 01 .. 06], addressed to the
    default object. *)
Definition first_frame_of_20 : Can.CANFrame :=
  Can.new 0 0x7E0 [0x10; 0x14; 0x01; 0x02; 0x03; 0x04; 0x05; 0x06]
    false false false false false false 0 0.




(** FC(Wait) as [decode_frame] delivers it. *)
Definition fc_wait : Frame.ISOTPFrame :=
  Frame.mkISOTPFrame FLOW_CONTROL_FRAME [] 0 WAIT 0 0.

(** A frame on an identifier nobody listens on. *)
Definition foreign_frame : Can.CANFrame :=
  Can.new 0 0x123 [0x02; 0x3E; 0x00] false false false false false false 0 0.

(** A registry whose only protocol is in the middle of a transmission. *)
Definition busy_registry : IsoTpMore.ISOTPManager :=
  [("uds"%string, Samples.after_first_frame)].

(** A registry with the default object and the peer. *)
Definition registry : IsoTpMore.ISOTPManager :=
  [("uds"%string, Samples.idle); ("peer"%string, Samples.peer)].

(** TesterPresent with the response suppressed, as [tester_present(True)]
    builds it. *)
Definition quiet_tester_present : Uds.Request.UDSRequest :=
  Uds.Request.mkUDSRequest UdsMore.TESTER_PRESENT [] (Some 0x80) 2000 false.

(** A UDS manager without sessions over an empty ISO-TP registry. *)
Definition no_sessions : UdsMore.UDSManager := UdsMore.mkUDSManager [] [].

(** A project manager holding the demo project. *)
Definition manager : ProjectMore.CommandProjectManager :=
  ProjectMore.mkCommandProjectManager
    [("p1"%string, Samples.project_twice)] (Some "p1"%string).

End MoreSamples.

(** * Part II: properties *)

(** ** Lists and byte strings *)

Lemma len_nonneg {A : Type} (l : list A) : 0 <= len l.
Proof. unfold len. lia. Qed.

Lemma len_app {A : Type} (l1 l2 : list A) : len (l1 ++ l2) = len l1 + len l2.
Proof. unfold len. rewrite length_app. lia. Qed.

Lemma len_nil_iff {A : Type} (l : list A) : len l = 0 <-> l = [].
Proof.
  unfold len. split.
  - destruct l; [reflexivity | simpl; lia].
  - intros ->. reflexivity.
Qed.

(** ** Claim C9: the DLC of a constructed CAN frame *)


Lemma post_init_keeps_payload (f : Can.CANFrame) :
  Can.data (Can.__post_init__ f) = Can.data f.
Proof.
  unfold Can.__post_init__. destruct (Can.dlc f =? 0); reflexivity.
Qed.

(** C9. Constructing a [CANFrame] with the default [dlc = 0] sets [dlc] to
    [len(data)]; hence no constructed frame with non-empty data carries
    DLC 0; and an explicitly supplied non-zero [dlc] is kept unchanged,
    whatever [len(data)] is. *)
Theorem canframe_post_init_dlc :
  forall (ts : time) (arb_id : Z) (d : bytes)
         (ext remote err fd brs esi : bool) (ch dlc0 : Z),
    let f := Can.new ts arb_id d ext remote err fd brs esi ch dlc0 in
    (dlc0 = Can.default_dlc -> Can.dlc f = len d) /\
    (d <> [] -> Can.dlc f <> 0) /\
    (dlc0 <> 0 -> Can.dlc f = dlc0) /\
    Can.data f = d.
Proof.
  intros ts arb_id d ext remote err fd brs esi ch dlc0 f.
  subst f. unfold Can.new, Can.__post_init__, Can.default_dlc. simpl.
  destruct (Z.eqb_spec dlc0 0) as [E | E]; simpl.
  - repeat split; try reflexivity; try congruence.
    intros Hd Hlen. apply len_nil_iff in Hlen. contradiction.
  - repeat split; try reflexivity; try congruence.
Qed.

(** A frame built with an explicit DLC of 8 around three data bytes keeps
    the DLC it was given. *)
Example canframe_explicit_dlc_kept :
  Can.dlc (Can.new 0 0x7E0 [0x02; 0x10; 0x01]
             false false false false false false 0 8) = 8.
Proof. reflexivity. Qed.

Example canframe_default_dlc_filled :
  Can.dlc (Can.new 0 0x7E0 [0x02; 0x10; 0x01]
             false false false false false false 0 Can.default_dlc) = 3.
Proof. reflexivity. Qed.

(** ** ISO-TP: decoding (claim C10) *)

Section Decode.
Import IsoTp.

Lemma decode_frame_catches (can_data : bytes) (is_fd : bool) (e : exn) :
  decode_frame_body can_data is_fd = Raise e ->
  decode_frame can_data is_fd = None.
Proof. unfold decode_frame. intros ->. reflexivity. Qed.

Lemma index_short (b : bytes) (i : nat) :
  len b <= Z.of_nat i -> index b i = Raise IndexError.
Proof.
  unfold len, index. intros H.
  assert (Hn : nth_error b i = None) by (apply nth_error_None; lia).
  rewrite Hn. reflexivity.
Qed.

Lemma flow_status_unknown (x : Z) :
  x <> 0 -> x <> 1 -> x <> 2 -> ISOTPFlowStatus_of x = Raise ValueError.
Proof.
  intros H0 H1 H2. unfold ISOTPFlowStatus_of.
  destruct (Z.eqb_spec x 0); [contradiction |].
  destruct (Z.eqb_spec x 1); [contradiction |].
  destruct (Z.eqb_spec x 2); [contradiction |].
  reflexivity.
Qed.

(** C10. [decode_frame] is total: every input yields a decoded frame or
    [None], an exception raised inside the body being turned into [None].
    It yields [None] for the empty input, for an extended single frame
    or a flow-control frame shorter than 3 bytes, for an extended first
    frame shorter than 4 bytes, and for a flow-control frame whose
    flow-status nibble is none of 0, 1, 2. *)
Theorem decode_frame_total :
  forall (can_data : bytes) (is_fd : bool),
    ((exists f, decode_frame can_data is_fd = Some f) \/
     decode_frame can_data is_fd = None) /\
    (forall e, decode_frame_body can_data is_fd = Raise e ->
               decode_frame can_data is_fd = None) /\
    (can_data = [] -> decode_frame can_data is_fd = None) /\
    (forall pci rest,
        can_data = pci :: rest ->
        let frame_type := Z.land (Z.shiftr pci 4) 0x0F in
        let pci_low := Z.land pci 0x0F in
        (frame_type = 0 -> pci_low = 0 -> len can_data < 3 ->
         decode_frame can_data is_fd = None) /\
        (frame_type = 3 -> len can_data < 3 ->
         decode_frame can_data is_fd = None) /\
        (frame_type = 1 -> pci_low = 0 -> len can_data < 4 ->
         decode_frame can_data is_fd = None) /\
        (frame_type = 3 -> pci_low <> 0 -> pci_low <> 1 -> pci_low <> 2 ->
         decode_frame can_data is_fd = None)).
Proof.
  intros can_data is_fd. split; [| split; [| split]].
  - destruct (decode_frame can_data is_fd) as [f |] eqn:E.
    + left. exists f. reflexivity.
    + right. reflexivity.
  - intros e. apply decode_frame_catches.
  - intros ->. reflexivity.
  - intros pci rest -> frame_type pci_low.
    unfold decode_frame, decode_frame_body.
    change (index (pci :: rest) 0) with (@Ok Z pci). cbn [rbind].
    fold frame_type. fold pci_low.
    repeat split.
    + intros Hft Hlow Hlen. rewrite Hft, Hlow. cbn [ISOTPFrameType_value Z.eqb].
      destruct (Z.ltb_spec (len (pci :: rest)) 3); [reflexivity | lia].
    + intros Hft Hlen. rewrite Hft. cbn [ISOTPFrameType_value Z.eqb].
      destruct (Z.ltb_spec (len (pci :: rest)) 3); [reflexivity | lia].
    + intros Hft Hlow Hlen. rewrite Hft, Hlow.
      cbn [ISOTPFrameType_value Z.eqb].
      destruct (Z.ltb_spec (len (pci :: rest)) 4); [reflexivity | lia].
    + intros Hft H0 H1 H2. rewrite Hft. cbn [ISOTPFrameType_value Z.eqb].
      destruct (len (pci :: rest) <? 3); [reflexivity |].
      rewrite (flow_status_unknown pci_low H0 H1 H2). reflexivity.
Qed.

(** Each case of C10 on a sample input, together with two inputs that decode. *)
Example decode_frame_samples :
  decode_frame [] false = None /\
  decode_frame [0x00; 0x05] true = None /\
  decode_frame [0x30; 0x08] false = None /\
  decode_frame [0x10; 0x00; 0x14] true = None /\
  decode_frame [0x33; 0x08; 0x00] false = None /\
  decode_frame [0x30; 0x08; 0x0A] false =
    Some (Frame.mkISOTPFrame FLOW_CONTROL_FRAME [] 0 CONTINUE 8 10) /\
  decode_frame [0x02; 0x10; 0x01; 0xCC; 0xCC; 0xCC; 0xCC; 0xCC] false =
    Some (frame_of SINGLE_FRAME [0x10; 0x01]).
Proof. repeat split. Qed.

End Decode.

(** ** ISO-TP: encoding and sending (claims C3 and C6) *)

(** Unfolds the monad operations and projects through the setters. *)
Ltac run_monad :=
  unfold IsoTp.bind, IsoTp.get, IsoTp.ret, IsoTp.modify, IsoTp.modify_tx,
         IsoTp.modify_rx, IsoTp.lift, IsoTp.try_except, IsoTp.tx_queue_put,
         IsoTp.rx_queue_put, IsoTp.stop_timer, IsoTp.start_timer,
         IsoTp.call_on_transmission_complete, IsoTp.call_on_error;
  cbn [fst snd IsoTp.config IsoTp.state IsoTp.tx IsoTp.rx IsoTp.timer
       IsoTp.on_data_received IsoTp.on_transmission_complete IsoTp.on_error
       IsoTp.rx_queue IsoTp.tx_queue IsoTp.calls IsoTp.set_state IsoTp.set_tx
       IsoTp.set_rx IsoTp.set_timer IsoTp.set_on_transmission_complete
       IsoTp.set_rx_queue IsoTp.set_tx_queue IsoTp.set_calls].

Section Sending.
Import IsoTp.
Import IsoTp.Config.

Lemma bytes_of_repeat (v : Z) (n : nat) :
  is_byte v = true -> bytes_of (repeat v n) = Ok (repeat v n).
Proof.
  intros Hv. unfold bytes_of.
  assert (H : forallb is_byte (repeat v n) = true).
  { induction n; simpl; [reflexivity | rewrite Hv, IHn; reflexivity]. }
  rewrite H. reflexivity.
Qed.

Lemma bytes_of_ok (xs : list Z) :
  forallb is_byte xs = true -> bytes_of xs = Ok xs.
Proof. unfold bytes_of. intros ->. reflexivity. Qed.

Lemma is_byte_range (x : Z) : 0 <= x < 256 -> is_byte x = true.
Proof.
  intros H. unfold is_byte. apply andb_true_iff.
  split; [apply Z.leb_le | apply Z.ltb_lt]; lia.
Qed.

(** The tail of [encode_frame]: padding and DLC never fail once the
    padding byte is a byte, and they leave the header in front. *)
Lemma encode_frame_tail (config : ISOTPConfig) (is_fd : bool)
    (frame_data : list Z) :
  padding_ok config = true ->
  exists padded dlc,
    rbind
      (if tx_padding config
          && (len frame_data <? (if is_fd then 64 else 8))
       then rbind
              (bytes_of (repeat (tx_padding_value config)
                 (Z.to_nat ((if is_fd then 64 else 8) - len frame_data))))
              (fun padding => Ok (frame_data ++ padding))
       else Ok frame_data)
      (fun padded =>
         Ok (padded,
             _calculate_dlc (len padded) is_fd
               (if is_fd then _get_fd_dlc_table
                else _get_standard_dlc_table)))
    = Ok (padded, dlc) /\
    firstn (List.length frame_data) padded = frame_data.
Proof.
  unfold padding_ok. intros Hp.
  destruct (tx_padding config) eqn:Epad; simpl in Hp |- *.
  - destruct (len frame_data <? (if is_fd then 64 else 8)).
    + rewrite (bytes_of_repeat _ _ Hp). cbn [rbind].
      eexists. eexists. split; [reflexivity |].
      rewrite firstn_app, Nat.sub_diag, firstn_all. simpl. apply app_nil_r.
    + cbn [rbind]. eexists. eexists. split; [reflexivity | apply firstn_all].
  - cbn [rbind]. eexists. eexists. split; [reflexivity | apply firstn_all].
Qed.

Lemma encode_single_ok (config : ISOTPConfig) (data : bytes) (is_fd : bool) :
  padding_ok config = true ->
  len data <= (if is_fd then 64 else 7) ->
  exists enc, encode_frame config (frame_of SINGLE_FRAME data) is_fd = Ok enc.
Proof.
  intros Hp Hlen. pose proof (len_nonneg data) as H0.
  unfold encode_frame.
  cbn [Frame.frame_type Frame.data frame_of ISOTPFrameType_value].
  change (Z.shiftl 0 4) with 0. rewrite !Z.lor_0_l.
  destruct (Z.leb_spec (len data) ((if is_fd then 64 else 8) - 1)) as [Hs | Hs].
  - rewrite bytes_of_ok.
    2:{ simpl. rewrite is_byte_range; [reflexivity | destruct is_fd; lia]. }
    cbn [rbind].
    destruct (encode_frame_tail config is_fd ([len data] ++ data) Hp)
      as [padded [dlc [E _]]].
    exists (padded, dlc). exact E.
  - destruct is_fd; [| lia]. cbn [negb orb].
    assert (Hd : len data = 64) by lia.
    destruct (Z.gtb_spec (len data) 4095); [lia |].
    rewrite bytes_of_ok.
    2:{ rewrite Hd. reflexivity. }
    cbn [rbind].
    destruct (encode_frame_tail config true
                ([0; Z.shiftr (len data) 8; Z.land (len data) 255] ++ data) Hp)
      as [padded [dlc [E _]]].
    exists (padded, dlc). exact E.
Qed.

Lemma len_firstn {A : Type} (l : list A) (n : nat) :
  len (firstn n l) = Z.min (Z.of_nat n) (len l).
Proof. unfold len. rewrite length_firstn. lia. Qed.

Lemma slice_prefix {A : Type} (l : list A) (n : Z) :
  slice l 0 n = firstn (Z.to_nat n) l.
Proof. unfold slice. rewrite Z.sub_0_r. reflexivity. Qed.

(** A first frame is encoded with the length of the data it is handed. *)
Lemma encode_first_ok (config : ISOTPConfig) (d : bytes) (is_fd : bool) :
  len d <= max_frame_size config ->
  len d = (if is_fd then 64 else 6) ->
  encode_frame config (frame_of FIRST_FRAME d) is_fd =
    Ok ([0x10; len d] ++ d, if is_fd then 15 else 8).
Proof.
  intros Hmax Hd. unfold encode_frame.
  cbn [Frame.frame_type Frame.data frame_of ISOTPFrameType_value].
  destruct (Z.gtb_spec (len d) (max_frame_size config)); [lia |].
  destruct (Z.leb_spec (len d) 4095); [| destruct is_fd; lia].
  assert (Hpci : bytes_of
            [Z.lor (Z.shiftl 1 4) (Z.shiftr (len d) 8); Z.land (len d) 255]
          = Ok [0x10; len d]).
  { rewrite Hd. destruct is_fd; reflexivity. }
  rewrite Hpci. cbn [rbind].
  assert (Hlen : len ([16; len d] ++ d) = (if is_fd then 66 else 8)).
  { rewrite len_app, Hd. destruct is_fd; reflexivity. }
  rewrite Hlen.
  destruct is_fd; rewrite andb_false_r; cbn [rbind]; rewrite Hlen; reflexivity.
Qed.

Lemma send_data_too_large (p : ISOTPProtocol) (data : bytes)
    (callback : option handle) (now : time) :
  max_frame_size (config p) < len data ->
  send_data data callback now p = (Ok false, p).
Proof.
  intros Hlen. unfold send_data. run_monad.
  destruct (negb (ISOTPState_eqb (state p) IDLE)); [reflexivity |].
  destruct (Z.gtb_spec (len data) (max_frame_size (config p))); [| lia].
  reflexivity.
Qed.

Lemma send_first_frame_queue (p : ISOTPProtocol) (data : bytes)
    (callback : option handle) (now : time) :
  state p = IDLE ->
  len data <= max_frame_size (config p) ->
  (if can_fd_enabled (config p) then 64 else 7) < len data ->
  let n := if can_fd_enabled (config p) then 64 else 6 in
  let r := send_data data callback now p in
  fst r = Ok true /\
  state (snd r) = WAITING_FOR_FC /\
  tx_queue (snd r) =
    tx_queue p ++
      [outgoing_frame (config p) now ([0x10; n] ++ firstn (Z.to_nat n) data)
         (if can_fd_enabled (config p) then 15 else 8)] /\
  tx_sequence (tx (snd r)) = 0 /\
  tx_remaining (tx (snd r)) = len data - n /\
  tx_next_frame_index (tx (snd r)) = n /\
  tx_total_length (tx (snd r)) = len data /\
  tx_buffer (tx (snd r)) = data /\
  config (snd r) = config p.
Proof.
  intros Hst Hmax Hlong n r. subst r.
  assert (Hslice : len (slice data 0 n) = n).
  { rewrite slice_prefix, len_firstn. subst n.
    destruct (can_fd_enabled (config p)); lia. }
  assert (Henc : encode_frame (config p) (frame_of FIRST_FRAME (slice data 0 n))
                   (can_fd_enabled (config p))
                 = Ok ([0x10; n] ++ slice data 0 n,
                       if can_fd_enabled (config p) then 15 else 8)).
  { rewrite <- Hslice at 2. apply encode_first_ok.
    - rewrite Hslice. subst n. destruct (can_fd_enabled (config p)); lia.
    - rewrite Hslice. reflexivity. }
  unfold send_data. run_monad. rewrite Hst. cbn [ISOTPState_eqb negb].
  destruct (Z.gtb_spec (len data) (max_frame_size (config p))); [lia |].
  assert (Hle : (len data <=? (if can_fd_enabled (config p) then 64 else 7))
                = false) by (apply Z.leb_gt; lia).
  destruct callback as [h |]; run_monad; rewrite Hle;
    unfold _send_first_frame; run_monad; fold n; rewrite Henc; run_monad;
    rewrite Hslice, slice_prefix;
    destruct (timer_running (timer p)); run_monad;
    cbn; repeat split; reflexivity.
Qed.

(** C3, as the code behaves.  The first frame of a multi-frame
    transmission carries in its PCI the length of the slice it holds
    (6 on classical CAN, 64 on CAN FD), because [_send_first_frame] hands
    [encode_frame] a frame whose data is only that slice: the bytes on the
    wire are [0x10], the slice length, then the slice.  The total message
    length does not appear in the frame. *)
Theorem first_frame_pci_carries_slice_length :
  forall (p : ISOTPProtocol) (data : bytes) (callback : option handle)
         (now : time),
    state p = IDLE ->
    len data <= max_frame_size (config p) ->
    (if can_fd_enabled (config p) then 64 else 7) < len data ->
    let n := if can_fd_enabled (config p) then 64 else 6 in
    exists f,
      tx_queue (snd (send_data data callback now p)) = tx_queue p ++ [f] /\
      Can.data f = [0x10; n] ++ firstn (Z.to_nat n) data.
Proof.
  intros p data callback now Hst Hmax Hlong n.
  destruct (send_first_frame_queue p data callback now Hst Hmax Hlong)
    as [_ [_ [Hq _]]].
  eexists. split; [exact Hq |].
  unfold outgoing_frame, Can.new. rewrite post_init_keeps_payload.
  reflexivity.
Qed.

Lemma send_single_frame_accepted (p : ISOTPProtocol) (data : bytes)
    (callback : option handle) (now : time) :
  state p = IDLE ->
  padding_ok (config p) = true ->
  len data <= max_frame_size (config p) ->
  len data <= (if can_fd_enabled (config p) then 64 else 7) ->
  fst (send_data data callback now p) = Ok true.
Proof.
  intros Hst Hp Hmax Hshort.
  destruct (encode_single_ok (config p) data (can_fd_enabled (config p))
              Hp Hshort) as [enc Henc].
  unfold send_data. run_monad. rewrite Hst. cbn [ISOTPState_eqb negb].
  destruct (Z.gtb_spec (len data) (max_frame_size (config p))); [lia |].
  assert (Hle : (len data <=? (if can_fd_enabled (config p) then 64 else 7))
                = true) by (apply Z.leb_le; lia).
  destruct callback as [h |]; run_monad; rewrite Hle;
    unfold _send_single_frame; run_monad; rewrite Henc; run_monad;
    destruct (on_transmission_complete p); cbn; reflexivity.
Qed.

Lemma send_data_accepted (p : ISOTPProtocol) (data : bytes)
    (callback : option handle) (now : time) :
  state p = IDLE ->
  padding_ok (config p) = true ->
  len data <= max_frame_size (config p) ->
  fst (send_data data callback now p) = Ok true.
Proof.
  intros Hst Hp Hmax.
  destruct (Z.le_gt_cases (len data)
              (if can_fd_enabled (config p) then 64 else 7)) as [Hs | Hl].
  - apply send_single_frame_accepted; assumption.
  - apply (send_first_frame_queue p data callback now Hst Hmax Hl).
Qed.

(** C6. A message strictly longer than [max_frame_size] (4095 by default)
    is refused by [send_data]: the call returns [False], no frame is put
    on the transmit queue, and the protocol object is left exactly as it
    was.  In particular an idle channel stays idle, and a following send of
    an admissible message is accepted. *)
Theorem send_data_too_large_rejected :
  forall (p : ISOTPProtocol) (data : bytes) (callback : option handle)
         (now : time),
    max_frame_size (config p) < len data ->
    let r := send_data data callback now p in
    fst r = Ok false /\
    snd r = p /\
    tx_queue (snd r) = tx_queue p /\
    (state p = IDLE ->
     state (snd r) = IDLE /\
     forall (data' : bytes) (callback' : option handle) (now' : time),
       padding_ok (config p) = true ->
       len data' <= max_frame_size (config p) ->
       fst (send_data data' callback' now' (snd r)) = Ok true).
Proof.
  intros p data callback now Hlen r. subst r.
  rewrite (send_data_too_large p data callback now Hlen). cbn [fst snd].
  repeat split; try assumption.
  intros data' callback' now' Hp Hmax.
  apply send_data_accepted; assumption.
Qed.

(** ** ISO-TP: flow control with block size 0 (claim C5) *)

(** C5, as the code behaves.  A flow-control frame FC(Continue, BS = 0)
    received while waiting for flow control puts no consecutive frame on
    the transmit queue: the loop runs [min(0, tx_remaining)] times.  The
    state becomes TRANSMITTING and the pending bytes stay pending. *)
Theorem flow_control_block_size_zero_sends_nothing :
  forall (p : ISOTPProtocol) (isotp_frame : Frame.ISOTPFrame) (now : time),
    state p = WAITING_FOR_FC ->
    Frame.flow_status isotp_frame = CONTINUE ->
    Frame.block_size isotp_frame = 0 ->
    let r := _process_flow_control_frame isotp_frame now p in
    fst r = Ok true /\
    tx_queue (snd r) = tx_queue p /\
    tx_remaining (tx (snd r)) = tx_remaining (tx p) /\
    state (snd r) = TRANSMITTING.
Proof.
  intros p isotp_frame now Hst Hfs Hbs r. subst r.
  unfold _process_flow_control_frame. run_monad.
  rewrite Hst, Hfs, Hbs. cbn [ISOTPState_eqb negb]. run_monad.
  assert (Hn : Z.to_nat (Z.min 0 (tx_remaining (tx p))) = 0%nat) by lia.
  rewrite Hn. cbn [send_block]. run_monad.
  destruct (timer_running (timer p)); run_monad; cbn; repeat split.
Qed.

(** ** ISO-TP: sequence numbers of consecutive frames (claim C4) *)

Lemma land_15_range (x : Z) : 0 <= Z.land x 0x0F < 16.
Proof.
  change 0x0F with (Z.ones 4). rewrite Z.land_ones by lia.
  apply Z.mod_pos_bound. reflexivity.
Qed.

Lemma land_15_mod (x : Z) : Z.land x 0x0F = x mod 16.
Proof. change 0x0F with (Z.ones 4). rewrite Z.land_ones by lia. reflexivity. Qed.

Lemma lor_32_nibble (x : Z) : 0 <= x < 16 -> Z.lor 32 x = 32 + x.
Proof.
  intros H.
  assert (C : x = 0 \/ x = 1 \/ x = 2 \/ x = 3 \/ x = 4 \/ x = 5 \/ x = 6 \/
              x = 7 \/ x = 8 \/ x = 9 \/ x = 10 \/ x = 11 \/ x = 12 \/
              x = 13 \/ x = 14 \/ x = 15) by lia.
  repeat (destruct C as [-> | C]; [reflexivity |]). subst x. reflexivity.
Qed.

(** A consecutive frame is encoded with the sequence number it is handed. *)
Lemma encode_consecutive_ok (config : ISOTPConfig) (d : bytes) (seq_no : Z)
    (is_fd : bool) :
  padding_ok config = true ->
  exists padded dlc,
    encode_frame config
      (Frame.mkISOTPFrame CONSECUTIVE_FRAME d seq_no CONTINUE 0 0) is_fd
    = Ok (padded, dlc) /\
    hd_error padded = Some (0x20 + seq_no mod 16).
Proof.
  intros Hp. unfold encode_frame.
  cbn [Frame.frame_type Frame.data Frame.sequence_number ISOTPFrameType_value].
  change (Z.shiftl 2 4) with 32.
  pose proof (land_15_range seq_no) as Hr.
  rewrite (lor_32_nibble _ Hr), land_15_mod.
  rewrite bytes_of_ok.
  2:{ cbn [forallb]. rewrite is_byte_range; [reflexivity |].
      rewrite land_15_mod in Hr. lia. }
  cbn [rbind].
  destruct (encode_frame_tail config is_fd ([32 + seq_no mod 16] ++ d) Hp)
    as [padded [dlc [E Hpre]]].
  exists padded, dlc. split; [exact E |].
  destruct padded as [| x rest]; [discriminate Hpre |].
  simpl in Hpre. injection Hpre as -> _. reflexivity.
Qed.

(** One call of [_send_consecutive_frame] with bytes left to send. *)
Lemma send_consecutive_frame_step (p : ISOTPProtocol) (now : time) :
  padding_ok (config p) = true ->
  0 < tx_remaining (tx p) ->
  let r := _send_consecutive_frame now p in
  exists f,
    fst r = Ok tt /\
    tx_queue (snd r) = tx_queue p ++ [f] /\
    hd_error (Can.data f) = Some (0x20 + tx_sequence (tx p) mod 16) /\
    tx_sequence (tx (snd r)) = (tx_sequence (tx p) + 1) mod 16 /\
    config (snd r) = config p.
Proof.
  intros Hp Hrem r. subst r.
  unfold _send_consecutive_frame. run_monad.
  destruct (Z.leb_spec (tx_remaining (tx p)) 0); [lia |].
  match goal with
  | |- context [encode_frame ?c (Frame.mkISOTPFrame _ ?d ?s _ _ _) ?fd] =>
      destruct (encode_consecutive_ok c d s fd Hp)
        as [padded [dlc [E Hhd]]]; rewrite E
  end.
  run_monad.
  exists (outgoing_frame (config p) now padded dlc).
  match goal with
  | |- context [if ?b then _ else _] => destruct b
  end; run_monad;
    [destruct (on_transmission_complete p) |];
    cbn; rewrite ?post_init_keeps_payload, ?land_15_mod;
    repeat split; try reflexivity;
    unfold outgoing_frame, Can.new; rewrite post_init_keeps_payload; exact Hhd.
Qed.

(** The frames put on the queue by the block loop are numbered upwards
    from the current [tx_sequence], modulo 16. *)
Lemma send_block_numbering (n : nat) (now : time) :
  forall p : ISOTPProtocol,
    padding_ok (config p) = true ->
    exists cfs,
      fst (send_block n now p) = Ok tt /\
      tx_queue (snd (send_block n now p)) = tx_queue p ++ cfs /\
      (List.length cfs <= n)%nat /\
      (forall i f,
          nth_error cfs i = Some f ->
          hd_error (Can.data f)
          = Some (0x20 + (tx_sequence (tx p) + Z.of_nat i) mod 16)).
Proof.
  induction n as [| n IH]; intros p Hp.
  - exists []. cbn. rewrite app_nil_r. repeat split; try lia.
    intros [| i] f Hf; discriminate Hf.
  - cbn [send_block]. unfold bind, get. cbn beta iota.
    destruct (Z.gtb_spec (tx_remaining (tx p)) 0) as [Hrem | Hrem].
    + destruct (send_consecutive_frame_step p now Hp Hrem)
        as [f [Hok [Hq [Hhd [Hseq Hcfg]]]]].
      destruct (_send_consecutive_frame now p) as [res p1] eqn:E.
      cbn [fst snd] in Hok, Hq, Hseq, Hcfg. subst res. cbn beta iota.
      assert (Hp1 : padding_ok (config p1) = true) by (rewrite Hcfg; exact Hp).
      destruct (IH p1 Hp1) as [cfs [Hok' [Hq' [Hlen Hnum]]]].
      exists (f :: cfs). repeat split.
      * exact Hok'.
      * rewrite Hq', Hq, <- app_assoc. reflexivity.
      * simpl. lia.
      * intros [| i] g Hg.
        -- injection Hg as <-. rewrite Z.add_0_r. exact Hhd.
        -- cbn [nth_error] in Hg. rewrite (Hnum i g Hg), Hseq.
           rewrite Zplus_mod_idemp_l. do 3 f_equal. lia.
    + exists []. cbn. rewrite app_nil_r. repeat split; try lia.
      intros [| i] f Hf; discriminate Hf.
Qed.

(** C4, as the code behaves.  In a multi-frame transmission the
    consecutive frames sent in answer to FC(Continue) carry, in order, the
    sequence numbers 0, 1, 2, ... modulo 16: [send_data] sets
    [tx_sequence] to 0, the first frame leaves it alone, and each
    consecutive frame is sent with the current value before it is
    incremented.  Counting from n = 1, the n-th consecutive frame carries
    (n - 1) mod 16, so the first one carries 0. *)
Theorem consecutive_frame_numbering :
  forall (p : ISOTPProtocol) (data : bytes) (callback : option handle)
         (now now' : time) (fc : Frame.ISOTPFrame),
    state p = IDLE ->
    padding_ok (config p) = true ->
    len data <= max_frame_size (config p) ->
    (if can_fd_enabled (config p) then 64 else 7) < len data ->
    Frame.flow_status fc = CONTINUE ->
    let p1 := snd (send_data data callback now p) in
    let r := _process_flow_control_frame fc now' p1 in
    exists cfs,
      fst r = Ok true /\
      tx_queue (snd r) = tx_queue p1 ++ cfs /\
      (forall i f,
          nth_error cfs i = Some f ->
          hd_error (Can.data f) = Some (0x20 + Z.of_nat i mod 16)).
Proof.
  intros p data callback now now' fc Hst Hp Hmax Hlong Hfs p1 r.
  destruct (send_first_frame_queue p data callback now Hst Hmax Hlong)
    as [_ [Hst1 [_ [Hseq1 [_ [_ [_ [_ Hcfg1]]]]]]]].
  fold p1 in Hst1, Hseq1, Hcfg1. subst r.
  unfold _process_flow_control_frame. run_monad.
  rewrite Hst1, Hfs. cbn [ISOTPState_eqb negb]. run_monad.
  match goal with
  | |- context [send_block ?n ?t ?q] =>
      destruct (send_block_numbering n t q) as [cfs [Hok [Hq [_ Hnum]]]];
      [ cbn; rewrite Hcfg1; exact Hp |];
      destruct (send_block n t q) as [res p2] eqn:E
  end.
  cbn [fst snd] in Hok, Hq. subst res.
  cbn [tx_queue set_tx set_rx set_state tx tx_sequence set_tx_block_counter]
    in Hq, Hnum.
  rewrite Hseq1 in Hnum.
  exists cfs.
  destruct (timer_running (timer p2)); run_monad; cbn [fst snd];
    (split; [reflexivity | split; [exact Hq | exact Hnum]]).
Qed.

End Sending.

(** ** ISO-TP: the theorems on sample transmissions *)

Section SampleTransmissions.
Import IsoTp.
Import IsoTp.Config.
Import Samples.

(** The first frame of the 20-byte message is [10 06 01 .. 06]: the second
    byte is 6, the slice length, where a total length of 20 would give
    [0x14]. *)
Example first_frame_of_20_bytes :
  fst (send_data msg20 None 0 idle) = Ok true /\
  map Can.data (tx_queue after_first_frame) =
    [[0x10; 0x06; 0x01; 0x02; 0x03; 0x04; 0x05; 0x06]].
Proof. split; reflexivity. Qed.

Lemma first_frame_pci_carries_slice_length_witness :
  exists f,
    tx_queue (snd (send_data msg20 None 0 idle)) = tx_queue idle ++ [f] /\
    Can.data f = [0x10; 6] ++ firstn 6 msg20.
Proof.
  apply (first_frame_pci_carries_slice_length idle msg20 None 0);
    vm_compute; first [reflexivity | discriminate].
Defined.

(** After FC(Continue, BS = 8) the two consecutive frames of the 20-byte
    message go out with PCI bytes [0x20] and [0x21]: sequence numbers 0
    and 1. *)
Example consecutive_frames_of_20_bytes :
  pci_bytes
    (tx_queue (snd (_process_flow_control_frame (fc_continue 8) 0
                      after_first_frame)))
  = [Some 0x10; Some 0x20; Some 0x21].
Proof. reflexivity. Qed.

(** Seventeen consecutive frames: the numbering runs 0 .. 15 and wraps
    to 0. *)
Example consecutive_frames_wrap :
  pci_bytes
    (skipn 1
       (tx_queue (snd (_process_flow_control_frame (fc_continue 20) 0
                         (snd (send_data msg125 None 0 idle))))))
  = map (fun s => Some (0x20 + s))
      [0; 1; 2; 3; 4; 5; 6; 7; 8; 9; 10; 11; 12; 13; 14; 15; 0].
Proof. vm_compute. reflexivity. Qed.

Lemma consecutive_frame_numbering_witness :
  exists cfs,
    fst (_process_flow_control_frame (fc_continue 8) 0 after_first_frame)
    = Ok true /\
    tx_queue (snd (_process_flow_control_frame (fc_continue 8) 0
                     after_first_frame))
    = tx_queue after_first_frame ++ cfs /\
    (forall i f,
        nth_error cfs i = Some f ->
        hd_error (Can.data f) = Some (0x20 + Z.of_nat i mod 16)).
Proof.
  apply (consecutive_frame_numbering idle msg20 None 0 0 (fc_continue 8));
    vm_compute; first [reflexivity | discriminate].
Defined.

(** The receiving half of the same class starts with
    [rx_next_sequence = 1]: a peer that has taken the sender's first frame
    turns the sender's first consecutive frame down as a sequence mismatch
    and ends in the ERROR state. *)
Example peer_rejects_first_consecutive_frame :
  let sent :=
    tx_queue (snd (_process_flow_control_frame (fc_continue 8) 0
                     after_first_frame)) in
  rx_next_sequence (rx (snd (deliver (firstn 1 sent) peer))) = 1 /\
  fst (deliver (firstn 2 sent) peer) = [Ok true; Ok false] /\
  state (snd (deliver (firstn 2 sent) peer)) = ERROR.
Proof. vm_compute. repeat split. Qed.

(** With BS = 0 nothing follows the first frame. *)
Example block_size_zero_on_20_bytes :
  let r := _process_flow_control_frame (fc_continue 0) 0 after_first_frame in
  fst r = Ok true /\
  pci_bytes (tx_queue (snd r)) = [Some 0x10] /\
  tx_remaining (tx (snd r)) = 14 /\
  state (snd r) = TRANSMITTING.
Proof. vm_compute. repeat split. Qed.

Lemma flow_control_block_size_zero_witness :
  fst (_process_flow_control_frame (fc_continue 0) 0 after_first_frame)
  = Ok true /\
  tx_queue (snd (_process_flow_control_frame (fc_continue 0) 0
                   after_first_frame))
  = tx_queue after_first_frame /\
  tx_remaining (tx (snd (_process_flow_control_frame (fc_continue 0) 0
                           after_first_frame)))
  = tx_remaining (tx after_first_frame) /\
  state (snd (_process_flow_control_frame (fc_continue 0) 0
                after_first_frame))
  = TRANSMITTING.
Proof.
  apply (flow_control_block_size_zero_sends_nothing after_first_frame
           (fc_continue 0) 0); reflexivity.
Defined.

(** With a positive block size the same frame releases consecutive
    frames; the sender treats only a positive BS as a grant. *)
Example block_size_eight_on_20_bytes :
  state (snd (_process_flow_control_frame (fc_continue 8) 0
                after_first_frame)) = IDLE.
Proof. reflexivity. Qed.

Example default_max_frame_size : max_frame_size Config.default = 4095.
Proof. reflexivity. Qed.

Lemma send_data_too_large_rejected_witness :
  fst (send_data msg4096 None 0 idle) = Ok false /\
  snd (send_data msg4096 None 0 idle) = idle /\
  fst (send_data msg20 None 0 (snd (send_data msg4096 None 0 idle)))
  = Ok true.
Proof.
  assert (H : max_frame_size (config idle) < len msg4096)
    by (vm_compute; reflexivity).
  destruct (send_data_too_large_rejected idle msg4096 None 0 H)
    as [Hr [Hs [_ Hnext]]].
  split; [exact Hr | split; [exact Hs |]].
  destruct (Hnext eq_refl) as [_ Hacc].
  apply Hacc; vm_compute; first [reflexivity | discriminate].
Defined.

End SampleTransmissions.


(** ** UDS: response classification and response-pending (claims C1, C2) *)

Section UdsSession.
Import Uds.

Lemma dict_get_del_other (k k' : Z) (d : callbacks) :
  k <> k' -> dict_get k (dict_del k' d) = dict_get k d.
Proof.
  intros Hne. induction d as [| [k0 w] d IH]; [reflexivity |].
  cbn [dict_del dict_get].
  destruct (Z.eqb_spec k0 k') as [-> | Hk0].
  - destruct (Z.eqb_spec k' k); [congruence | exact IH].
  - cbn [dict_get]. rewrite IH. reflexivity.
Qed.

Lemma dict_get_set_same (k : Z) (w : Waiter) (d : callbacks) :
  dict_get k (dict_set k w d) = Some w.
Proof. unfold dict_set. cbn [dict_get]. rewrite Z.eqb_refl. reflexivity. Qed.

Lemma dict_get_set_other (k k' : Z) (w : Waiter) (d : callbacks) :
  k <> k' -> dict_get k (dict_set k' w d) = dict_get k d.
Proof.
  intros Hne. unfold dict_set. cbn [dict_get].
  destruct (Z.eqb_spec k' k); [congruence |].
  apply dict_get_del_other. exact Hne.
Qed.

Lemma classify_other_first_byte (B : Z) (rest : bytes) (now : time) :
  B <> 0x7F -> B <> 0x40 -> classify (B :: rest) now = Ok Invalid.
Proof.
  intros H7F H40. unfold classify.
  assert (Hlen : (len (B :: rest) <? 1) = false).
  { apply Z.ltb_ge. unfold len. cbn [List.length]. lia. }
  rewrite Hlen. change (index (B :: rest) 0) with (@Ok Z B). cbn [rbind].
  cbn [UDSResponseCode_value].
  destruct (Z.eqb_spec B 0x7F); [contradiction |].
  destruct (Z.eqb_spec B 0x40); [contradiction |].
  reflexivity.
Qed.

(** C1, as the code behaves.  [_process_response] accepts as a positive
    response only a message whose first byte equals 0x40; every message
    whose first byte is neither 0x7F nor 0x40 - among them every first byte
    (SID + 0x40) of a real positive response, such as 0x62 - is logged as an
    invalid response format and dropped: nothing is queued and no callback
    is called. *)
Theorem positive_response_needs_first_byte_0x40 :
  forall (B : Z) (rest : bytes) (now : time) (self : UDSSessionManager),
    B <> 0x7F ->
    B <> 0x40 ->
    classify (B :: rest) now = Ok Invalid /\
    _process_response (B :: rest) now self
    = logger (LogWarning "Invalid response format") self /\
    response_queue (_process_response (B :: rest) now self)
    = response_queue self /\
    response_callbacks (_process_response (B :: rest) now self)
    = response_callbacks self.
Proof.
  intros B rest now self H7F H40.
  pose proof (classify_other_first_byte B rest now H7F H40) as Hc.
  unfold _process_response. rewrite Hc. repeat split.
Qed.





End UdsSession.

(** ** UDS: the theorems on sample exchanges *)

Section SampleExchanges.
Import Uds.
Import Samples.

Lemma positive_response_needs_first_byte_0x40_witness :
  classify vin_reply 10 = Ok Invalid /\
  _process_response vin_reply 10 session
  = logger (LogWarning "Invalid response format") session /\
  response_queue (_process_response vin_reply 10 session)
  = response_queue session /\
  response_callbacks (_process_response vin_reply 10 session)
  = response_callbacks session.
Proof.
  apply (positive_response_needs_first_byte_0x40 0x62 (tl vin_reply) 10
           session); discriminate.
Defined.

(** The reply [62 F1 81 ...] to the outstanding request [22 F1 81] is not
    correlated with it: the call times out. *)
Example positive_reply_is_not_correlated :
  let r := send_request rdbi_request None [mkArrival 10 vin_reply] 0 session in
  fst r = Ok None /\
  log (snd r) = [LogDebug "Sending UDS request";
                 LogWarning "Invalid response format";
                 LogWarning "Timeout waiting for response"].
Proof. vm_compute. split; reflexivity. Qed.

(** Only the first byte 0x40 passes as positive, with service id 0. *)
Example first_byte_0x40_is_positive :
  classify [0x40; 0x01] 0
  = Ok (Classified 0
          (Response.mkUDSResponse 0 [0x01] None POSITIVE_RESPONSE None 0 None)
          (LogDebug "Positive response")).
Proof. reflexivity. Qed.



End SampleExchanges.


(** ** Command executor: the group loop (claim C8) *)

Section GroupLoop.
Import Project.
Import Executor.

Lemma entered_app (t1 t2 : list event) :
  entered (t1 ++ t2) = entered t1 ++ entered t2.
Proof.
  induction t1 as [| e t1 IH]; [reflexivity |].
  destruct e; cbn [app entered]; rewrite IH; reflexivity.
Qed.

Lemma group_gaps_app (t1 t2 : list event) :
  group_gaps (t1 ++ t2) = group_gaps t1 ++ group_gaps t2.
Proof.
  induction t1 as [| e t1 IH]; [reflexivity |].
  destruct e as [| | | | | [|] ms]; cbn [app group_gaps]; rewrite IH;
    reflexivity.
Qed.

Lemma bind_events {A B : Type} (m : E A) (k : A -> E B)
    (self : CommandExecutor) :
  events (bind m k self)
  = events (m self) ++ events (k (value (m self)) (snd (m self))).
Proof.
  unfold bind, events, value.
  destruct (m self) as [[a t1] s1]. cbn [fst snd].
  destruct (k a s1) as [[b t2] s2]. reflexivity.
Qed.

Lemma bind_value {A B : Type} (m : E A) (k : A -> E B)
    (self : CommandExecutor) :
  value (bind m k self) = value (k (value (m self)) (snd (m self))).
Proof.
  unfold bind, value.
  destruct (m self) as [[a t1] s1]. cbn [fst snd].
  destruct (k a s1) as [[b t2] s2]. reflexivity.
Qed.

Lemma bind_state {A B : Type} (m : E A) (k : A -> E B)
    (self : CommandExecutor) :
  snd (bind m k self) = snd (k (value (m self)) (snd (m self))).
Proof.
  unfold bind, value.
  destruct (m self) as [[a t1] s1]. cbn [fst snd].
  destruct (k a s1) as [[b t2] s2]. reflexivity.
Qed.

Lemma hook_quiet (which : Hooks -> bool) (name subject : string)
    (self : CommandExecutor) :
  entered (events (hook which name subject self)) = [] /\
  group_gaps (events (hook which name subject self)) = [].
Proof.
  unfold hook, bind, get, events. cbn [fst snd].
  destruct (which (hooks self)); split; reflexivity.
Qed.

(** Executing one command enters no command and sleeps in no gap. *)
Lemma execute_command_quiet (w : World) (command : Cmd.Command) (now : time)
    (self : CommandExecutor) :
  entered (events (_execute_command w command now self)) = [] /\
  group_gaps (events (_execute_command w command now self)) = [].
Proof.
  unfold _execute_command, _execute_can_frame_command, _execute_uds_command,
    _execute_wait_command, _execute_comment_command, _execute_script_command,
    is_some, events, bind, get, ret, emit, next_call, start_thread.
  destruct (Cmd.command_type command);
    repeat match goal with
           | |- context [match ?x with _ => _ end] =>
               lazymatch x with
               | context [match _ with _ => _ end] => fail
               | _ => destruct x
               end
           | |- context [if ?x then _ else _] =>
               lazymatch x with
               | context [if _ then _ else _] => fail
               | context [match _ with _ => _ end] => fail
               | _ => destruct x
               end
           end; cbn; split; reflexivity.
Qed.

Lemma poll_stop_never (w : World) (self : CommandExecutor) :
  never_stopped w ->
  value (poll_stop w self) = false /\ events (poll_stop w self) = [].
Proof. intros H. unfold poll_stop, value, events. cbn. rewrite H. split; reflexivity. Qed.

Lemma enabled_ids_cons (c : Cmd.Command) (cs : list Cmd.Command) :
  enabled_ids (c :: cs)
  = if Cmd.enabled c then Cmd.id c :: enabled_ids cs else enabled_ids cs.
Proof. unfold enabled_ids. cbn [filter]. destruct (Cmd.enabled c); reflexivity. Qed.

Lemma run_commands_never_stopped (w : World) (now : time) :
  never_stopped w ->
  forall (commands : list Cmd.Command) (self : CommandExecutor),
    entered (events (run_commands w now commands self))
    = enabled_ids commands /\
    group_gaps (events (run_commands w now commands self)) = [] /\
    enabled_ids (value (run_commands w now commands self))
    = enabled_ids commands.
Proof.
  intros Hns. induction commands as [| c rest IH]; intros self.
  - repeat split.
  - cbn [run_commands]. rewrite enabled_ids_cons.
    destruct (Cmd.enabled c) eqn:Hen; cbn [negb].
    + rewrite !bind_events, !bind_value.
      destruct (poll_stop_never w self Hns) as [Hv He]. rewrite Hv, He.
      set (s1 := snd (poll_stop w self)).
      repeat rewrite ?bind_events, ?bind_value, ?bind_state.
      cbn [app].
      change (events (emit (CommandEntered (Cmd.id c)) s1))
        with [CommandEntered (Cmd.id c)].
      change (snd (emit (CommandEntered (Cmd.id c)) s1)) with s1.
      set (s2 := snd (hook on_command_started "on_command_started"
                        (Cmd.id c) s1)).
      set (r := _execute_command w c now s2).
      repeat rewrite ?bind_events, ?bind_value, ?bind_state.
      match goal with
      | |- context [poll_stop w ?s] =>
          destruct (poll_stop_never w s Hns) as [Hv' He']; rewrite Hv', He';
          set (s4 := snd (poll_stop w s))
      end.
      repeat rewrite ?bind_events, ?bind_value, ?bind_state.
      destruct (IH s4) as [IH1 [IH2 IH3]].
      destruct (hook_quiet on_command_started "on_command_started"
                  (Cmd.id c) s1) as [Hh1 Hh2].
      destruct (execute_command_quiet w c now s2) as [Hc1 Hc2]. fold r in Hc1, Hc2.
      repeat split.
      * cbn [app entered events fst snd ret].
        rewrite !entered_app, Hh1, Hc1, IH1. cbn [app].
        destruct (value r);
          match goal with
          | |- context [hook ?f ?n ?x ?s] =>
              destruct (hook_quiet f n x s) as [-> _]
          end; cbn [app entered]; rewrite ?app_nil_r; reflexivity.
      * cbn [app group_gaps events fst snd ret].
        rewrite !group_gaps_app, Hh2, Hc2, IH2. cbn [app].
        destruct (value r);
          match goal with
          | |- context [hook ?f ?n ?x ?s] =>
              destruct (hook_quiet f n x s) as [_ ->]
          end; cbn [app group_gaps]; rewrite ?app_nil_r; reflexivity.
      * cbn [value ret fst]. rewrite enabled_ids_cons.
        cbn [record_result Cmd.enabled Cmd.id]. rewrite Hen.
        f_equal. exact IH3.
    + rewrite !bind_events, !bind_value. destruct (IH self) as [IH1 [IH2 IH3]].
      cbn [events value ret fst snd]. rewrite app_nil_r.
      repeat split; try assumption.
      rewrite enabled_ids_cons, Hen. exact IH3.
Qed.

Lemma ret_events {A : Type} (a : A) (self : CommandExecutor) :
  events (ret a self) = [].
Proof. reflexivity. Qed.

Lemma ret_value {A : Type} (a : A) (self : CommandExecutor) :
  value (ret a self) = a.
Proof. reflexivity. Qed.

Lemma concat_repeat_succ {A : Type} (l : list A) (n : nat) :
  List.concat (repeat l (S n)) = l ++ List.concat (repeat l n).
Proof. reflexivity. Qed.

(** The loop with a positive repeat count, never stopped: from
    [repeat_count = rc] it runs the remaining [n - rc] passes and ends. *)
Lemma group_loop_bounded (w : World) (now : time) :
  never_stopped w ->
  forall (k : nat) (fuel : nat) (group : Group.CommandGroup) (rc : Z)
         (self : CommandExecutor),
    0 <= rc ->
    Z.of_nat k = Group.repeat_count group - rc ->
    (k <= fuel)%nat ->
    (0 < k)%nat ->
    exists group',
      value (group_loop fuel w now group rc self)
      = Finished (Group.repeat_count group) group' /\
      entered (events (group_loop fuel w now group rc self))
      = List.concat (repeat (enabled_ids (Group.commands group)) k) /\
      group_gaps (events (group_loop fuel w now group rc self)) = [].
Proof.
  intros Hns. induction k as [| k IH]; intros fuel group rc self Hrc Hk Hfuel Hpos;
    [lia |].
  destruct fuel as [| fuel]; [lia |].
  cbn [group_loop].
  assert (Hlt : (rc <? Group.repeat_count group) = true)
    by (apply Z.ltb_lt; lia).
  rewrite Hlt. cbn [orb].
  rewrite bind_events, bind_value.
  destruct (poll_stop_never w self Hns) as [Hv He]. rewrite Hv, He.
  set (s1 := snd (poll_stop w self)).
  repeat rewrite ?bind_events, ?bind_value, ?bind_state.
  destruct (run_commands_never_stopped w now Hns (Group.commands group) s1)
    as [R1 [R2 R3]].
  set (r := run_commands w now (Group.commands group) s1) in *.
  assert (Hgt : (Group.repeat_count group >? 0) = true)
    by (apply Z.gtb_lt; lia).
  cbn [Group.repeat_count Group.set_commands]. rewrite Hgt. cbn [andb].
  destruct (Z.geb_spec (rc + 1) (Group.repeat_count group)) as [Hge | Hnge].
  - assert (k = 0%nat) by lia. subst k.
    exists (Group.set_commands (value r) group).
    rewrite ret_events, ret_value. cbn [app].
    assert (Hn : rc + 1 = Group.repeat_count group) by lia.
    rewrite Hn, !app_nil_r, R1, R2. cbn [repeat List.concat].
    rewrite app_nil_r. repeat split.
  - destruct (IH fuel (Group.set_commands (value r) group) (rc + 1) (snd r))
      as [group' [G1 [G2 G3]]];
      try (cbn [Group.repeat_count Group.set_commands]; lia).
    exists group'.
    cbn [app]. rewrite entered_app, group_gaps_app.
    cbn [Group.repeat_count Group.set_commands Group.commands] in G1, G2, G3.
    rewrite R3 in G2.
    rewrite G1, G2, G3, R1, R2. repeat split.
Qed.

(** With [repeat_count = 0] and nobody stopping it, the loop is still
    running after any number of passes. *)
Lemma group_loop_unbounded (w : World) (now : time) :
  never_stopped w ->
  forall (fuel : nat) (group : Group.CommandGroup) (rc : Z)
         (self : CommandExecutor),
    Group.repeat_count group = 0 ->
    exists group',
      value (group_loop fuel w now group rc self)
      = OutOfFuel (rc + Z.of_nat fuel) group' /\
      entered (events (group_loop fuel w now group rc self))
      = List.concat (repeat (enabled_ids (Group.commands group)) fuel) /\
      group_gaps (events (group_loop fuel w now group rc self)) = [].
Proof.
  intros Hns. induction fuel as [| fuel IH]; intros group rc self Hzero.
  - exists group. cbn [group_loop]. rewrite Hzero, orb_true_r.
    rewrite ret_events, ret_value, Z.add_0_r. repeat split.
  - cbn [group_loop]. rewrite Hzero, orb_true_r.
    change (0 >? 0) with false. cbn [andb].
    repeat rewrite ?bind_events, ?bind_value, ?bind_state.
    destruct (poll_stop_never w self Hns) as [Hv He]. rewrite Hv, He.
    set (s1 := snd (poll_stop w self)).
    repeat rewrite ?bind_events, ?bind_value, ?bind_state.
    destruct (run_commands_never_stopped w now Hns (Group.commands group) s1)
      as [R1 [R2 R3]].
    set (r := run_commands w now (Group.commands group) s1) in *.
    destruct (IH (Group.set_commands (value r) group) (rc + 1) (snd r))
      as [group' [G1 [G2 G3]]]; [exact Hzero |].
    exists group'.
    cbn [app]. rewrite entered_app, group_gaps_app.
    cbn [Group.repeat_count Group.set_commands Group.commands] in G1, G2, G3.
    rewrite R3 in G2.
    rewrite G1, G2, G3, R1, R2. cbn [repeat List.concat].
    repeat split. f_equal. lia.
Qed.

(** A stop request seen at the top of a pass ends the loop on the spot. *)
Lemma group_loop_stopped (w : World) (now : time) (fuel : nat)
    (group : Group.CommandGroup) (rc : Z) (self : CommandExecutor) :
  stop_is_set w (polls self) = true ->
  value (group_loop (S fuel) w now group rc self) = Finished rc group /\
  events (group_loop (S fuel) w now group rc self) = [].
Proof.
  intros Hstop. cbn [group_loop].
  destruct ((rc <? Group.repeat_count group)
            || (Group.repeat_count group =? 0)).
  - rewrite bind_events, bind_value.
    assert (Hv : value (poll_stop w self) = true) by exact Hstop.
    rewrite Hv. split; reflexivity.
  - split; reflexivity.
Qed.

Lemma execute_group_ends (w : World) (now : time) (fuel : nat)
    (group : Group.CommandGroup) (self : CommandExecutor) :
  never_stopped w ->
  Group.repeat_count group <> 0 ->
  (Z.to_nat (Group.repeat_count group) <= fuel)%nat ->
  exists n group',
    value (_execute_group fuel w now group self) = Finished n group' /\
    group_gaps (events (_execute_group fuel w now group self)) = [].
Proof.
  intros Hns Hnz Hfuel.
  destruct (Z.lt_ge_cases 0 (Group.repeat_count group)) as [Hpos | Hneg].
  - destruct (group_loop_bounded w now Hns
                (Z.to_nat (Group.repeat_count group)) fuel group 0 self)
      as [group' [G1 [_ G3]]]; try lia.
    exists (Group.repeat_count group), group'. split; assumption.
  - exists 0, group. unfold _execute_group.
    destruct fuel; cbn [group_loop];
      destruct (Z.ltb_spec 0 (Group.repeat_count group)); try lia;
      destruct (Z.eqb_spec (Group.repeat_count group) 0); try lia;
      split; reflexivity.
Qed.

(** Between groups: after the loop of an enabled group has ended,
    [_execute_project] sleeps that group's [repeat_interval] once, when it
    is positive. *)
Lemma run_groups_gaps (w : World) (now : time) (fuel : nat) :
  never_stopped w ->
  forall (groups : list Group.CommandGroup) (self : CommandExecutor),
    Forall (fun g => Group.repeat_count g <> 0 /\
                     (Z.to_nat (Group.repeat_count g) <= fuel)%nat) groups ->
    (exists groups',
       value (run_groups fuel w now groups self) = Some groups') /\
    group_gaps (events (run_groups fuel w now groups self))
    = map Group.repeat_interval
        (filter (fun g => Group.enabled g && (Group.repeat_interval g >? 0))
           groups).
Proof.
  intros Hns. induction groups as [| g rest IH]; intros self Hall.
  - split; [exists []; reflexivity | reflexivity].
  - inversion Hall as [| g' rest' [Hnz Hfuel] Hrest]; subst.
    cbn [run_groups filter].
    destruct (Group.enabled g) eqn:Hen; cbn [negb andb].
    + repeat rewrite ?bind_events, ?bind_value, ?bind_state.
      destruct (poll_stop_never w self Hns) as [Hv He]. rewrite Hv, He.
      set (s1 := snd (poll_stop w self)).
      repeat rewrite ?bind_events, ?bind_value, ?bind_state.
      destruct (hook_quiet on_group_started "on_group_started" (Group.id g) s1)
        as [_ Hh]. rewrite !group_gaps_app, Hh.
      set (s2 := snd (hook on_group_started "on_group_started" (Group.id g) s1)).
      destruct (execute_group_ends w now fuel g s2 Hns Hnz Hfuel)
        as [n [g1 [Hval Hgap]]].
      rewrite Hval, Hgap.
      set (s3 := snd (_execute_group fuel w now g s2)).
      repeat rewrite ?bind_events, ?bind_value, ?bind_state.
      destruct (hook_quiet on_group_completed "on_group_completed"
                  (Group.id g) s3) as [_ Hh']. rewrite !group_gaps_app, Hh'.
      set (s4 := snd (hook on_group_completed "on_group_completed"
                        (Group.id g) s3)).
      destruct (poll_stop_never w s4 Hns) as [Hv4 He4]. rewrite Hv4, He4.
      set (s5 := snd (poll_stop w s4)).
      repeat rewrite ?bind_events, ?bind_value, ?bind_state.
      rewrite !group_gaps_app.
      destruct (Group.repeat_interval g >? 0) eqn:Hint.
      * repeat rewrite ?bind_events, ?bind_value, ?bind_state.
        destruct (poll_stop_never w s5 Hns) as [Hv5 He5]. rewrite Hv5, He5.
        set (s6 := snd (poll_stop w s5)).
        destruct (IH s6 Hrest) as [[groups' Hg] Hgaps].
        change (snd (emit (Sleep BetweenGroups (Group.repeat_interval g)) s6))
          with s6.
        change (events (emit (Sleep BetweenGroups (Group.repeat_interval g))
                          s6))
          with [Sleep BetweenGroups (Group.repeat_interval g)].
        rewrite ret_events, ret_value, Hg, Hgaps.
        split; [eexists; reflexivity |].
        cbn [group_gaps app map]. rewrite ?app_nil_r. reflexivity.
      * destruct (IH s5 Hrest) as [[groups' Hg] Hgaps].
        change (snd (ret tt s5)) with s5.
        rewrite ret_events, ret_value, Hg, Hgaps.
        split; [eexists; reflexivity |].
        cbn [group_gaps app map]. rewrite ?app_nil_r. reflexivity.
    + repeat rewrite ?bind_events, ?bind_value, ?bind_state.
      destruct (IH self Hrest) as [[groups' Hg] Hgaps].
      rewrite ret_events, ret_value, Hg, app_nil_r, Hgaps.
      split; [eexists; reflexivity | reflexivity].
Qed.

(** *** The loop under a stop request *)

Lemma bind_unfold {A B : Type} (m : E A) (k : A -> E B) (self : CommandExecutor) :
  bind m k self
  = (value (k (value (m self)) (snd (m self))),
     events (m self) ++ events (k (value (m self)) (snd (m self))),
     snd (k (value (m self)) (snd (m self)))).
Proof.
  unfold bind, value, events.
  destruct (m self) as [[a t1] s1]. cbn [fst snd].
  destruct (k a s1) as [[b t2] s2]. reflexivity.
Qed.

Lemma hook_state (which : Hooks -> bool) (name subject : string)
    (self : CommandExecutor) :
  snd (hook which name subject self) = self.
Proof.
  unfold hook, bind, get. destruct (which (hooks self)); reflexivity.
Qed.

Lemma hook_no_sleep (which : Hooks -> bool) (name subject : string)
    (self : CommandExecutor) (site : sleep_site) (ms : Z) :
  ~ In (Sleep site ms) (events (hook which name subject self)).
Proof.
  unfold hook, bind, get, events. cbn [fst snd].
  destruct (which (hooks self)); cbn; intros H;
    repeat (destruct H as [H | H]; try discriminate H); contradiction.
Qed.

Ltac split_command_cases :=
  repeat match goal with
         | |- context [match ?x with _ => _ end] =>
             lazymatch x with
             | context [match _ with _ => _ end] => fail
             | _ => destruct x eqn:?
             end
         | |- context [if ?x then _ else _] =>
             lazymatch x with
             | context [if _ then _ else _] => fail
             | context [match _ with _ => _ end] => fail
             | _ => destruct x eqn:?
             end
         end.

Lemma execute_command_polls (w : World) (command : Cmd.Command) (now : time)
    (self : CommandExecutor) :
  polls (snd (_execute_command w command now self)) = polls self.
Proof.
  unfold _execute_command, _execute_can_frame_command, _execute_uds_command,
    _execute_wait_command, _execute_comment_command, _execute_script_command,
    is_some, bind, get, ret, emit, next_call, start_thread.
  destruct (Cmd.command_type command); split_command_cases; reflexivity.
Qed.

Lemma execute_command_sleeps (w : World) (command : Cmd.Command) (now : time)
    (self : CommandExecutor) (site : sleep_site) (ms : Z) :
  In (Sleep site ms) (events (_execute_command w command now self)) ->
  site = InWaitCommand /\ In ms (wait_durations [command]).
Proof.
  unfold wait_durations. cbn [flat_map]. rewrite app_nil_r.
  unfold _execute_command, _execute_can_frame_command, _execute_uds_command,
    _execute_wait_command, _execute_comment_command, _execute_script_command,
    is_some, events, bind, get, ret, emit, next_call, start_thread.
  destruct (Cmd.command_type command); split_command_cases; cbn;
    intros H; repeat (destruct H as [H | H]; try discriminate H);
    try contradiction.
  all: inversion H; subst; split; [reflexivity | left; reflexivity].
Qed.

(** One enabled command of the pass: the stop event is looked at before it
    (set: the command is skipped and the walk goes on) and after it (set:
    the rest of the pass is dropped). *)
Lemma run_commands_enabled (w : World) (now : time) (c : Cmd.Command)
    (rest : list Cmd.Command) (self : CommandExecutor) :
  Cmd.enabled c = true ->
  (stop_is_set w (polls self) = true ->
   exists s1,
     polls s1 = S (polls self) /\
     run_commands w now (c :: rest) self
     = (c :: value (run_commands w now rest s1),
        events (run_commands w now rest s1),
        snd (run_commands w now rest s1))) /\
  (stop_is_set w (polls self) = false ->
   exists success t s2,
     polls s2 = S (S (polls self)) /\
     entered t = [Cmd.id c] /\
     (forall site ms, In (Sleep site ms) t ->
        site = InWaitCommand /\ In ms (wait_durations [c])) /\
     run_commands w now (c :: rest) self
     = if stop_is_set w (S (polls self)) then
         (record_result success now c :: rest, t, s2)
       else
         (record_result success now c :: value (run_commands w now rest s2),
          t ++ events (run_commands w now rest s2),
          snd (run_commands w now rest s2))).
Proof.
  intros Hen. split; intros Hstop.
  - exists (snd (poll_stop w self)). split; [reflexivity |].
    cbn [run_commands]. rewrite Hen. cbn [negb].
    rewrite bind_unfold.
    assert (Hv : value (poll_stop w self) = true) by exact Hstop.
    rewrite Hv. rewrite bind_unfold.
    change (events (poll_stop w self)) with (@nil event).
    cbn [ret value events fst snd app]. rewrite app_nil_r. reflexivity.
  - set (s1 := snd (poll_stop w self)).
    set (s1' := snd (hook on_command_started "on_command_started" (Cmd.id c) s1)).
    set (r := _execute_command w c now s1').
    set (h := (if value r
               then hook on_command_completed "on_command_completed" (Cmd.id c)
               else hook on_command_failed "on_command_failed" (Cmd.id c))
                (snd r)).
    exists (value r),
      (CommandEntered (Cmd.id c)
         :: events (hook on_command_started "on_command_started" (Cmd.id c) s1)
         ++ events r ++ events h),
      (snd (poll_stop w (snd h))).
    assert (Hs1' : s1' = s1) by apply hook_state.
    assert (Hh : snd h = snd r).
    { unfold h. destruct (value r); apply hook_state. }
    assert (Hp : polls (snd h) = S (polls self)).
    { rewrite Hh. unfold r. rewrite execute_command_polls, Hs1'. reflexivity. }
    split; [cbn [poll_stop snd polls]; rewrite Hp; reflexivity |].
    split.
    { cbn [entered]. rewrite !entered_app.
      destruct (hook_quiet on_command_started "on_command_started" (Cmd.id c) s1)
        as [-> _].
      destruct (execute_command_quiet w c now s1') as [Hq _]. fold r in Hq.
      rewrite Hq. unfold h.
      destruct (value r);
        match goal with
        | |- context [hook ?f ?n ?x ?s] =>
            destruct (hook_quiet f n x s) as [-> _]
        end; reflexivity. }
    split.
    { intros site ms [Hin | Hin]; [discriminate Hin |].
      apply in_app_or in Hin. destruct Hin as [Hin | Hin];
        [exfalso; exact (hook_no_sleep _ _ _ _ _ _ Hin) |].
      apply in_app_or in Hin. destruct Hin as [Hin | Hin].
      - exact (execute_command_sleeps w c now s1' site ms Hin).
      - exfalso. unfold h in Hin.
        destruct (value r); exact (hook_no_sleep _ _ _ _ _ _ Hin). }
    cbn [run_commands]. rewrite Hen. cbn [negb].
    rewrite bind_unfold.
    assert (Hv : value (poll_stop w self) = false) by exact Hstop.
    rewrite Hv. fold s1.
    rewrite bind_unfold.
    change (snd (emit (CommandEntered (Cmd.id c)) s1)) with s1.
    change (events (emit (CommandEntered (Cmd.id c)) s1))
      with [CommandEntered (Cmd.id c)].
    rewrite bind_unfold. fold s1'.
    rewrite bind_unfold. fold r.
    rewrite bind_unfold. fold h.
    rewrite bind_unfold.
    assert (Hv2 : value (poll_stop w (snd h)) = stop_is_set w (S (polls self))).
    { cbn [poll_stop value fst]. rewrite Hp. reflexivity. }
    rewrite Hv2.
    change (events (poll_stop w (snd h))) with (@nil event).
    destruct (stop_is_set w (S (polls self))).
    + cbn [ret value events fst snd app]. rewrite ?app_nil_r.
      rewrite <- ?app_assoc. reflexivity.
    + rewrite bind_unfold. cbn [ret value events fst snd app].
      rewrite ?app_nil_r. rewrite <- ?app_assoc. reflexivity.
Qed.

Lemma run_commands_disabled (w : World) (now : time) (c : Cmd.Command)
    (rest : list Cmd.Command) (self : CommandExecutor) :
  Cmd.enabled c = false ->
  run_commands w now (c :: rest) self
  = (c :: value (run_commands w now rest self),
     events (run_commands w now rest self),
     snd (run_commands w now rest self)).
Proof.
  intros Hen. cbn [run_commands]. rewrite Hen. cbn [negb].
  rewrite bind_unfold. cbn [ret value events fst snd]. rewrite app_nil_r.
  reflexivity.
Qed.

Lemma wait_durations_cons (c : Cmd.Command) (cs : list Cmd.Command) :
  wait_durations (c :: cs) = wait_durations [c] ++ wait_durations cs.
Proof. unfold wait_durations. cbn [flat_map]. rewrite app_nil_r. reflexivity. Qed.

Lemma record_result_wait (success : bool) (now : time) (c : Cmd.Command) :
  wait_durations [record_result success now c] = wait_durations [c].
Proof. reflexivity. Qed.

(** Whatever the world does, a pass keeps the identifiers and the waits of
    the commands, sleeps only in wait commands, and never un-polls. *)
Lemma run_commands_any (w : World) (now : time) :
  forall (commands : list Cmd.Command) (self : CommandExecutor),
    enabled_ids (value (run_commands w now commands self))
    = enabled_ids commands /\
    wait_durations (value (run_commands w now commands self))
    = wait_durations commands /\
    (forall site ms,
       In (Sleep site ms) (events (run_commands w now commands self)) ->
       site = InWaitCommand /\ In ms (wait_durations commands)) /\
    (polls self <= polls (snd (run_commands w now commands self)))%nat.
Proof.
  induction commands as [| c rest IH]; intros self.
  - split; [| split; [| split]]; try reflexivity. intros site ms [].
  - rewrite (wait_durations_cons c rest).
    destruct (Cmd.enabled c) eqn:Hen.
    + destruct (run_commands_enabled w now c rest self Hen) as [Hset Hclear].
      destruct (stop_is_set w (polls self)) eqn:Hstop.
      * destruct (Hset eq_refl) as [s1 [Hp ->]].
        destruct (IH s1) as [I1 [I2 [I3 I4]]].
        cbn [value events fst snd].
        rewrite !enabled_ids_cons, Hen.
        rewrite (wait_durations_cons c (value _)). rewrite I1, I2.
        split; [| split; [| split]]; try reflexivity; try lia.
        intros site ms H. destruct (I3 site ms H) as [Hs Hin].
        split; [exact Hs | apply in_or_app; right; exact Hin].
      * destruct (Hclear eq_refl) as [success [t [s2 [Hp [Hent [Hsl ->]]]]]].
        destruct (IH s2) as [I1 [I2 [I3 I4]]].
        destruct (stop_is_set w (S (polls self))); cbn [value events fst snd].
        -- rewrite !enabled_ids_cons. cbn [record_result Cmd.enabled Cmd.id].
           rewrite Hen.
           rewrite (wait_durations_cons (record_result success now c) rest).
           rewrite record_result_wait.
           split; [| split; [| split]]; try reflexivity; try lia.
           intros site ms H. destruct (Hsl site ms H) as [Hs Hin].
           split; [exact Hs | apply in_or_app; left; exact Hin].
        -- rewrite !enabled_ids_cons. cbn [record_result Cmd.enabled Cmd.id].
           rewrite Hen.
           rewrite (wait_durations_cons (record_result success now c) (value _)).
           rewrite record_result_wait, I1, I2.
           split; [| split; [| split]]; try reflexivity; try lia.
           intros site ms H. apply in_app_or in H. destruct H as [H | H].
           ++ destruct (Hsl site ms H) as [Hs Hin].
              split; [exact Hs | apply in_or_app; left; exact Hin].
           ++ destruct (I3 site ms H) as [Hs Hin].
              split; [exact Hs | apply in_or_app; right; exact Hin].
    + rewrite (run_commands_disabled w now c rest self Hen).
      destruct (IH self) as [I1 [I2 [I3 I4]]].
      cbn [value events fst snd].
      rewrite !enabled_ids_cons, Hen.
      rewrite (wait_durations_cons c (value _)). rewrite I1, I2.
      split; [| split; [| split]]; try reflexivity; try lia.
      intros site ms H. destruct (I3 site ms H) as [Hs Hin].
      split; [exact Hs | apply in_or_app; right; exact Hin].
Qed.

(** Once the stop event is set and stays set, a pass enters nothing and
    leaves the commands as they are. *)
Lemma run_commands_after_stop (w : World) (now : time) (k : nat) :
  (forall j, (k <= j)%nat -> stop_is_set w j = true) ->
  forall (commands : list Cmd.Command) (self : CommandExecutor),
    (k <= polls self)%nat ->
    value (run_commands w now commands self) = commands /\
    events (run_commands w now commands self) = [].
Proof.
  intros Hset. induction commands as [| c rest IH]; intros self Hk.
  - split; reflexivity.
  - destruct (Cmd.enabled c) eqn:Hen.
    + destruct (run_commands_enabled w now c rest self Hen) as [Hstop _].
      destruct (Hstop (Hset _ Hk)) as [s1 [Hp ->]].
      destruct (IH s1 ltac:(lia)) as [I1 I2].
      cbn [value events fst snd]. fold (value (run_commands w now rest s1)).
      rewrite I1, I2. split; reflexivity.
    + rewrite (run_commands_disabled w now c rest self Hen).
      destruct (IH self Hk) as [I1 I2].
      cbn [value events fst snd]. fold (value (run_commands w now rest self)).
      rewrite I1, I2. split; reflexivity.
Qed.

Lemma stop_requested_before (w : World) (k j : nat) :
  stop_requested_at w k -> (j < k)%nat -> stop_is_set w j = false.
Proof. intros H Hlt. rewrite (H j). apply Nat.leb_gt. exact Hlt. Qed.

Lemma stop_requested_after (w : World) (k j : nat) :
  stop_requested_at w k -> (k <= j)%nat -> stop_is_set w j = true.
Proof. intros H Hle. rewrite (H j). apply Nat.leb_le. exact Hle. Qed.

(** A pass in a world where the stop is requested at poll [k], not before
    the pass begins: with [d] polls left before the request, the pass
    enters the first [(d + 1) / 2] enabled commands (each enabled command
    polls before and after itself). *)
Lemma run_commands_until_stop (w : World) (now : time) (k : nat) :
  stop_requested_at w k ->
  forall (commands : list Cmd.Command) (self : CommandExecutor),
    (polls self <= k)%nat ->
    entered (events (run_commands w now commands self))
    = firstn (Nat.div2 (S (k - polls self))) (enabled_ids commands) /\
    ((k - polls self < 2 * List.length (enabled_ids commands))%nat ->
     (k < polls (snd (run_commands w now commands self)))%nat) /\
    ((2 * List.length (enabled_ids commands) <= k - polls self)%nat ->
     polls (snd (run_commands w now commands self))
     = (polls self + 2 * List.length (enabled_ids commands))%nat).
Proof.
  intros Hreq. induction commands as [| c rest IH]; intros self Hk.
  - cbn [run_commands enabled_ids filter map List.length ret events value
         fst snd entered].
    rewrite firstn_nil. repeat split; lia.
  - rewrite enabled_ids_cons. destruct (Cmd.enabled c) eqn:Hen.
    + destruct (run_commands_enabled w now c rest self Hen) as [Hset Hclear].
      cbn [List.length].
      destruct (Nat.eq_dec k (polls self)) as [Heq | Hne].
      * destruct (Hset (stop_requested_after w k (polls self) Hreq ltac:(lia)))
          as [s1 [Hp ->]].
        cbn [value events fst snd].
        destruct (run_commands_after_stop w now k
                    (fun j => stop_requested_after w k j Hreq) rest s1
                    ltac:(lia)) as [_ I2].
        destruct (run_commands_any w now rest s1) as [_ [_ [_ I4]]]. rewrite I2.
        replace (k - polls self)%nat with 0%nat by lia.
        repeat split; try lia. 
      * destruct (Hclear (stop_requested_before w k (polls self) Hreq ltac:(lia)))
          as [success [t [s2 [Hp [Hent [_ ->]]]]]].
        destruct (Nat.eq_dec k (S (polls self))) as [Heq1 | Hne1].
        -- rewrite (stop_requested_after w k (S (polls self)) Hreq ltac:(lia)).
           cbn [value events fst snd]. rewrite Hent.
           replace (k - polls self)%nat with 1%nat by lia.
           repeat split; try lia.
        -- rewrite (stop_requested_before w k (S (polls self)) Hreq ltac:(lia)).
           cbn [value events fst snd].
           destruct (IH s2 ltac:(lia)) as [I1 [I2 I3]].
           rewrite entered_app, Hent, I1.
           replace (k - polls self)%nat with (S (S (k - polls s2)))%nat by lia.
           repeat split; lia.
    + rewrite (run_commands_disabled w now c rest self Hen).
      cbn [value events fst snd].
      exact (IH self Hk).
Qed.

(** One turn of the [while] loop. *)
Lemma group_loop_step (w : World) (now : time) (fuel : nat)
    (group : Group.CommandGroup) (rc : Z) (self : CommandExecutor) :
  group_loop (S fuel) w now group rc self
  = if (rc <? Group.repeat_count group) || (Group.repeat_count group =? 0) then
      if stop_is_set w (polls self) then
        (Finished rc group, [], snd (poll_stop w self))
      else
        let r := run_commands w now (Group.commands group)
                   (snd (poll_stop w self)) in
        let group' := Group.set_commands (value r) group in
        if (Group.repeat_count group >? 0)
           && (rc + 1 >=? Group.repeat_count group) then
          (Finished (rc + 1) group', events r, snd r)
        else
          (value (group_loop fuel w now group' (rc + 1) (snd r)),
           events r ++ events (group_loop fuel w now group' (rc + 1) (snd r)),
           snd (group_loop fuel w now group' (rc + 1) (snd r)))
    else (Finished rc group, [], self).
Proof.
  cbn [group_loop].
  destruct ((rc <? Group.repeat_count group)
            || (Group.repeat_count group =? 0)); [| reflexivity].
  rewrite bind_unfold.
  change (value (poll_stop w self)) with (stop_is_set w (polls self)).
  change (events (poll_stop w self)) with (@nil event).
  destruct (stop_is_set w (polls self)); [reflexivity |].
  rewrite bind_unfold. cbv zeta.
  destruct ((Group.repeat_count group >? 0)
            && (rc + 1 >=? Group.repeat_count group)).
  - cbn [ret value events fst snd app]. rewrite app_nil_r. reflexivity.
  - cbn [value events fst snd app]. reflexivity.
Qed.

Lemma no_gap_sleeps (t : list event) :
  (forall site ms, In (Sleep site ms) t -> site = InWaitCommand) ->
  group_gaps t = [].
Proof.
  induction t as [| e t IH]; intros H; [reflexivity |].
  assert (Ht : group_gaps t = []).
  { apply IH. intros site ms Hin. apply (H site ms). right. exact Hin. }
  destruct e as [| | | | | [|] ms]; cbn [group_gaps]; try exact Ht.
  specialize (H BetweenGroups ms (or_introl eq_refl)). discriminate H.
Qed.

(** Whatever the world does and however long the loop is followed, the
    control thread sleeps inside it only where a wait command of the group
    says so. *)
Lemma group_loop_sleeps (w : World) (now : time) :
  forall (fuel : nat) (group : Group.CommandGroup) (rc : Z)
         (self : CommandExecutor) (site : sleep_site) (ms : Z),
    In (Sleep site ms) (events (group_loop fuel w now group rc self)) ->
    site = InWaitCommand /\ In ms (wait_durations (Group.commands group)).
Proof.
  induction fuel as [| fuel IH]; intros group rc self site ms.
  - cbn [group_loop].
    destruct ((rc <? Group.repeat_count group)
              || (Group.repeat_count group =? 0)); intros [].
  - rewrite group_loop_step.
    destruct ((rc <? Group.repeat_count group)
              || (Group.repeat_count group =? 0)); [| intros []].
    destruct (stop_is_set w (polls self)); [intros [] |].
    cbv zeta.
    set (r := run_commands w now (Group.commands group)
                (snd (poll_stop w self))).
    destruct (run_commands_any w now (Group.commands group)
                (snd (poll_stop w self))) as [_ [Hw [Hsl _]]].
    fold r in Hw, Hsl.
    destruct ((Group.repeat_count group >? 0)
              && (rc + 1 >=? Group.repeat_count group));
      cbn [events fst snd]; intros Hin.
    + exact (Hsl site ms Hin).
    + apply in_app_or in Hin. destruct Hin as [Hin | Hin];
        [exact (Hsl site ms Hin) |].
      apply IH in Hin. cbn [Group.set_commands Group.commands] in Hin.
      rewrite Hw in Hin. exact Hin.
Qed.

(** The loop in a world where the stop is requested at poll [k]: [i] whole
    passes are made before the request, which comes [r] polls into the
    next turn of the loop (poll 0 is the one at the top of the turn, then
    each enabled command polls before and after itself). *)
Lemma group_loop_until_stop (w : World) (now : time) (k : nat) :
  stop_requested_at w k ->
  forall (i : nat) (fuel : nat) (group : Group.CommandGroup) (rc : Z)
         (self : CommandExecutor) (r : nat),
    let passes := enabled_ids (Group.commands group) in
    k = (polls self + i * (1 + 2 * List.length passes) + r)%nat ->
    (r < 1 + 2 * List.length passes)%nat ->
    0 <= rc ->
    rc + Z.of_nat i < Group.repeat_count group
    \/ Group.repeat_count group = 0 ->
    (i + 2 <= fuel)%nat ->
    exists group',
      value (group_loop fuel w now group rc self)
      = Finished (rc + Z.of_nat i + (if (r =? 0)%nat then 0 else 1)) group' /\
      entered (events (group_loop fuel w now group rc self))
      = List.concat (repeat passes i) ++ firstn (Nat.div2 r) passes.
Proof.
  intros Hreq. induction i as [| i IH];
    intros fuel group rc self r passes Hk Hr Hrc Hcount Hfuel.
  - destruct fuel as [| fuel]; [lia |]. destruct fuel as [| fuel]; [lia |].
    rewrite group_loop_step.
    assert (Hcond : (rc <? Group.repeat_count group)
                    || (Group.repeat_count group =? 0) = true).
    { apply orb_true_iff. destruct Hcount as [H | H];
        [left; apply Z.ltb_lt; lia | right; apply Z.eqb_eq; exact H]. }
    rewrite Hcond.
    destruct r as [| r].
    + rewrite (stop_requested_after w k (polls self) Hreq ltac:(lia)).
      exists group. cbn [value events fst snd Nat.eqb repeat List.concat
                         Nat.div2 firstn app entered].
      split; [f_equal; lia | reflexivity].
    + rewrite (stop_requested_before w k (polls self) Hreq ltac:(lia)).
      cbv zeta.
      set (s1 := snd (poll_stop w self)).
      assert (Hs1 : polls s1 = S (polls self)) by reflexivity.
      destruct (run_commands_until_stop w now k Hreq (Group.commands group) s1
                  ltac:(lia)) as [Hent [Hafter _]].
      destruct (run_commands_any w now (Group.commands group) s1)
        as [Hids _].
      set (res := run_commands w now (Group.commands group) s1) in *.
      fold passes in Hent, Hafter.
      replace (S (k - polls s1))%nat with (S r) in Hent by lia.
      specialize (Hafter ltac:(lia)).
      exists (Group.set_commands (value res) group).
      cbn [Nat.eqb repeat List.concat app].
      destruct ((Group.repeat_count group >? 0)
                && (rc + 1 >=? Group.repeat_count group)) eqn:Hdone.
      * cbn [value events fst snd]. rewrite Hent.
        split; [f_equal; lia | reflexivity].
      * rewrite group_loop_step.
        cbn [Group.repeat_count Group.set_commands].
        assert (Hcond' : (rc + 1 <? Group.repeat_count group)
                         || (Group.repeat_count group =? 0) = true).
        { apply orb_true_iff. apply andb_false_iff in Hdone.
          destruct Hcount as [H | H];
            [| right; apply Z.eqb_eq; exact H].
          left. apply Z.ltb_lt.
          destruct Hdone as [Hd | Hd];
            [rewrite Z.gtb_ltb in Hd; apply Z.ltb_ge in Hd; lia |].
          rewrite Z.geb_leb in Hd. apply Z.leb_gt in Hd. lia. }
        rewrite Hcond'.
        rewrite (stop_requested_after w k (polls (snd res)) Hreq ltac:(lia)).
        cbn [value events fst snd]. rewrite app_nil_r, Hent.
        split; [f_equal; lia | reflexivity].
  - destruct fuel as [| fuel]; [lia |].
    rewrite group_loop_step.
    assert (Hcond : (rc <? Group.repeat_count group)
                    || (Group.repeat_count group =? 0) = true).
    { apply orb_true_iff. destruct Hcount as [H | H];
        [left; apply Z.ltb_lt; lia | right; apply Z.eqb_eq; exact H]. }
    rewrite Hcond.
    rewrite (stop_requested_before w k (polls self) Hreq ltac:(lia)).
    cbv zeta.
    set (s1 := snd (poll_stop w self)).
    assert (Hs1 : polls s1 = S (polls self)) by reflexivity.
    destruct (run_commands_until_stop w now k Hreq (Group.commands group) s1
                ltac:(lia)) as [Hent [_ Hafter]].
    destruct (run_commands_any w now (Group.commands group) s1)
      as [Hids _].
    set (res := run_commands w now (Group.commands group) s1) in *.
    fold passes in Hent, Hafter, Hids.
    specialize (Hafter ltac:(lia)).
    assert (Hall : firstn (Nat.div2 (S (k - polls s1))) passes = passes).
    { apply firstn_all2.
      assert (List.length passes <= Nat.div2 (S (k - polls s1)))%nat; [| lia].
      rewrite Nat.div2_div. apply Nat.div_le_lower_bound; lia. }
    rewrite Hall in Hent.
    assert (Hdone : (Group.repeat_count group >? 0)
                    && (rc + 1 >=? Group.repeat_count group) = false).
    { apply andb_false_iff. destruct Hcount as [H | H].
      - right. rewrite Z.geb_leb. apply Z.leb_gt. lia.
      - left. rewrite H. reflexivity. }
    rewrite Hdone.
    destruct (IH fuel (Group.set_commands (value res) group) (rc + 1)
                (snd res) r) as [group' [Hval Hentered]];
      cbn [Group.repeat_count Group.set_commands Group.commands];
      try rewrite Hids; fold passes; try lia.
    exists group'.
    cbn [value events fst snd]. cbn [value fst] in Hval. rewrite Hval.
    rewrite entered_app, Hent.
    cbn [Group.repeat_count Group.set_commands Group.commands] in Hentered.
    rewrite Hids in Hentered. fold passes in Hentered.
    cbn [events fst snd] in Hentered. rewrite Hentered.
    cbn [repeat List.concat]. rewrite <- app_assoc.
    split; [f_equal; lia | reflexivity].
Qed.

(** C8, as the code behaves.  For a group that the control task runs,
    with [passes] the identifiers of its enabled commands in list order:
    - if nobody asks for a stop and [repeat_count] is positive, the loop of
      [_execute_group] ends after exactly [repeat_count] passes over the
      command list, each pass entering the enabled commands in list order;
    - if nobody asks for a stop and [repeat_count = 0], the loop is still
      running after any number of passes;
    - cancellation ends the loop wherever it comes.  The stop event is
      polled at the top of every turn of the loop and before and after
      every enabled command, [1 + 2 * length passes] polls a turn.  When
      the stop is requested after [i] whole passes, [r] polls into the
      next turn, the loop ends (also when [repeat_count = 0]) having
      entered, after the [i] passes, only the first [r / 2] enabled
      commands of the turn: none when the request is seen at the top of
      the turn, in which case the turn is not counted;
    - a stop event found set at the first poll ends the loop before any
      command is entered and leaves the group as it was;
    - whatever the world does, the control thread sleeps inside the loop
      only in the wait commands of the group: nothing is slept between
      one pass and the next;
    - [repeat_interval] is slept by the loop over the groups in
      [_execute_project], once, after the loop of the group has ended,
      when the group is enabled and the interval is positive. *)
Theorem execute_group_repeats_without_pause :
  forall (w : World) (now : time) (group : Group.CommandGroup)
         (self : CommandExecutor),
    let passes := enabled_ids (Group.commands group) in
    let turn := (1 + 2 * List.length passes)%nat in
    (never_stopped w ->
     0 < Group.repeat_count group ->
     forall fuel,
       (Z.to_nat (Group.repeat_count group) <= fuel)%nat ->
       exists group',
         value (_execute_group fuel w now group self)
         = Finished (Group.repeat_count group) group' /\
         entered (events (_execute_group fuel w now group self))
         = List.concat (repeat passes (Z.to_nat (Group.repeat_count group))) /\
         group_gaps (events (_execute_group fuel w now group self)) = []) /\
    (never_stopped w ->
     Group.repeat_count group = 0 ->
     forall fuel,
       exists group',
         value (_execute_group fuel w now group self)
         = OutOfFuel (Z.of_nat fuel) group' /\
         entered (events (_execute_group fuel w now group self))
         = List.concat (repeat passes fuel) /\
         group_gaps (events (_execute_group fuel w now group self)) = []) /\
    (forall k i r : nat,
       stop_requested_at w k ->
       k = (polls self + i * turn + r)%nat ->
       (r < turn)%nat ->
       Z.of_nat i < Group.repeat_count group
       \/ Group.repeat_count group = 0 ->
       forall fuel,
         (i + 2 <= fuel)%nat ->
         exists group',
           value (_execute_group fuel w now group self)
           = Finished (Z.of_nat i + (if (r =? 0)%nat then 0 else 1)) group' /\
           entered (events (_execute_group fuel w now group self))
           = List.concat (repeat passes i) ++ firstn (Nat.div2 r) passes) /\
    (stop_is_set w (polls self) = true ->
     forall fuel,
       value (_execute_group (S fuel) w now group self) = Finished 0 group /\
       events (_execute_group (S fuel) w now group self) = []) /\
    (forall fuel,
       group_gaps (events (_execute_group fuel w now group self)) = [] /\
       forall site ms,
         In (Sleep site ms) (events (_execute_group fuel w now group self)) ->
         site = InWaitCommand /\
         In ms (wait_durations (Group.commands group))) /\
    (never_stopped w ->
     Group.repeat_count group <> 0 ->
     forall fuel,
       (Z.to_nat (Group.repeat_count group) <= fuel)%nat ->
       group_gaps (events (run_groups fuel w now [group] self))
       = if Group.enabled group && (Group.repeat_interval group >? 0)
         then [Group.repeat_interval group] else []).
Proof.
  intros w now group self passes turn. unfold _execute_group.
  split; [| split; [| split; [| split; [| split]]]].
  - intros Hns Hpos fuel Hfuel.
    apply (group_loop_bounded w now Hns
             (Z.to_nat (Group.repeat_count group))); lia.
  - intros Hns Hzero fuel.
    apply (group_loop_unbounded w now Hns fuel group 0 self Hzero).
  - intros k i r Hreq Hk Hr Hcount fuel Hfuel.
    apply (group_loop_until_stop w now k Hreq i fuel group 0 self r);
      try assumption; lia.
  - intros Hstop fuel.
    apply (group_loop_stopped w now fuel group 0 self Hstop).
  - intros fuel. split.
    + apply no_gap_sleeps. intros site ms Hin.
      apply (group_loop_sleeps w now fuel group 0 self site ms Hin).
    + intros site ms.
      apply (group_loop_sleeps w now fuel group 0 self site ms).
  - intros Hns Hnz fuel Hfuel.
    destruct (run_groups_gaps w now fuel Hns [group] self) as [_ Hgaps].
    + constructor; [split; assumption | constructor].
    + rewrite Hgaps. cbn [filter].
      destruct (Group.enabled group && (Group.repeat_interval group >? 0));
        reflexivity.
Qed.

End GroupLoop.

(** ** Command executor: the theorems on sample groups *)

Section SampleGroups.
Import Project.
Import Executor.
Import Samples.

(** The group with [repeat_count = 2] and [repeat_interval = 1000], nobody
    asking for a stop: the control task enters the command of the second
    pass right after that of the first, and the loop causes no sleep at
    all. *)
Lemma no_pause_between_iterations :
  value (_execute_group 2 quiet_world 0 group_twice (init false))
  = Finished 2
      (Group.set_commands
         [record_result true 0 (record_result true 0 comment_cmd)]
         group_twice) /\
  events (_execute_group 2 quiet_world 0 group_twice (init false))
  = [CommandEntered "c1"; CommandEntered "c1"].
Proof. split; reflexivity. Qed.

(** The 1000 ms are slept once, after the loop of the group has ended. *)
Example pause_after_the_group :
  events (_execute_project 2 quiet_world 0 project_twice (init false))
  = [CommandEntered "c1"; CommandEntered "c1"; Sleep BetweenGroups 1000].
Proof. reflexivity. Qed.

(** With [repeat_count = 0] three passes allowed are three passes made,
    and the loop has not ended. *)
Example unbounded_group_keeps_running :
  (exists group',
     value (_execute_group 3 quiet_world 0 group_forever (init false))
     = OutOfFuel 3 group') /\
  entered (events (_execute_group 3 quiet_world 0 group_forever (init false)))
  = ["c1"; "w1"; "c1"; "w1"; "c1"; "w1"]%string.
Proof. split; [eexists |]; reflexivity. Qed.

(** A stop request: the group is left before any command is entered. *)
Example stopped_group_runs_nothing :
  value (_execute_group 2 stopped_world 0 group_twice (init false))
  = Finished 0 group_twice /\
  events (_execute_group 2 stopped_world 0 group_twice (init false)) = [].
Proof. split; reflexivity. Qed.

(** The unbounded group polls five times a turn (poll 0 at the top, 1 and
    2 around [c1], 3 and 4 around [w1]).  A stop requested at poll 5 is
    seen at the top of the second turn, which ends the loop after one
    pass. *)
Example stop_seen_at_the_top_of_a_turn :
  (exists group',
     value (_execute_group 4 (stopping_world 5) 0 group_forever (init false))
     = Finished 1 group') /\
  events (_execute_group 4 (stopping_world 5) 0 group_forever (init false))
  = [CommandEntered "c1"; CommandEntered "w1"; Sleep InWaitCommand 5].
Proof. split; [eexists |]; reflexivity. Qed.

(** A stop requested at poll 6 is seen before [c1] in the second turn:
    [c1] and [w1] are skipped, the turn is counted, and the poll at the
    top of the third turn ends the loop. *)
Example stop_seen_before_a_command :
  (exists group',
     value (_execute_group 4 (stopping_world 6) 0 group_forever (init false))
     = Finished 2 group') /\
  events (_execute_group 4 (stopping_world 6) 0 group_forever (init false))
  = [CommandEntered "c1"; CommandEntered "w1"; Sleep InWaitCommand 5].
Proof. split; [eexists |]; reflexivity. Qed.

(** A stop requested at poll 7 is seen after [c1] in the second turn:
    [c1] has run, [w1] is not entered. *)
Example stop_seen_after_a_command :
  (exists group',
     value (_execute_group 4 (stopping_world 7) 0 group_forever (init false))
     = Finished 2 group') /\
  events (_execute_group 4 (stopping_world 7) 0 group_forever (init false))
  = [CommandEntered "c1"; CommandEntered "w1"; Sleep InWaitCommand 5;
     CommandEntered "c1"].
Proof. split; [eexists |]; reflexivity. Qed.

(** The theorem at the group run twice that nobody stops, and at the
    unbounded group with a stop requested at poll 7. *)
Lemma execute_group_repeats_without_pause_witness :
  (exists group',
     value (_execute_group 2 quiet_world 0 group_twice (init false))
     = Finished 2 group' /\
     entered (events (_execute_group 2 quiet_world 0 group_twice (init false)))
     = ["c1"; "c1"]%string /\
     group_gaps
       (events (_execute_group 2 quiet_world 0 group_twice (init false)))
     = []) /\
  (exists group',
     value (_execute_group 3 (stopping_world 7) 0 group_forever (init false))
     = Finished 2 group' /\
     entered
       (events (_execute_group 3 (stopping_world 7) 0 group_forever
                  (init false)))
     = ["c1"; "w1"; "c1"]%string).
Proof.
  split.
  - destruct (execute_group_repeats_without_pause quiet_world 0 group_twice
                (init false)) as [Hbounded _].
    apply (Hbounded (fun k => eq_refl) ltac:(reflexivity) 2%nat
             ltac:(apply Nat.le_refl)).
  - destruct (execute_group_repeats_without_pause (stopping_world 7) 0
                group_forever (init false))
      as [_ [_ [Hcancel _]]].
    apply (Hcancel 7%nat 1%nat 2%nat (fun j => eq_refl) eq_refl
             ltac:(repeat constructor) ltac:(right; reflexivity) 3%nat
             ltac:(apply Nat.le_refl)).
Defined.

End SampleGroups.


(** ** Projects: saving (claim C7) *)

Section Saving.
Import Project.

(** The [Command.to_dict] of the class body leaves the payload bytes as
    [bytes]. *)
Lemma command_to_dict_not_serializable (c : Cmd.Command) :
  has_bytes_payload c = true ->
  json_serializable (Command_to_dict c) = false.
Proof.
  destruct c as [id name ty mode period en st last n1 n2 n3 cf uc wc cc sc].
  unfold has_bytes_payload. cbn [Cmd.can_frame Cmd.uds_command].
  destruct cf as [cf |]; destruct uc as [uc |];
    intros H; try discriminate H;
    destruct wc, cc, sc; reflexivity.
Qed.

(** The plain field walk, which is what runs, leaves enum members and
    bytes as they are. *)
Lemma command_asdict_not_serializable (c : Cmd.Command) :
  json_serializable (PDict (Command_asdict c)) = false.
Proof. reflexivity. Qed.

Lemma forallb_map_exists {A B : Type} (f : A -> B) (p : B -> bool)
    (l : list A) (x : A) :
  In x l -> p (f x) = false -> forallb p (map f l) = false.
Proof.
  intros Hin Hx. induction l as [| a l IH]; [contradiction |].
  cbn [map forallb]. destruct Hin as [-> | Hin].
  - rewrite Hx. reflexivity.
  - rewrite (IH Hin). apply andb_false_r.
Qed.

Lemma group_to_dict_not_serializable (f : Cmd.Command -> pyval)
    (g : Group.CommandGroup) (c : Cmd.Command) :
  In c (Group.commands g) ->
  json_serializable (f c) = false ->
  json_serializable (CommandGroup_to_dict f g) = false.
Proof.
  intros Hin Hc. cbn [CommandGroup_to_dict json_serializable andb].
  rewrite (forallb_map_exists f json_serializable _ c Hin Hc). reflexivity.
Qed.

Lemma project_to_dict_not_serializable (f : Cmd.Command -> pyval)
    (p : Proj.CommandProject) (g : Group.CommandGroup) (c : Cmd.Command) :
  In g (Proj.groups p) ->
  In c (Group.commands g) ->
  json_serializable (f c) = false ->
  json_serializable (CommandProject_to_dict f p) = false.
Proof.
  intros Hg Hin Hc. cbn [CommandProject_to_dict json_serializable andb].
  rewrite (forallb_map_exists (CommandGroup_to_dict f) json_serializable _ g Hg
             (group_to_dict_not_serializable f g c Hin Hc)).
  reflexivity.
Qed.

(** C7, as the code behaves.  [save_project] cannot write a project in
    which some command carries payload bytes: the dictionary handed to
    [json.dump] still holds the payload as a [bytes] object, whichever way
    the nested commands are turned into dictionaries (the second equation
    is the field walk that runs, the first the method of the class body),
    so the dump raises [TypeError] and the method returns [False] without
    a document that could be loaded back. *)
Theorem save_project_fails_on_payload_bytes :
  forall (project : Proj.CommandProject) (now : time)
         (g : Group.CommandGroup) (c : Cmd.Command),
    In g (Proj.groups project) ->
    In c (Group.commands g) ->
    has_bytes_payload c = true ->
    save_project Command_to_dict project now
    = (Proj.set_updated_at now project, false, None) /\
    save_project (fun c => PDict (Command_asdict c)) project now
    = (Proj.set_updated_at now project, false, None).
Proof.
  intros project now g c Hg Hin Hpay.
  unfold save_project, json_dump. split.
  - rewrite (project_to_dict_not_serializable Command_to_dict
               (Proj.set_updated_at now project) g c Hg Hin
               (command_to_dict_not_serializable c Hpay)).
    reflexivity.
  - rewrite (project_to_dict_not_serializable
               (fun c => PDict (Command_asdict c))
               (Proj.set_updated_at now project) g c Hg Hin
               (command_asdict_not_serializable c)).
    reflexivity.
Qed.

(** Along the field walk that runs, one command anywhere in the project
    is enough for the save to fail: its enum members reach [json.dump]. *)
Lemma save_project_fails_on_any_command (project : Proj.CommandProject)
    (now : time) (g : Group.CommandGroup) (c : Cmd.Command) :
  In g (Proj.groups project) ->
  In c (Group.commands g) ->
  save_project (fun c => PDict (Command_asdict c)) project now
  = (Proj.set_updated_at now project, false, None).
Proof.
  intros Hg Hin. unfold save_project, json_dump.
  rewrite (project_to_dict_not_serializable
             (fun c => PDict (Command_asdict c))
             (Proj.set_updated_at now project) g c Hg Hin
             (command_asdict_not_serializable c)).
  reflexivity.
Qed.

End Saving.

(** ** Projects: the theorems on a sample project *)

Section SampleProjects.
Import Project.
Import Samples.

(** What the [Command.to_dict] of the class body makes of the CAN-frame
    command: the enum fields have become strings, the payload is still
    [bytes]. *)
Example can_command_to_dict :
  Command_to_dict can_cmd
  = PDict
      [("id", PStr "cmd1"); ("name", PStr "session");
       ("command_type", PStr "can_frame"); ("send_mode", PStr "single");
       ("period", PInt 1000); ("enabled", PBool true);
       ("status", PStr "pending"); ("last_executed", PFloat 0);
       ("execution_count", PInt 0); ("success_count", PInt 0);
       ("fail_count", PInt 0);
       ("can_frame",
          PDict
            [("arbitration_id", PInt 0x7E0);
             ("data", PBytes [0x02; 0x10; 0x01]);
             ("is_extended_id", PBool false); ("is_fd", PBool false);
             ("bitrate_switch", PBool false);
             ("error_state_indicator", PBool false);
             ("dlc", PInt 8); ("comment", PStr "")])]%string.
Proof. reflexivity. Qed.

(** Saving the sample project, along the field walk that runs. *)
Example save_of_sample_project_fails :
  snd (fst (save_project (fun c => PDict (Command_asdict c))
              project_can 100)) = false /\
  snd (save_project (fun c => PDict (Command_asdict c)) project_can 100)
  = None.
Proof. split; reflexivity. Qed.

Lemma save_project_fails_on_payload_bytes_witness :
  save_project Command_to_dict project_can 100
  = (Proj.set_updated_at 100 project_can, false, None) /\
  save_project (fun c => PDict (Command_asdict c)) project_can 100
  = (Proj.set_updated_at 100 project_can, false, None).
Proof.
  apply (save_project_fails_on_payload_bytes project_can 100
           (Group.mkCommandGroup "g1" "frames" "" true [can_cmd] 1 1000 true)
           can_cmd);
    [left; reflexivity | left; reflexivity | reflexivity].
Defined.

(** A project without payload bytes is refused as well: the field walk
    leaves the enum members of its command in the dictionary, and
    [json.dump] raises on them. *)
Example save_of_comment_project :
  save_project (fun c => PDict (Command_asdict c)) project_twice 100
  = (Proj.set_updated_at 100 project_twice, false, None).
Proof. reflexivity. Qed.

End SampleProjects.

(** * Part III: further properties of the code *)

(** ** Dictionaries with string keys *)

Section StringDictionaries.
Import StrDict.
Context {V : Type}.

Lemma lookup_store_same (k : string) (v : V) (d : t V) :
  lookup k (store k v d) = Some v.
Proof.
  induction d as [| [k' v'] rest IH]; cbn [store lookup].
  - rewrite String.eqb_refl. reflexivity.
  - destruct (String.eqb k' k) eqn:E; cbn [lookup]; rewrite E;
      [reflexivity | exact IH].
Qed.

Lemma lookup_store_other (k k' : string) (v : V) (d : t V) :
  k' <> k -> lookup k' (store k v d) = lookup k' d.
Proof.
  intros Hne. induction d as [| [k0 v0] rest IH]; cbn [store lookup].
  - destruct (String.eqb_spec k k'); [congruence | reflexivity].
  - destruct (String.eqb_spec k0 k) as [-> | Hk]; cbn [lookup].
    + destruct (String.eqb_spec k k'); [congruence | reflexivity].
    + destruct (String.eqb k0 k'); [reflexivity | exact IH].
Qed.

Lemma lookup_in_keys (k : string) (v : V) (d : t V) :
  lookup k d = Some v -> In k (keys d).
Proof.
  unfold keys. induction d as [| [k0 v0] rest IH]; [discriminate |].
  cbn [lookup map fst In].
  destruct (String.eqb_spec k0 k); [left; assumption | right; auto].
Qed.

Lemma lookup_none_not_in (k : string) (d : t V) :
  lookup k d = None -> ~ In k (keys d).
Proof.
  unfold keys.
  induction d as [| [k0 v0] rest IH]; cbn [lookup map fst In]; [tauto |].
  destruct (String.eqb_spec k0 k) as [-> | Hk]; [discriminate |].
  intros H [E | Hin]; [congruence | exact (IH H Hin)].
Qed.

Lemma lookup_delete_same (k : string) (d : t V) :
  NoDup (keys d) -> lookup k (delete k d) = None.
Proof.
  unfold keys.
  induction d as [| [k0 v0] rest IH]; cbn [delete lookup map fst];
    [reflexivity |].
  intros Hnd. inversion Hnd as [| x l Hnot Hrest]; subst.
  destruct (String.eqb_spec k0 k) as [-> | Hk].
  - destruct (lookup k rest) eqn:E; [| reflexivity].
    exfalso. apply Hnot. exact (lookup_in_keys _ _ _ E).
  - cbn [lookup]. destruct (String.eqb_spec k0 k); [congruence | auto].
Qed.

Lemma lookup_delete_other (k k' : string) (d : t V) :
  k' <> k -> lookup k' (delete k d) = lookup k' d.
Proof.
  intros Hne. induction d as [| [k0 v0] rest IH]; cbn [delete lookup];
    [reflexivity |].
  destruct (String.eqb_spec k0 k) as [-> | Hk]; cbn [lookup].
  - destruct (String.eqb_spec k k'); [congruence | reflexivity].
  - destruct (String.eqb k0 k'); [reflexivity | exact IH].
Qed.

Lemma keys_store_new (k : string) (v : V) (d : t V) :
  lookup k d = None -> keys (store k v d) = keys d ++ [k].
Proof.
  unfold keys.
  induction d as [| [k0 v0] rest IH]; cbn [store lookup map fst app];
    [reflexivity |].
  destruct (String.eqb k0 k); [discriminate |].
  intros H. cbn [map fst]. rewrite (IH H). reflexivity.
Qed.

Lemma keys_store_old (k : string) (v v' : V) (d : t V) :
  lookup k d = Some v' -> keys (store k v d) = keys d.
Proof.
  unfold keys.
  induction d as [| [k0 v0] rest IH]; cbn [store lookup map fst];
    [discriminate |].
  destruct (String.eqb k0 k); [reflexivity |].
  intros H. cbn [map fst]. rewrite (IH H). reflexivity.
Qed.

Lemma keys_store_nodup (k : string) (v : V) (d : t V) :
  NoDup (keys d) -> NoDup (keys (store k v d)).
Proof.
  intros Hnd. destruct (lookup k d) as [v' |] eqn:E.
  - rewrite (keys_store_old k v v' d E). exact Hnd.
  - rewrite (keys_store_new k v d E).
    apply NoDup_app; [exact Hnd | repeat constructor; intros [] |].
    intros x Hin [<- | []]. exact (lookup_none_not_in _ _ E Hin).
Qed.

Lemma keys_delete_incl (k : string) (d : t V) :
  forall x, In x (keys (delete k d)) -> In x (keys d).
Proof.
  unfold keys.
  induction d as [| [k0 v0] rest IH]; cbn [delete map fst]; [tauto |].
  intros x. destruct (String.eqb k0 k); cbn [map fst In]; [tauto |].
  intros [E | Hin]; [left; exact E | right; exact (IH x Hin)].
Qed.

Lemma keys_delete_nodup (k : string) (d : t V) :
  NoDup (keys d) -> NoDup (keys (delete k d)).
Proof.
  unfold keys.
  induction d as [| [k0 v0] rest IH]; cbn [delete map fst]; [tauto |].
  intros Hnd. inversion Hnd as [| x l Hnot Hrest]; subst.
  destruct (String.eqb k0 k); [exact Hrest |].
  cbn [map fst]. constructor; [| exact (IH Hrest)].
  intros Hin. apply Hnot. exact (keys_delete_incl k rest k0 Hin).
Qed.

Lemma store_store (k : string) (v v' : V) (d : t V) :
  store k v' (store k v d) = store k v' d.
Proof.
  induction d as [| [k0 v0] rest IH]; cbn [store].
  - rewrite String.eqb_refl. reflexivity.
  - destruct (String.eqb k0 k) eqn:E; cbn [store]; rewrite E;
      [reflexivity | rewrite IH; reflexivity].
Qed.

Lemma store_lookup_same (k : string) (v : V) (d : t V) :
  lookup k d = Some v -> store k v d = d.
Proof.
  induction d as [| [k0 v0] rest IH]; cbn [lookup store]; [discriminate |].
  destruct (String.eqb k0 k); intros H.
  - injection H as <-. reflexivity.
  - rewrite (IH H). reflexivity.
Qed.

End StringDictionaries.

(** ** ISO-TP: configuration check and DLC *)

Section IsoTpConfiguration.
Import IsoTp.
Import IsoTp.Config.
Import IsoTpMore.

Lemma between_spec (lo x hi : Z) : between lo x hi = true <-> lo <= x <= hi.
Proof.
  unfold between. rewrite andb_true_iff, Z.leb_le, Z.leb_le. reflexivity.
Qed.

(** The 11-bit test adds nothing to the 29-bit test it is joined with. *)
Lemma identifier_check (x : Z) :
  negb (between 0 x 0x7FF) && negb (between 0 x 0x1FFFFFFF)
  = negb (between 0 x 0x1FFFFFFF).
Proof.
  unfold between.
  destruct (Z.leb_spec 0 x); destruct (Z.leb_spec x 0x7FF);
    destruct (Z.leb_spec x 0x1FFFFFFF); cbn; try reflexivity; lia.
Qed.

Lemma range_check (x hi : Z) :
  (x <? 0) || (x >? hi) = negb (between 0 x hi).
Proof.
  unfold between.
  destruct (Z.ltb_spec x 0); destruct (Z.gtb_spec x hi);
    destruct (Z.leb_spec 0 x); destruct (Z.leb_spec x hi); cbn;
    try reflexivity; lia.
Qed.

(** X1. [ISOTPConfig.validate] accepts a configuration exactly when both
    identifiers lie in [0, 0x1FFFFFFF], [st_min] in [0, 127], [block_size]
    in [0, 255] and [fd_dlc] in [0, 64].  The 11-bit bound 0x7FF never
    decides, whatever [frame_type] says, and no other field is looked at. *)
Theorem validate_accepts_exactly :
  forall config : ISOTPConfig,
    validate config = true <->
    (0 <= rx_id config <= 0x1FFFFFFF /\
     0 <= tx_id config <= 0x1FFFFFFF /\
     0 <= st_min config <= 127 /\
     0 <= block_size config <= 255 /\
     0 <= fd_dlc config <= 64).
Proof.
  intros config. unfold validate.
  rewrite !identifier_check, !range_check, <- !between_spec.
  destruct (between 0 (rx_id config) 0x1FFFFFFF);
    destruct (between 0 (tx_id config) 0x1FFFFFFF);
    destruct (between 0 (st_min config) 127);
    destruct (between 0 (block_size config) 255);
    destruct (between 0 (fd_dlc config) 64); cbn;
    split; intros Hv; try discriminate Hv; try reflexivity;
    try (repeat split; reflexivity);
    destruct Hv as [H1 [H2 [H3 [H4 H5]]]]; discriminate.
Qed.

(** X2. [_calculate_dlc] on the table [encode_frame] uses returns the
    smallest DLC whose capacity holds the data: the DLC is an entry of
    the table, its capacity is enough, and no entry with enough capacity
    has a smaller DLC.  Data longer than the largest capacity (8, or 64
    on CAN FD) gets the largest DLC (8, or 15) all the same. *)
Theorem calculate_dlc_smallest_fit :
  forall (data_length : Z) (is_fd : bool),
    let dlc := _calculate_dlc data_length is_fd (dlc_table_for is_fd) in
    (data_length <= (if is_fd then 64 else 8) ->
     exists capacity,
       In (dlc, capacity) (dlc_table_for is_fd) /\
       data_length <= capacity /\
       (forall d c,
           In (d, c) (dlc_table_for is_fd) -> data_length <= c -> dlc <= d)) /\
    ((if is_fd then 64 else 8) < data_length ->
     dlc = (if is_fd then 15 else 8)).
Proof.
  intros data_length is_fd dlc. subst dlc.
  unfold _calculate_dlc, dlc_table_for.
  destruct is_fd; cbn [_get_fd_dlc_table _get_standard_dlc_table find snd fst];
    repeat match goal with
           | |- context [data_length <=? ?b] =>
               destruct (Z.leb_spec data_length b)
           end;
    (split; [intros Hle | intros Hgt]; try lia; try reflexivity);
    (eexists; split; [cbn; tauto |]; split; [lia |];
     intros d c Hin Hc; cbn in Hin;
     repeat (destruct Hin as [Hin | Hin]; [injection Hin as <- <-; lia |]);
     contradiction).
Qed.

End IsoTpConfiguration.

(** ** ISO-TP: what [decode_frame] makes of what [encode_frame] wrote *)

Section IsoTpRoundTrip.
Import IsoTp.
Import IsoTp.Config.
Import IsoTpMore.

(** The tail of [encode_frame] in full: what is appended and the DLC. *)
Lemma encode_frame_tail_exact (config : ISOTPConfig) (is_fd : bool)
    (raw : list Z) :
  padding_ok config = true ->
  rbind
    (if tx_padding config && (len raw <? (if is_fd then 64 else 8))
     then rbind
            (bytes_of (repeat (tx_padding_value config)
               (Z.to_nat ((if is_fd then 64 else 8) - len raw))))
            (fun padding => Ok (raw ++ padding))
     else Ok raw)
    (fun padded =>
       Ok (padded,
           _calculate_dlc (len padded) is_fd
             (if is_fd then _get_fd_dlc_table
              else _get_standard_dlc_table)))
  = Ok (raw ++ padding_for config is_fd raw,
        _calculate_dlc (len (raw ++ padding_for config is_fd raw)) is_fd
          (if is_fd then _get_fd_dlc_table else _get_standard_dlc_table)).
Proof.
  unfold padding_ok, padding_for. intros Hp.
  destruct (tx_padding config) eqn:Epad; cbn [negb orb andb] in Hp |- *.
  - destruct (len raw <? (if is_fd then 64 else 8)).
    + rewrite (bytes_of_repeat _ _ Hp). reflexivity.
    + cbn [rbind]. rewrite app_nil_r. reflexivity.
  - cbn [rbind]. rewrite app_nil_r. reflexivity.
Qed.

Lemma nibbles_small (n : Z) :
  1 <= n <= 15 ->
  Z.land (Z.shiftr n 4) 0x0F = 0 /\ Z.land n 0x0F = n.
Proof.
  intros H.
  assert (C : n = 1 \/ n = 2 \/ n = 3 \/ n = 4 \/ n = 5 \/ n = 6 \/ n = 7 \/
              n = 8 \/ n = 9 \/ n = 10 \/ n = 11 \/ n = 12 \/ n = 13 \/
              n = 14 \/ n = 15) by lia.
  repeat (destruct C as [-> | C]; [split; reflexivity |]).
  subst n. split; reflexivity.
Qed.

Lemma firstn_len_app {A : Type} (l1 l2 : list A) :
  firstn (Z.to_nat (len l1)) (l1 ++ l2) = l1.
Proof.
  unfold len. rewrite Nat2Z.id, firstn_app, Nat.sub_diag, firstn_all.
  cbn [firstn]. apply app_nil_r.
Qed.

(** What [encode_frame] returns for a single frame of 1 to 63 bytes (7 on
    classical CAN): the length as PCI byte, the data, the padding. *)
Lemma encode_single_exact (config : ISOTPConfig) (data : bytes) (is_fd : bool) :
  padding_ok config = true ->
  len data <= (if is_fd then 63 else 7) ->
  encode_frame config (frame_of SINGLE_FRAME data) is_fd
  = Ok ((len data :: data) ++ padding_for config is_fd (len data :: data),
        _calculate_dlc
          (len ((len data :: data)
                ++ padding_for config is_fd (len data :: data)))
          is_fd (dlc_table_for is_fd)).
Proof.
  intros Hp Hlen. pose proof (len_nonneg data) as H0.
  unfold encode_frame.
  cbn [Frame.frame_type Frame.data frame_of ISOTPFrameType_value].
  change (Z.shiftl 0 4) with 0. rewrite !Z.lor_0_l.
  destruct (Z.leb_spec (len data) ((if is_fd then 64 else 8) - 1));
    [| destruct is_fd; lia].
  rewrite bytes_of_ok.
  2:{ cbn [forallb]. rewrite is_byte_range; [reflexivity |].
      destruct is_fd; lia. }
  cbn [rbind].
  rewrite (encode_frame_tail_exact config is_fd ([len data] ++ data) Hp).
  reflexivity.
Qed.

(** What [decode_frame] makes of a frame that starts with a length of 1
    to 15 and that many bytes, whatever follows. *)
Lemma decode_single_exact (data tail : bytes) (is_fd : bool) :
  1 <= len data <= 15 ->
  decode_frame ((len data :: data) ++ tail) is_fd
  = Some (frame_of SINGLE_FRAME data).
Proof.
  intros Hn. destruct (nibbles_small (len data) Hn) as [Hhi Hlo].
  unfold decode_frame, decode_frame_body. cbn [app].
  change (index (len data :: data ++ tail) 0) with (@Ok Z (len data)).
  cbn [rbind]. rewrite Hhi, Hlo. cbn [ISOTPFrameType_value Z.eqb].
  destruct (Z.eqb_spec (len data) 0); [lia |].
  unfold slice. replace (1 + len data - 1) with (len data) by lia.
  change (Z.to_nat 1) with 1%nat. cbn [skipn].
  rewrite firstn_len_app. reflexivity.
Qed.

(** X3. A single frame of 1 to 7 bytes (1 to 15 on CAN FD) survives the
    wire: [encode_frame] succeeds, and [decode_frame] applied to the bytes
    it produced, padding included, gives back a single frame with exactly
    the same data. *)
Theorem single_frame_round_trip :
  forall (config : ISOTPConfig) (data : bytes) (is_fd : bool),
    padding_ok config = true ->
    1 <= len data <= (if is_fd then 15 else 7) ->
    exists frame_data dlc,
      encode_frame config (frame_of SINGLE_FRAME data) is_fd
      = Ok (frame_data, dlc) /\
      decode_frame frame_data is_fd = Some (frame_of SINGLE_FRAME data).
Proof.
  intros config data is_fd Hp Hlen.
  rewrite (encode_single_exact config data is_fd Hp)
    by (destruct is_fd; lia).
  eexists. eexists. split; [reflexivity |].
  apply decode_single_exact. destruct is_fd; lia.
Qed.

Lemma high_nibble_of_length (n : Z) :
  16 <= n <= 63 ->
  (Z.land (Z.shiftr n 4) 0x0F =? 0) = false.
Proof.
  intros H. apply Z.eqb_neq.
  rewrite Z.shiftr_div_pow2 by lia. rewrite land_15_mod.
  change (2 ^ 4) with 16.
  assert (1 <= n / 16 <= 3).
  { split; [apply Z.div_le_lower_bound; lia |].
    apply Z.lt_succ_r. apply Z.div_lt_upper_bound; lia. }
  rewrite Z.mod_small; lia.
Qed.

(** X6. On CAN FD a single frame of 16 to 63 bytes does not survive the
    wire.  [encode_frame] accepts it and writes the length into the whole
    PCI byte, so the high nibble, where the frame type lives, is 1, 2 or
    3: whatever [decode_frame] makes of those bytes, it is not a single
    frame. *)
Theorem fd_single_frame_misread :
  forall (config : ISOTPConfig) (data : bytes),
    padding_ok config = true ->
    16 <= len data <= 63 ->
    exists frame_data dlc,
      encode_frame config (frame_of SINGLE_FRAME data) true
      = Ok (frame_data, dlc) /\
      hd_error frame_data = Some (len data) /\
      (forall f,
          decode_frame frame_data true = Some f ->
          Frame.frame_type f <> SINGLE_FRAME).
Proof.
  intros config data Hp Hlen.
  rewrite (encode_single_exact config data true Hp) by lia.
  eexists. eexists. split; [reflexivity |]. split; [reflexivity |].
  intros f. unfold decode_frame, decode_frame_body. cbn [app].
  change (index (len data :: data
                 ++ padding_for config true (len data :: data)) 0)
    with (@Ok Z (len data)).
  cbn [rbind ISOTPFrameType_value]. rewrite (high_nibble_of_length _ Hlen).
  repeat match goal with
         | |- context [if ?b then _ else _] => destruct b
         | |- context [rbind ?r _] => destruct r; cbn [rbind]
         end;
    intros H; try discriminate H; injection H as <-; discriminate.
Qed.

(** X4. A flow-control frame survives the wire: for every flow status
    and every block size and STmin that fit in a byte, [decode_frame]
    applied to what [encode_frame] produced gives back the same status,
    block size and STmin. *)
Theorem flow_control_round_trip :
  forall (config : ISOTPConfig) (status : ISOTPFlowStatus)
         (block_size st_min : Z) (is_fd : bool),
    padding_ok config = true ->
    0 <= block_size < 256 ->
    0 <= st_min < 256 ->
    exists frame_data dlc,
      encode_frame config
        (Frame.mkISOTPFrame FLOW_CONTROL_FRAME [] 0 status block_size st_min)
        is_fd
      = Ok (frame_data, dlc) /\
      decode_frame frame_data is_fd
      = Some (Frame.mkISOTPFrame FLOW_CONTROL_FRAME [] 0 status
                block_size st_min).
Proof.
  intros config status block_size st_min is_fd Hp Hbs Hst.
  unfold encode_frame.
  cbn [Frame.frame_type Frame.flow_status Frame.block_size Frame.st_min
       ISOTPFrameType_value].
  rewrite bytes_of_ok.
  2:{ cbn [forallb]. rewrite (is_byte_range block_size Hbs),
        (is_byte_range st_min Hst). destruct status; reflexivity. }
  cbn [rbind].
  match goal with
  | |- context [rbind (if _ && (len ?raw <? _) then _ else _) _] =>
      rewrite (encode_frame_tail_exact config is_fd raw Hp)
  end.
  eexists. eexists. split; [reflexivity |].
  unfold decode_frame, decode_frame_body. cbn [app].
  match goal with
  | |- context [len (?a :: ?b :: ?c :: ?l) <? 3] =>
      assert (Hlen : (len (a :: b :: c :: l) <? 3) = false)
        by (apply Z.ltb_ge; unfold len; cbn [List.length]; lia);
      rewrite Hlen
  end.
  destruct status; reflexivity.
Qed.

(** X5. A consecutive frame comes back from the wire with its sequence
    number reduced modulo 16 and with the padding glued to its data:
    [decode_frame] has no length to cut by, so the decoded data is the
    data sent followed by every padding byte [encode_frame] appended. *)
Theorem consecutive_frame_round_trip :
  forall (config : ISOTPConfig) (data : bytes) (sequence_number : Z)
         (is_fd : bool),
    padding_ok config = true ->
    exists frame_data dlc,
      encode_frame config
        (Frame.mkISOTPFrame CONSECUTIVE_FRAME data sequence_number
           CONTINUE 0 0) is_fd
      = Ok (frame_data, dlc) /\
      decode_frame frame_data is_fd
      = Some (Frame.mkISOTPFrame CONSECUTIVE_FRAME
                (data ++ padding_for config is_fd
                           ((0x20 + sequence_number mod 16) :: data))
                (sequence_number mod 16) CONTINUE 0 0).
Proof.
  intros config data sequence_number is_fd Hp.
  unfold encode_frame.
  cbn [Frame.frame_type Frame.data Frame.sequence_number ISOTPFrameType_value].
  change (Z.shiftl 2 4) with 32.
  pose proof (land_15_range sequence_number) as Hr.
  rewrite (lor_32_nibble _ Hr), land_15_mod.
  rewrite land_15_mod in Hr.
  rewrite bytes_of_ok.
  2:{ cbn [forallb]. rewrite is_byte_range; [reflexivity | lia]. }
  cbn [rbind].
  rewrite (encode_frame_tail_exact config is_fd
             ([32 + sequence_number mod 16] ++ data) Hp).
  eexists. eexists. split; [reflexivity |].
  unfold decode_frame, decode_frame_body. cbn [app].
  match goal with
  | |- context [index (?x :: ?l) 0] => change (index (x :: l) 0) with (@Ok Z x)
  end.
  cbn [rbind].
  set (s := sequence_number mod 16) in *.
  assert (C : s = 0 \/ s = 1 \/ s = 2 \/ s = 3 \/ s = 4 \/ s = 5 \/ s = 6 \/
              s = 7 \/ s = 8 \/ s = 9 \/ s = 10 \/ s = 11 \/ s = 12 \/
              s = 13 \/ s = 14 \/ s = 15) by lia.
  clearbody s.
  repeat (destruct C as [-> | C]; [reflexivity |]). subst s. reflexivity.
Qed.

End IsoTpRoundTrip.

(** ** ISO-TP: the receiving side *)

Section IsoTpReceiving.
Import IsoTp.
Import IsoTp.Config.
Import IsoTpMore.

(** What [encode_frame] returns for a flow-control frame. *)
Lemma encode_flow_control_exact (config : ISOTPConfig)
    (status : ISOTPFlowStatus) (bs stmin : Z) (is_fd : bool) :
  padding_ok config = true ->
  0 <= bs < 256 ->
  0 <= stmin < 256 ->
  let raw := [0x30 + ISOTPFlowStatus_value status; bs; stmin] in
  encode_frame config
    (Frame.mkISOTPFrame FLOW_CONTROL_FRAME [] 0 status bs stmin) is_fd
  = Ok (raw ++ padding_for config is_fd raw,
        _calculate_dlc (len (raw ++ padding_for config is_fd raw)) is_fd
          (dlc_table_for is_fd)).
Proof.
  intros Hp Hbs Hst raw. subst raw. unfold encode_frame.
  cbn [Frame.frame_type Frame.flow_status Frame.block_size Frame.st_min
       ISOTPFrameType_value].
  assert (Hpci : Z.lor (Z.shiftl 3 4) (ISOTPFlowStatus_value status)
                 = 0x30 + ISOTPFlowStatus_value status)
    by (destruct status; reflexivity).
  rewrite Hpci.
  rewrite bytes_of_ok.
  2:{ cbn [forallb]. rewrite (is_byte_range bs Hbs),
        (is_byte_range stmin Hst). destruct status; reflexivity. }
  cbn [rbind].
  rewrite (encode_frame_tail_exact config is_fd _ Hp). reflexivity.
Qed.

(** The PCI byte of a first frame: type nibble 1, low nibble [hi]. *)
Lemma first_frame_pci (hi : Z) :
  0 <= hi <= 15 ->
  Z.land (Z.shiftr (0x10 + hi) 4) 0x0F = 1 /\ Z.land (0x10 + hi) 0x0F = hi.
Proof.
  intros H.
  assert (C : hi = 0 \/ hi = 1 \/ hi = 2 \/ hi = 3 \/ hi = 4 \/ hi = 5 \/
              hi = 6 \/ hi = 7 \/ hi = 8 \/ hi = 9 \/ hi = 10 \/ hi = 11 \/
              hi = 12 \/ hi = 13 \/ hi = 14 \/ hi = 15) by lia.
  repeat (destruct C as [-> | C]; [split; reflexivity |]).
  subst hi. split; reflexivity.
Qed.

(** [_process_first_frame] on an idle object, given at least two data
    bytes. *)
Lemma process_first_frame_idle (b0 b1 : Z) (rest : bytes) (now : time)
    (p : ISOTPProtocol) :
  state p = IDLE ->
  padding_ok (config p) = true ->
  0 <= block_size (config p) < 256 ->
  0 <= st_min (config p) < 256 ->
  let raw := [0x30; block_size (config p); st_min (config p)] in
  let fd := can_fd_enabled (config p) in
  let r := _process_first_frame (frame_of FIRST_FRAME (b0 :: b1 :: rest))
             now p in
  fst r = Ok true /\
  state (snd r) = RECEIVING /\
  rx_expected_length (rx (snd r)) = Z.lor (Z.shiftl b0 8) b1 /\
  rx_buffer (rx (snd r)) = rest /\
  rx_next_sequence (rx (snd r)) = 1 /\
  rx_flow_block_size (rx (snd r)) = rx_flow_block_size (rx p) /\
  tx_queue (snd r)
  = tx_queue p ++
      [outgoing_frame (config p) now (raw ++ padding_for (config p) fd raw)
         (_calculate_dlc (len (raw ++ padding_for (config p) fd raw)) fd
            (dlc_table_for fd))] /\
  timer (snd r) = mkTimerState now true (p4_timeout (config p)) /\
  rx_queue (snd r) = rx_queue p /\
  config (snd r) = config p.
Proof.
  intros Hst Hp Hbs Hsm raw fd r. subst r.
  pose proof (encode_flow_control_exact (config p) CONTINUE
                (block_size (config p)) (st_min (config p)) fd Hp Hbs Hsm)
    as Henc.
  cbn zeta in Henc. change (0x30 + ISOTPFlowStatus_value CONTINUE) with 0x30 in Henc.
  fold raw in Henc.
  unfold _process_first_frame. run_monad. rewrite Hst.
  cbn [ISOTPState_eqb negb frame_of Frame.data].
  assert (Hlen : (len (b0 :: b1 :: rest) >=? 2) = true).
  { apply Z.geb_le. unfold len. cbn [List.length]. lia. }
  rewrite Hlen.
  change (slice (b0 :: b1 :: rest) 0 2) with [b0; b1].
  change (index [b0; b1] 0) with (@Ok Z b0).
  change (index [b0; b1] 1) with (@Ok Z b1).
  change (slice_from (b0 :: b1 :: rest) 2) with rest.
  run_monad. unfold _send_flow_control_frame. run_monad.
  fold fd. rewrite Henc. run_monad.
  destruct (timer_running (timer p)); run_monad; cbn; repeat split.
Qed.

(** X7. A first frame on the wire never tells the receiver the message
    length it announces.  On an idle object the frame [1h ll d1 d2 d3 ...]
    is accepted and answered with one flow-control frame
    [30 BS STmin] (padded), the object starts RECEIVING with the P4 timer
    armed, but the expected length is taken from two payload bytes:
    [d1 d2] when the announced length is 256 or more ([h > 0]), and
    [d2 d3] when it is less ([h = 0], which [decode_frame] reads as the
    32-bit escape).  Those bytes, and for [h = 0] also [d1], are missing
    from the receive buffer. *)
Theorem first_frame_length_read_from_payload :
  forall (can_frame : Can.CANFrame) (now : time) (p : ISOTPProtocol)
         (hi lo d1 d2 d3 : Z) (rest : bytes),
    state p = IDLE ->
    Can.arbitration_id can_frame = rx_id (config p) ->
    padding_ok (config p) = true ->
    0 <= block_size (config p) < 256 ->
    0 <= st_min (config p) < 256 ->
    0 <= hi <= 15 ->
    Can.data can_frame = (0x10 + hi) :: lo :: d1 :: d2 :: d3 :: rest ->
    let r := process_can_frame can_frame now p in
    fst r = Ok true /\
    state (snd r) = RECEIVING /\
    rx_expected_length (rx (snd r))
    = (if hi =? 0 then Z.lor (Z.shiftl d2 8) d3
       else Z.lor (Z.shiftl d1 8) d2) /\
    rx_buffer (rx (snd r)) = (if hi =? 0 then rest else d3 :: rest) /\
    (exists fc padding,
        tx_queue (snd r) = tx_queue p ++ [fc] /\
        Can.arbitration_id fc = tx_id (config p) /\
        Can.data fc
        = [0x30; block_size (config p); st_min (config p)] ++ padding) /\
    timer (snd r) = mkTimerState now true (p4_timeout (config p)).
Proof.
  intros can_frame now p hi lo d1 d2 d3 rest Hst Hid Hp Hbs Hsm Hhi Hdata r.
  subst r. destruct (first_frame_pci hi Hhi) as [Hty Hlow].
  unfold process_can_frame. run_monad.
  rewrite Hid, Z.eqb_refl. cbn [negb].
  assert (Hdec : decode_frame (Can.data can_frame) (Can.is_fd can_frame)
                 = Some (frame_of FIRST_FRAME
                           (if hi =? 0 then d2 :: d3 :: rest
                            else d1 :: d2 :: d3 :: rest))).
  { rewrite Hdata. unfold decode_frame, decode_frame_body.
    change (index ((16 + hi) :: lo :: d1 :: d2 :: d3 :: rest) 0)
      with (@Ok Z (16 + hi)).
    cbn [rbind]. rewrite Hty, Hlow. cbn [ISOTPFrameType_value Z.eqb].
    destruct (hi =? 0).
    - assert (Hl : (len ((16 + hi) :: lo :: d1 :: d2 :: d3 :: rest) <? 4)
                   = false)
        by (apply Z.ltb_ge; unfold len; cbn [List.length]; lia).
      rewrite Hl. reflexivity.
    - reflexivity. }
  rewrite Hdec. cbn [frame_of Frame.frame_type].
  destruct (hi =? 0).
  - destruct (process_first_frame_idle d2 d3 rest now p Hst Hp Hbs Hsm)
      as (H1 & H2 & H3 & H4 & _ & _ & H7 & H8 & _).
    unfold frame_of in H1, H2, H3, H4, H7, H8.
    destruct (_process_first_frame _ now p) as [res p1].
    cbn [fst snd] in *. subst res.
    repeat split; try assumption.
    eexists. eexists. split; [exact H7 |].
    unfold outgoing_frame, Can.new. rewrite post_init_keeps_payload.
    split; [| reflexivity].
    unfold Can.__post_init__.
    match goal with |- context [if ?b then _ else _] => destruct b end;
      reflexivity.
  - destruct (process_first_frame_idle d1 d2 (d3 :: rest) now p Hst Hp Hbs Hsm)
      as (H1 & H2 & H3 & H4 & _ & _ & H7 & H8 & _).
    unfold frame_of in H1, H2, H3, H4, H7, H8.
    destruct (_process_first_frame _ now p) as [res p1].
    cbn [fst snd] in *. subst res.
    repeat split; try assumption.
    eexists. eexists. split; [exact H7 |].
    unfold outgoing_frame, Can.new. rewrite post_init_keeps_payload.
    split; [| reflexivity].
    unfold Can.__post_init__.
    match goal with |- context [if ?b then _ else _] => destruct b end;
      reflexivity.
Qed.

(** X8. A frame the object does not take leaves it untouched:
    [process_can_frame] returns [False] and changes nothing at all (state,
    buffers, queues, timer, callbacks) when the identifier is not
    [rx_id], when [decode_frame] gives [None], and when the frame type
    does not fit the state: a first frame outside IDLE, a consecutive
    frame outside RECEIVING, a flow-control frame outside
    WAITING_FOR_FC. *)
Theorem unexpected_frame_changes_nothing :
  forall (can_frame : Can.CANFrame) (now : time) (p : ISOTPProtocol),
    frame_ignored can_frame p = true ->
    process_can_frame can_frame now p = (Ok false, p).
Proof.
  intros can_frame now p. unfold frame_ignored, process_can_frame.
  run_monad.
  destruct (Can.arbitration_id can_frame =? rx_id (config p));
    cbn [negb orb]; [| reflexivity].
  destruct (decode_frame (Can.data can_frame) (Can.is_fd can_frame))
    as [f |]; [| reflexivity].
  destruct (Frame.frame_type f); intros H; try discriminate H;
    unfold _process_first_frame, _process_consecutive_frame,
      _process_flow_control_frame; run_monad; rewrite H; reflexivity.
Qed.


(** X10. Flow control that grants nothing, for an object that is
    WAITING_FOR_FC.  FC(Wait) is acknowledged with [True]: the object
    keeps waiting, its transmit bookkeeping and queue are untouched, and
    the timer is restarted with [p2_extended].  FC(Overflow) returns
    [False], puts the object in ERROR and reports "Flow control overflow"
    to the error callback if one is registered; nothing is sent, the
    transmit buffer is not released and the timer is left as it was. *)
Theorem flow_control_wait_and_overflow :
  forall (isotp_frame : Frame.ISOTPFrame) (now : time) (p : ISOTPProtocol),
    state p = WAITING_FOR_FC ->
    let r := _process_flow_control_frame isotp_frame now p in
    (Frame.flow_status isotp_frame = WAIT ->
     fst r = Ok true /\
     state (snd r) = WAITING_FOR_FC /\
     tx (snd r) = tx p /\
     tx_queue (snd r) = tx_queue p /\
     calls (snd r) = calls p /\
     timer (snd r) = mkTimerState now true (p2_extended (config p))) /\
    (Frame.flow_status isotp_frame = OVERFLOW ->
     fst r = Ok false /\
     state (snd r) = ERROR /\
     tx (snd r) = tx p /\
     tx_queue (snd r) = tx_queue p /\
     calls (snd r)
     = calls p ++ match on_error p with
                  | Some h => [ErrorReported h "Flow control overflow"]
                  | None => []
                  end /\
     timer (snd r) = timer p).
Proof.
  intros isotp_frame now p Hst r. subst r.
  unfold _process_flow_control_frame. run_monad. rewrite Hst.
  cbn [ISOTPState_eqb negb].
  split; intros Hfs; rewrite Hfs; run_monad.
  - destruct (timer_running (timer p)); run_monad; cbn;
      repeat split; try reflexivity; destruct p; reflexivity.
  - destruct (on_error p); cbn; rewrite ?app_nil_r;
      repeat split; reflexivity.
Qed.

End IsoTpReceiving.

(** ** ISO-TP: the sending side *)

Section IsoTpSending.
Import IsoTp.
Import IsoTp.Config.
Import IsoTpMore.

(** What [encode_frame] returns for a consecutive frame. *)
Lemma encode_consecutive_exact (config : ISOTPConfig) (d : bytes)
    (seq_no : Z) (is_fd : bool) :
  padding_ok config = true ->
  let raw := (0x20 + seq_no mod 16) :: d in
  encode_frame config
    (Frame.mkISOTPFrame CONSECUTIVE_FRAME d seq_no CONTINUE 0 0) is_fd
  = Ok (raw ++ padding_for config is_fd raw,
        _calculate_dlc (len (raw ++ padding_for config is_fd raw)) is_fd
          (dlc_table_for is_fd)).
Proof.
  intros Hp raw. subst raw. unfold encode_frame.
  cbn [Frame.frame_type Frame.data Frame.sequence_number ISOTPFrameType_value].
  change (Z.shiftl 2 4) with 32.
  pose proof (land_15_range seq_no) as Hr.
  rewrite (lor_32_nibble _ Hr), land_15_mod.
  rewrite land_15_mod in Hr.
  rewrite bytes_of_ok.
  2:{ cbn [forallb]. rewrite is_byte_range; [reflexivity | lia]. }
  cbn [rbind].
  rewrite (encode_frame_tail_exact config is_fd
             ([32 + seq_no mod 16] ++ d) Hp).
  reflexivity.
Qed.

Lemma len_skipn {A : Type} (l : list A) (n : nat) :
  len (skipn n l) = Z.max 0 (len l - Z.of_nat n).
Proof. unfold len. rewrite length_skipn. lia. Qed.

(** The slice [_send_consecutive_frame] takes from the buffer. *)
Lemma next_payload (buffer : bytes) (idx rem total w : Z) :
  0 <= idx -> 0 < w -> 0 < rem ->
  idx + rem = total ->
  total = len buffer ->
  slice buffer idx (Z.min (idx + w) total)
  = firstn (Z.to_nat w) (slice_from buffer idx) /\
  len (firstn (Z.to_nat w) (slice_from buffer idx)) = Z.min w rem.
Proof.
  intros Hidx Hw Hrem Hsum Htot. unfold slice, slice_from.
  assert (Hl : len (skipn (Z.to_nat idx) buffer) = rem).
  { rewrite len_skipn. lia. }
  split.
  - destruct (Z.le_gt_cases (idx + w) total) as [Hle | Hgt].
    + rewrite Z.min_l by lia. f_equal. lia.
    + rewrite Z.min_r by lia.
      rewrite !firstn_all2; [reflexivity | |];
        unfold len in Hl; lia.
  - rewrite len_firstn. lia.
Qed.

(** One call of [_send_consecutive_frame] in full. *)
Lemma send_consecutive_frame_exact (p : ISOTPProtocol) (now : time) :
  padding_ok (config p) = true ->
  0 <= tx_next_frame_index (tx p) ->
  0 < tx_remaining (tx p) ->
  tx_next_frame_index (tx p) + tx_remaining (tx p) = tx_total_length (tx p) ->
  tx_total_length (tx p) = len (tx_buffer (tx p)) ->
  let w := cf_width (config p) in
  let pending := slice_from (tx_buffer (tx p)) (tx_next_frame_index (tx p)) in
  let r := _send_consecutive_frame now p in
  fst r = Ok tt /\
  tx_queue (snd r)
  = tx_queue p ++
      [wire_frame (config p) now
         ((0x20 + tx_sequence (tx p) mod 16)
          :: firstn (Z.to_nat w) pending)] /\
  config (snd r) = config p /\
  on_transmission_complete (snd r) = on_transmission_complete p /\
  tx_sequence (tx (snd r)) = (tx_sequence (tx p) + 1) mod 16 /\
  tx_remaining (tx (snd r)) = Z.max 0 (tx_remaining (tx p) - w) /\
  rx (snd r) = rx p /\
  rx_queue (snd r) = rx_queue p /\
  (tx_remaining (tx p) <= w ->
   state (snd r) = IDLE /\
   tx_buffer (tx (snd r)) = [] /\
   timer_running (timer (snd r)) = false /\
   calls (snd r)
   = calls p ++ match on_transmission_complete p with
                | Some h => [TransmissionComplete h true []]
                | None => []
                end) /\
  (w < tx_remaining (tx p) ->
   state (snd r) = state p /\
   tx_buffer (tx (snd r)) = tx_buffer (tx p) /\
   tx_total_length (tx (snd r)) = tx_total_length (tx p) /\
   tx_next_frame_index (tx (snd r)) = tx_next_frame_index (tx p) + w /\
   calls (snd r) = calls p).
Proof.
  intros Hp Hidx Hrem Hsum Htot w pending r. subst r.
  assert (Hw : 0 < w) by (unfold w, cf_width; destruct (can_fd_enabled _); lia).
  destruct (next_payload _ _ _ _ w Hidx Hw Hrem Hsum Htot) as [Hslice Hlen].
  fold pending in Hslice, Hlen.
  unfold _send_consecutive_frame. run_monad.
  destruct (Z.leb_spec (tx_remaining (tx p)) 0); [lia |].
  fold (cf_width (config p)). fold w. rewrite Hslice.
  rewrite (encode_consecutive_exact (config p) _ _ _ Hp).
  run_monad.
  cbn [tx_remaining set_tx_remaining set_tx_next_frame_index set_tx_sequence
       set_tx_block_counter set_tx_last_time tx_sequence tx_buffer
       tx_total_length tx_next_frame_index tx_block_counter].
  rewrite Hlen.
  destruct (Z.leb_spec (tx_remaining (tx p) - Z.min w (tx_remaining (tx p))) 0)
    as [Hdone | Hmore].
  - run_monad. destruct (on_transmission_complete p) eqn:Ecb; cbn;
      rewrite ?land_15_mod, ?app_nil_r;
      repeat split; try reflexivity; try lia; exact Ecb.
  - run_monad. cbn. rewrite ?land_15_mod.
    repeat split; try reflexivity; try lia.
Qed.

Lemma segments_nil (w n : nat) : segments w n [] = [].
Proof. destruct n; reflexivity. Qed.

Lemma consecutive_frames_mod (config : ISOTPConfig) (now : time)
    (payloads : list bytes) :
  forall s s' : Z,
    s mod 16 = s' mod 16 ->
    consecutive_frames config now s payloads
    = consecutive_frames config now s' payloads.
Proof.
  induction payloads as [| x rest IH]; intros s s' H; [reflexivity |].
  cbn [consecutive_frames]. rewrite H. f_equal.
  apply IH. rewrite (Z.add_mod s), (Z.add_mod s'), H by lia. reflexivity.
Qed.

(** The block loop of [_process_flow_control_frame]: the frames it queues
    are the pieces of the pending bytes, in order. *)
Lemma send_block_segments (n : nat) (now : time) :
  forall p : ISOTPProtocol,
    padding_ok (config p) = true ->
    0 <= tx_next_frame_index (tx p) ->
    0 < tx_remaining (tx p) ->
    tx_next_frame_index (tx p) + tx_remaining (tx p)
    = tx_total_length (tx p) ->
    tx_total_length (tx p) = len (tx_buffer (tx p)) ->
    let w := cf_width (config p) in
    let pending :=
      slice_from (tx_buffer (tx p)) (tx_next_frame_index (tx p)) in
    let r := send_block n now p in
    fst r = Ok tt /\
    tx_queue (snd r)
    = tx_queue p ++
        consecutive_frames (config p) now (tx_sequence (tx p))
          (segments (Z.to_nat w) n pending) /\
    config (snd r) = config p /\
    tx_remaining (tx (snd r)) = left_after (tx_remaining (tx p)) n w /\
    rx (snd r) = rx p /\
    rx_queue (snd r) = rx_queue p /\
    (left_after (tx_remaining (tx p)) n w = 0 ->
     state (snd r) = IDLE /\
     tx_buffer (tx (snd r)) = [] /\
     calls (snd r)
     = calls p ++ match on_transmission_complete p with
                  | Some h => [TransmissionComplete h true []]
                  | None => []
                  end) /\
    (0 < left_after (tx_remaining (tx p)) n w ->
     state (snd r) = state p /\
     calls (snd r) = calls p).
Proof.
  induction n as [| n IH]; intros p Hp Hidx Hrem Hsum Htot w pending r;
    subst r.
  - cbn [send_block segments consecutive_frames]. unfold ret, left_after.
    cbn [fst snd]. rewrite app_nil_r.
    repeat split; try reflexivity; lia.
  - assert (Hw : 0 < w)
      by (unfold w, cf_width; destruct (can_fd_enabled _); lia).
    assert (Hpl : len pending = tx_remaining (tx p)).
    { unfold pending, slice_from. rewrite len_skipn. lia. }
    assert (Hne : pending <> []).
    { intros E. rewrite E in Hpl. cbn in Hpl. lia. }
    cbn [send_block]. unfold bind, get. cbn beta iota.
    destruct (Z.gtb_spec (tx_remaining (tx p)) 0) as [_ | Hno]; [| lia].
    destruct (send_consecutive_frame_exact p now Hp Hidx Hrem Hsum Htot)
      as (Hok & Hq & Hcfg & Hcb & Hseq & Hleft & Hrx & Hrq & Hdone & Hmore).
    fold w in Hq, Hleft, Hdone, Hmore. fold pending in Hq.
    destruct (_send_consecutive_frame now p) as [res p1].
    cbn [fst snd] in Hok, Hq, Hcfg, Hcb, Hseq, Hleft, Hrx, Hrq, Hdone, Hmore.
    subst res. cbn beta iota.
    cbn [segments]. destruct pending as [| b0 pending'] eqn:Epend;
      [contradiction |]. rewrite <- Epend in *.
    cbn [consecutive_frames].
    destruct (Z.le_gt_cases (tx_remaining (tx p)) w) as [Hlast | Hmid].
    + (* the frame just sent was the last one *)
      destruct (Hdone Hlast) as (Hst1 & Hbuf1 & _ & Hcalls1).
      assert (Hr1 : tx_remaining (tx p1) = 0) by lia.
      assert (Hstop : send_block n now p1 = (Ok tt, p1)).
      { destruct n; [reflexivity |]. cbn [send_block]. unfold bind, get.
        cbn beta iota. rewrite Hr1. reflexivity. }
      rewrite Hstop. cbn [fst snd].
      assert (Hskip : skipn (Z.to_nat w) pending = []).
      { apply skipn_all2. unfold len in Hpl. lia. }
      rewrite Hskip, segments_nil. cbn [consecutive_frames].
      assert (Hla : left_after (tx_remaining (tx p)) (S n) w = 0).
      { unfold left_after. nia. }
      rewrite Hla.
      repeat split; try assumption; try reflexivity; try lia.
    + (* more bytes are left *)
      destruct (Hmore Hmid) as (Hst1 & Hbuf1 & Htot1 & Hidx1 & Hcalls1).
      assert (Hp1 : padding_ok (config p1) = true) by (rewrite Hcfg; exact Hp).
      assert (Hr1 : tx_remaining (tx p1) = tx_remaining (tx p) - w) by lia.
      specialize (IH p1 Hp1).
      rewrite Hidx1, Hr1, Htot1, Hbuf1, Hcfg, Hseq, Hcb, Hq in IH.
      fold w in IH.
      destruct IH as (Hok' & Hq' & Hcfg' & Hleft' & Hrx' & Hrq' & Hdone'
                      & Hmore'); try lia.
      assert (Hskip : slice_from (tx_buffer (tx p))
                        (tx_next_frame_index (tx p) + w)
                      = skipn (Z.to_nat w) pending).
      { unfold pending, slice_from. rewrite skipn_skipn. f_equal. lia. }
      rewrite Hskip in Hq'.
      assert (Hla : left_after (tx_remaining (tx p) - w) n w
                    = left_after (tx_remaining (tx p)) (S n) w).
      { unfold left_after. f_equal. rewrite Nat2Z.inj_succ. lia. }
      rewrite Hla in Hleft', Hdone', Hmore'.
      rewrite (consecutive_frames_mod (config p) now _
                 ((tx_sequence (tx p) + 1) mod 16) (tx_sequence (tx p) + 1))
        in Hq' by (apply Z.mod_mod; lia).
      repeat split.
      * exact Hok'.
      * rewrite Hq', <- app_assoc. reflexivity.
      * exact Hcfg'.
      * exact Hleft'.
      * rewrite Hrx'. exact Hrx.
      * rewrite Hrq'. exact Hrq.
      * apply Hdone'; assumption.
      * apply Hdone'; assumption.
      * destruct (Hdone' H) as (_ & _ & Hc). rewrite Hc, Hcalls1. reflexivity.
      * destruct (Hmore' H) as [Hs _]. rewrite Hs. exact Hst1.
      * destruct (Hmore' H) as [_ Hc]. rewrite Hc. exact Hcalls1.
Qed.

Lemma segments_concat (w n : nat) :
  forall l : bytes,
    (0 < w)%nat ->
    List.concat (segments w n l) = firstn (n * w) l.
Proof.
  induction n as [| n IH]; intros l Hw; [reflexivity |].
  cbn [segments]. destruct l as [| b l'] eqn:El.
  - rewrite firstn_nil. reflexivity.
  - rewrite <- El. cbn [List.concat]. rewrite IH by exact Hw.
    replace (S n * w)%nat with (w + n * w)%nat by lia.
    rewrite <- (firstn_skipn w l) at 3.
    rewrite firstn_app, length_firstn.
    destruct (Nat.le_gt_cases w (List.length l)) as [Hle | Hgt].
    + rewrite Nat.min_l by exact Hle.
      replace (w + n * w - w)%nat with (n * w)%nat by lia.
      rewrite firstn_firstn.
      replace (Nat.min (w + n * w) w) with w by lia. reflexivity.
    + rewrite Nat.min_r by lia.
      rewrite (skipn_all2 l) by lia.
      rewrite !firstn_nil, !app_nil_r, firstn_firstn.
      replace (Nat.min (w + n * w) w) with w by lia. reflexivity.
Qed.

(** [_process_flow_control_frame] on FC(Continue) while bytes are
    pending. *)
Lemma flow_control_block (p : ISOTPProtocol) (fc : Frame.ISOTPFrame)
    (now : time) :
  state p = WAITING_FOR_FC ->
  padding_ok (config p) = true ->
  Frame.flow_status fc = CONTINUE ->
  0 <= tx_next_frame_index (tx p) ->
  0 < tx_remaining (tx p) ->
  tx_next_frame_index (tx p) + tx_remaining (tx p) = tx_total_length (tx p) ->
  tx_total_length (tx p) = len (tx_buffer (tx p)) ->
  let w := cf_width (config p) in
  let n := Z.to_nat (Z.min (Frame.block_size fc) (tx_remaining (tx p))) in
  let payloads :=
    segments (Z.to_nat w) n
      (slice_from (tx_buffer (tx p)) (tx_next_frame_index (tx p))) in
  let r := _process_flow_control_frame fc now p in
  fst r = Ok true /\
  tx_queue (snd r)
  = tx_queue p ++
      consecutive_frames (config p) now (tx_sequence (tx p)) payloads /\
  tx_remaining (tx (snd r)) = left_after (tx_remaining (tx p)) n w /\
  state (snd r)
  = (if left_after (tx_remaining (tx p)) n w =? 0 then IDLE
     else TRANSMITTING) /\
  timer (snd r) = mkTimerState now true (p2_timeout (config p)) /\
  rx_queue (snd r) = rx_queue p /\
  (left_after (tx_remaining (tx p)) n w = 0 ->
   calls (snd r)
   = calls p ++ match on_transmission_complete p with
                | Some h => [TransmissionComplete h true []]
                | None => []
                end).
Proof.
  intros Hst Hp Hfs Hidx Hrem Hsum Htot w n payloads r. subst r.
  unfold _process_flow_control_frame. run_monad.
  rewrite Hst, Hfs. cbn [ISOTPState_eqb negb]. run_monad.
  fold n.
  match goal with
  | |- context [send_block n now ?q] =>
      destruct (send_block_segments n now q Hp Hidx Hrem Hsum Htot)
        as (Hok & Hq & Hcfg & Hleft & _ & Hrq & Hdone & Hmore);
      destruct (send_block n now q) as [res p2]
  end.
  cbn [fst snd] in Hok, Hq, Hcfg, Hleft, Hrq, Hdone, Hmore. subst res.
  cbn [config state tx tx_queue rx_queue calls on_transmission_complete
       set_tx set_rx set_state set_tx_block_counter tx_buffer tx_remaining
       tx_sequence tx_next_frame_index]
    in Hq, Hcfg, Hleft, Hrq, Hdone, Hmore.
  fold w in Hq, Hleft, Hdone, Hmore. fold payloads in Hq.
  assert (Hfinal :
    state p2 = (if left_after (tx_remaining (tx p)) n w =? 0 then IDLE
                else TRANSMITTING) /\
    (left_after (tx_remaining (tx p)) n w = 0 ->
     calls p2 = calls p ++ match on_transmission_complete p with
                           | Some h => [TransmissionComplete h true []]
                           | None => []
                           end)).
  { destruct (Z.eqb_spec (left_after (tx_remaining (tx p)) n w) 0) as [E | E].
    - destruct (Hdone E) as (Hs & _ & Hc). split; [exact Hs | intros _; exact Hc].
    - assert (Hpos : 0 < left_after (tx_remaining (tx p)) n w)
        by (unfold left_after in *; lia).
      destruct (Hmore Hpos) as [Hs _]. split; [exact Hs | intros E'; lia]. }
  destruct Hfinal as [Hstate Hcalls].
  destruct (timer_running (timer p2)); run_monad; cbn [fst snd];
    repeat split; try assumption; try (rewrite Hcfg; reflexivity).
Qed.

(** X11. What FC(Continue, BS) releases.  With bytes pending, the frames
    put on the transmit queue are consecutive frames that carry, in order
    and numbered upwards from [tx_sequence] modulo 16, the pending bytes
    cut into pieces of 7 (64 on CAN FD): [min(BS, tx_remaining)] pieces
    at most, [tx_remaining] being a byte count.  Joined together the
    pieces are a prefix of the pending bytes, so no byte is lost,
    repeated or reordered.  When nothing is left the object is IDLE and
    the completion callback has been called with an empty payload;
    otherwise it is TRANSMITTING.  Either way the timer is armed again
    with [p2_timeout]. *)
Theorem flow_control_releases_block :
  forall (p : ISOTPProtocol) (fc : Frame.ISOTPFrame) (now : time),
    state p = WAITING_FOR_FC ->
    padding_ok (config p) = true ->
    Frame.flow_status fc = CONTINUE ->
    0 <= tx_next_frame_index (tx p) ->
    0 < tx_remaining (tx p) ->
    tx_next_frame_index (tx p) + tx_remaining (tx p)
    = tx_total_length (tx p) ->
    tx_total_length (tx p) = len (tx_buffer (tx p)) ->
    let w := cf_width (config p) in
    let n := Z.to_nat (Z.min (Frame.block_size fc) (tx_remaining (tx p))) in
    let pending :=
      slice_from (tx_buffer (tx p)) (tx_next_frame_index (tx p)) in
    let payloads := segments (Z.to_nat w) n pending in
    let r := _process_flow_control_frame fc now p in
    fst r = Ok true /\
    tx_queue (snd r)
    = tx_queue p ++
        consecutive_frames (config p) now (tx_sequence (tx p)) payloads /\
    List.concat payloads = firstn (n * Z.to_nat w) pending /\
    tx_remaining (tx (snd r)) = left_after (tx_remaining (tx p)) n w /\
    state (snd r)
    = (if left_after (tx_remaining (tx p)) n w =? 0 then IDLE
       else TRANSMITTING) /\
    timer (snd r) = mkTimerState now true (p2_timeout (config p)) /\
    (left_after (tx_remaining (tx p)) n w = 0 ->
     calls (snd r)
     = calls p ++ match on_transmission_complete p with
                  | Some h => [TransmissionComplete h true []]
                  | None => []
                  end).
Proof.
  intros p fc now Hst Hp Hfs Hidx Hrem Hsum Htot w n pending payloads r.
  destruct (flow_control_block p fc now Hst Hp Hfs Hidx Hrem Hsum Htot)
    as (H1 & H2 & H3 & H4 & H5 & _ & H7).
  repeat split; try assumption.
  apply segments_concat.
  unfold w, cf_width. destruct (can_fd_enabled (config p)); lia.
Qed.

(** X12. A transmission that needs a second block never gets it.  When
    FC(Continue, BS) has released its frames and bytes are still pending,
    the object is left TRANSMITTING, and in that state every further
    flow-control frame is turned down without any effect, as is every new
    [send_data]: the pending bytes are never sent, and the channel stays
    blocked until [reset]. *)
Theorem transmission_stalls_after_block :
  forall (p : ISOTPProtocol) (fc : Frame.ISOTPFrame) (now : time),
    state p = WAITING_FOR_FC ->
    padding_ok (config p) = true ->
    Frame.flow_status fc = CONTINUE ->
    0 <= tx_next_frame_index (tx p) ->
    0 < tx_remaining (tx p) ->
    tx_next_frame_index (tx p) + tx_remaining (tx p)
    = tx_total_length (tx p) ->
    tx_total_length (tx p) = len (tx_buffer (tx p)) ->
    0 < left_after (tx_remaining (tx p))
          (Z.to_nat (Z.min (Frame.block_size fc) (tx_remaining (tx p))))
          (cf_width (config p)) ->
    let p1 := snd (_process_flow_control_frame fc now p) in
    state p1 = TRANSMITTING /\
    0 < tx_remaining (tx p1) /\
    (forall (fc' : Frame.ISOTPFrame) (now' : time),
        _process_flow_control_frame fc' now' p1 = (Ok false, p1)) /\
    (forall (data : bytes) (callback : option handle) (now' : time),
        send_data data callback now' p1 = (Ok false, p1)) /\
    state (reset p1) = IDLE.
Proof.
  intros p fc now Hst Hp Hfs Hidx Hrem Hsum Htot Hleft p1.
  destruct (flow_control_block p fc now Hst Hp Hfs Hidx Hrem Hsum Htot)
    as (_ & _ & H3 & H4 & _).
  fold p1 in H3, H4.
  assert (Hstate : state p1 = TRANSMITTING).
  { rewrite H4.
    destruct (Z.eqb_spec
                (left_after (tx_remaining (tx p))
                   (Z.to_nat (Z.min (Frame.block_size fc)
                                (tx_remaining (tx p))))
                   (cf_width (config p))) 0); [lia | reflexivity]. }
  repeat split.
  - exact Hstate.
  - rewrite H3. exact Hleft.
  - intros fc' now'. unfold _process_flow_control_frame. run_monad.
    rewrite Hstate. reflexivity.
  - intros data callback now'. unfold send_data. run_monad.
    rewrite Hstate. reflexivity.
Qed.

Lemma post_init_keeps_id (f : Can.CANFrame) :
  Can.arbitration_id (Can.__post_init__ f) = Can.arbitration_id f.
Proof. unfold Can.__post_init__. destruct (Can.dlc f =? 0); reflexivity. Qed.

Lemma post_init_keeps_fd (f : Can.CANFrame) :
  Can.is_fd (Can.__post_init__ f) = Can.is_fd f.
Proof. unfold Can.__post_init__. destruct (Can.dlc f =? 0); reflexivity. Qed.

(** [send_data] with a message that fits a single frame. *)
Lemma send_single_frame_exact (p : ISOTPProtocol) (data : bytes)
    (callback : option handle) (now : time) :
  state p = IDLE ->
  padding_ok (config p) = true ->
  len data <= max_frame_size (config p) ->
  len data <= (if can_fd_enabled (config p) then 63 else 7) ->
  let r := send_data data callback now p in
  let handler := match callback with
                 | Some h => Some h
                 | None => on_transmission_complete p
                 end in
  fst r = Ok true /\
  state (snd r) = IDLE /\
  tx_queue (snd r)
  = tx_queue p ++ [wire_frame (config p) now (len data :: data)] /\
  tx_buffer (tx (snd r)) = [] /\
  tx_total_length (tx (snd r)) = 0 /\
  tx_remaining (tx (snd r)) = len data /\
  calls (snd r)
  = calls p ++ match handler with
               | Some h => [TransmissionComplete h true data]
               | None => []
               end /\
  timer (snd r) = mkTimerState now true (p2_timeout (config p)) /\
  rx_queue (snd r) = rx_queue p /\
  config (snd r) = config p.
Proof.
  intros Hst Hp Hmax Hshort r handler. subst r handler.
  pose proof (encode_single_exact (config p) data (can_fd_enabled (config p))
                Hp Hshort) as Henc.
  unfold send_data. run_monad. rewrite Hst. cbn [ISOTPState_eqb negb].
  destruct (Z.gtb_spec (len data) (max_frame_size (config p))); [lia |].
  assert (Hle : (len data <=? (if can_fd_enabled (config p) then 64 else 7))
                = true)
    by (apply Z.leb_le; destruct (can_fd_enabled (config p)); lia).
  destruct callback as [h |]; run_monad; rewrite Hle;
    unfold _send_single_frame; run_monad; rewrite Henc; run_monad;
    [| destruct (on_transmission_complete p)]; cbn;
    rewrite ?app_nil_r; repeat split; reflexivity.
Qed.

(** X13. A message that fits a single frame (up to 7 bytes, 63 on CAN
    FD) is sent and finished inside [send_data]: one frame [len, data,
    padding] is queued on [tx_id], the object is IDLE again with its
    transmit buffer released, and the completion callback (the one passed
    in, else the one registered) has been called with [True] and the
    data.  Two things are left behind: [tx_remaining] still holds the
    message length, and the timer, stopped on completion, is armed again
    with [p2_timeout] although nothing is awaited. *)
Theorem single_frame_send_completes :
  forall (p : ISOTPProtocol) (data : bytes) (callback : option handle)
         (now : time),
    state p = IDLE ->
    padding_ok (config p) = true ->
    len data <= max_frame_size (config p) ->
    len data <= (if can_fd_enabled (config p) then 63 else 7) ->
    let r := send_data data callback now p in
    let handler := match callback with
                   | Some h => Some h
                   | None => on_transmission_complete p
                   end in
    fst r = Ok true /\
    state (snd r) = IDLE /\
    (exists f,
        tx_queue (snd r) = tx_queue p ++ [f] /\
        Can.arbitration_id f = tx_id (config p) /\
        Can.data f
        = (len data :: data)
          ++ padding_for (config p) (can_fd_enabled (config p))
               (len data :: data)) /\
    tx_buffer (tx (snd r)) = [] /\
    tx_remaining (tx (snd r)) = len data /\
    calls (snd r)
    = calls p ++ match handler with
                 | Some h => [TransmissionComplete h true data]
                 | None => []
                 end /\
    timer (snd r) = mkTimerState now true (p2_timeout (config p)).
Proof.
  intros p data callback now Hst Hp Hmax Hshort r handler.
  destruct (send_single_frame_exact p data callback now Hst Hp Hmax Hshort)
    as (H1 & H2 & H3 & H4 & _ & H6 & H7 & H8 & _).
  repeat split; try assumption.
  eexists. split; [exact H3 |].
  unfold wire_frame, outgoing_frame, Can.new.
  rewrite post_init_keeps_id, post_init_keeps_payload. split; reflexivity.
Qed.

(** X14. A short message crosses from one protocol object to another.
    If [q] listens on the identifier [p] transmits on, the frame that
    [send_data] queues for a message of 1 to 7 bytes (1 to 15 on CAN FD)
    is accepted by [q.process_can_frame] in whatever state [q] is, and
    the only change to [q] is that exactly the message sent is appended
    to its receive queue. *)
Theorem short_message_crosses :
  forall (p q : ISOTPProtocol) (data : bytes) (callback : option handle)
         (now now' : time),
    state p = IDLE ->
    padding_ok (config p) = true ->
    len data <= max_frame_size (config p) ->
    1 <= len data <= (if can_fd_enabled (config p) then 15 else 7) ->
    rx_id (config q) = tx_id (config p) ->
    exists f,
      tx_queue (snd (send_data data callback now p)) = tx_queue p ++ [f] /\
      process_can_frame f now' q
      = (Ok true, set_rx_queue (rx_queue q ++ [data]) q).
Proof.
  intros p q data callback now now' Hst Hp Hmax Hlen Hid.
  assert (Hshort : len data <= (if can_fd_enabled (config p) then 63 else 7))
    by (destruct (can_fd_enabled (config p)); lia).
  destruct (send_single_frame_exact p data callback now Hst Hp Hmax Hshort)
    as (_ & _ & H3 & _).
  eexists. split; [exact H3 |].
  unfold process_can_frame. run_monad.
  unfold wire_frame, outgoing_frame, Can.new.
  rewrite post_init_keeps_id, post_init_keeps_payload, post_init_keeps_fd.
  cbn [Can.arbitration_id Can.data Can.is_fd].
  rewrite Hid, Z.eqb_refl. cbn [negb].
  rewrite decode_single_exact
    by (destruct (can_fd_enabled (config p)); lia).
  cbn [frame_of Frame.frame_type]. unfold _process_single_frame. run_monad.
  reflexivity.
Qed.

(** X15. On CAN FD the first frame of a segmented message does not fit
    a frame.  [_send_first_frame] takes 64 bytes of the message and
    [encode_frame] puts two PCI bytes in front, so the queued frame
    holds 66 data bytes under DLC 15, whose capacity in the table of
    [_get_fd_dlc_table] is 64. *)
Theorem fd_first_frame_oversized :
  forall (p : ISOTPProtocol) (data : bytes) (callback : option handle)
         (now : time),
    state p = IDLE ->
    can_fd_enabled (config p) = true ->
    64 < len data ->
    len data <= max_frame_size (config p) ->
    exists f,
      tx_queue (snd (send_data data callback now p)) = tx_queue p ++ [f] /\
      len (Can.data f) = 66 /\
      Can.dlc f = 15 /\
      In (15, 64) _get_fd_dlc_table.
Proof.
  intros p data callback now Hst Hfd Hlong Hmax.
  assert (Hl : (if can_fd_enabled (config p) then 64 else 7) < len data)
    by (rewrite Hfd; exact Hlong).
  destruct (send_first_frame_queue p data callback now Hst Hmax Hl)
    as (_ & _ & Hq & _).
  rewrite Hfd in Hq.
  eexists. split; [exact Hq |].
  unfold outgoing_frame, Can.new. rewrite post_init_keeps_payload.
  cbn [Can.data]. split; [| split; [reflexivity | cbn; tauto]].
  rewrite len_app, len_firstn. unfold len at 1. cbn [List.length]. lia.
Qed.

(** X16. [reset] gives the channel back.  It is idempotent, leaves the
    object IDLE with the timer stopped, both buffers empty and the
    receive queue drained, and turns a fresh object into itself; the
    configuration, the callbacks and whatever waits in the transmit
    queue are kept.  After it, [send_data] accepts every message within
    [max_frame_size], whatever state the object was in before. *)
Theorem reset_recovers_the_channel :
  forall (p : ISOTPProtocol),
    reset (reset p) = reset p /\
    state (reset p) = IDLE /\
    timer_running (timer (reset p)) = false /\
    tx_buffer (tx (reset p)) = [] /\
    rx_buffer (rx (reset p)) = [] /\
    rx_queue (reset p) = [] /\
    tx_queue (reset p) = tx_queue p /\
    config (reset p) = config p /\
    on_error (reset p) = on_error p /\
    reset (init (config p)) = init (config p) /\
    (forall (data : bytes) (callback : option handle) (now : time),
        padding_ok (config p) = true ->
        len data <= max_frame_size (config p) ->
        fst (send_data data callback now (reset p)) = Ok true).
Proof.
  intros p. repeat split.
  intros data callback now Hp Hmax.
  apply send_data_accepted; [reflexivity | exact Hp | exact Hmax].
Qed.

End IsoTpSending.

(** ** ISO-TP: the registry of protocol objects *)

Section IsoTpRegistry.
Import IsoTp.
Import IsoTp.Config.
Import IsoTpMore.
Import StrDict.

(** What [create_protocol] leaves in the registry. *)
Lemma create_protocol_registers_core (protocol_id : string)
    (config : ISOTPConfig) (m : ISOTPManager) :
  get_protocol protocol_id (snd (create_protocol protocol_id config m))
  = fst (create_protocol protocol_id config m) /\
  (NoDup (keys m) ->
   NoDup (keys (snd (create_protocol protocol_id config m)))).
Proof.
  unfold create_protocol, get_protocol.
  destruct (lookup protocol_id m) as [existing |] eqn:El.
  - cbn [fst snd]. rewrite El. split; [reflexivity | tauto].
  - destruct (validate config) eqn:Ev; cbn [negb fst snd].
    + rewrite lookup_store_same. split; [reflexivity |].
      intros Hnd. apply keys_store_nodup. exact Hnd.
    + rewrite El. split; [reflexivity | tauto].
Qed.

(** X17. [ISOTPManager.create_protocol] and [get_protocol].  What
    [create_protocol] returns is what [get_protocol] finds under the
    same id afterwards, and no other id is affected.  An id already in
    use gets the existing object back, untouched, and the configuration
    passed in is ignored, valid or not.  A fresh id with a configuration
    that passes [validate] registers a new object in its initial state;
    [None] is returned exactly when the id is fresh and the
    configuration fails [validate], and then the registry is unchanged.
    Ids stay unique. *)
Theorem create_protocol_registers :
  forall (protocol_id : string) (config : ISOTPConfig) (m : ISOTPManager),
    let r := create_protocol protocol_id config m in
    get_protocol protocol_id (snd r) = fst r /\
    (forall other, other <> protocol_id ->
        get_protocol other (snd r) = get_protocol other m) /\
    (forall existing,
        get_protocol protocol_id m = Some existing ->
        r = (Some existing, m)) /\
    (get_protocol protocol_id m = None -> validate config = true ->
     fst r = Some (init config)) /\
    (fst r = None <->
     get_protocol protocol_id m = None /\ validate config = false) /\
    (fst r = None -> snd r = m) /\
    (NoDup (keys m) -> NoDup (keys (snd r))).
Proof.
  intros protocol_id config m r. subst r.
  unfold create_protocol, get_protocol.
  destruct (lookup protocol_id m) as [existing |] eqn:El.
  - cbn [fst snd]. rewrite El.
    repeat split; try tauto; try discriminate; try congruence.
  - destruct (validate config) eqn:Ev; cbn [negb fst snd].
    + rewrite lookup_store_same.
      repeat split; try tauto; try discriminate; try congruence.
      * intros other Hne. apply lookup_store_other. exact Hne.
      * intros [_ H]. discriminate H.
      * intros Hnd. apply keys_store_nodup. exact Hnd.
    + rewrite El. repeat split; try tauto; try discriminate; try congruence.
Qed.

(** X18. [ISOTPManager.remove_protocol].  It returns [True] exactly when
    the id was registered; afterwards the id is not found, every other
    id finds what it found before, ids stay unique, and sending through
    the manager under the removed id is refused without any effect. *)
Theorem remove_protocol_forgets :
  forall (protocol_id : string) (m : ISOTPManager),
    NoDup (keys m) ->
    let r := remove_protocol protocol_id m in
    (fst r = true <-> get_protocol protocol_id m <> None) /\
    get_protocol protocol_id (snd r) = None /\
    (forall other, other <> protocol_id ->
        get_protocol other (snd r) = get_protocol other m) /\
    NoDup (keys (snd r)) /\
    (forall (data : bytes) (callback : option handle) (now : time),
        manager_send_data protocol_id data callback now (snd r)
        = (Ok false, snd r)).
Proof.
  intros protocol_id m Hnd r. subst r.
  unfold remove_protocol, get_protocol, manager_send_data, get_protocol.
  destruct (lookup protocol_id m) as [p |] eqn:El; cbn [fst snd].
  - rewrite (lookup_delete_same _ _ Hnd).
    repeat split; try discriminate; try reflexivity.
    + intros other Hne. apply lookup_delete_other. exact Hne.
    + apply keys_delete_nodup. exact Hnd.
  - rewrite El. repeat split; try discriminate; try tauto.
Qed.

(** X19. [ISOTPManager.process_can_frame] hands a frame down the registry
    in insertion order.  While the protocols asked listen on other
    identifiers they are left untouched; the first one that accepts the
    frame ends the search, and the protocols registered after it are
    not asked.  A frame whose identifier no protocol listens on gives
    [False] and changes nothing. *)
Theorem manager_routes_by_identifier :
  forall (can_frame : Can.CANFrame) (now : time) (before : ISOTPManager),
    (forall k q, In (k, q) before ->
        Can.arbitration_id can_frame <> rx_id (config q)) ->
    manager_process_can_frame can_frame now before = (false, before) /\
    (forall (k : string) (p : ISOTPProtocol) (after : ISOTPManager),
        fst (process_can_frame can_frame now p) = Ok true ->
        manager_process_can_frame can_frame now (before ++ (k, p) :: after)
        = (true,
           before ++ (k, snd (process_can_frame can_frame now p)) :: after)).
Proof.
  intros can_frame now before.
  assert (Hskip : forall q,
             Can.arbitration_id can_frame <> rx_id (config q) ->
             process_can_frame can_frame now q = (Ok false, q)).
  { intros q Hne. unfold process_can_frame. run_monad.
    destruct (Z.eqb_spec (Can.arbitration_id can_frame) (rx_id (config q)));
      [contradiction | reflexivity]. }
  induction before as [| [k0 q0] rest IH]; intros Hall.
  - split; [reflexivity |].
    intros k p after Hacc. cbn [app manager_process_can_frame].
    rewrite Hacc. reflexivity.
  - assert (H0 : Can.arbitration_id can_frame <> rx_id (config q0))
      by (apply (Hall k0 q0); left; reflexivity).
    assert (Hrest : forall k q, In (k, q) rest ->
               Can.arbitration_id can_frame <> rx_id (config q))
      by (intros k q Hin; apply (Hall k q); right; exact Hin).
    destruct (IH Hrest) as [IH1 IH2].
    split.
    + cbn [manager_process_can_frame]. rewrite (Hskip q0 H0).
      cbn [fst snd]. rewrite IH1. reflexivity.
    + intros k p after Hacc.
      cbn [app manager_process_can_frame]. rewrite (Hskip q0 H0).
      cbn [fst snd]. rewrite (IH2 k p after Hacc). reflexivity.
Qed.

Lemma lookup_reset_all (k : string) (m : ISOTPManager) :
  lookup k (reset_all_protocols m) = option_map reset (lookup k m).
Proof.
  unfold reset_all_protocols.
  induction m as [| [k0 q] rest IH]; cbn [map lookup fst snd];
    [reflexivity |].
  destruct (String.eqb k0 k); [reflexivity | exact IH].
Qed.

(** X20. [ISOTPManager.reset_all_protocols] frees every channel.  The
    same ids are registered as before, each holding its object after
    [reset]; so whatever state a registered protocol was in, a following
    [send_data] through the manager, with a message within
    [max_frame_size], is accepted. *)
Theorem reset_all_frees_every_channel :
  forall (m : ISOTPManager),
    keys (reset_all_protocols m) = keys m /\
    (forall protocol_id,
        get_protocol protocol_id (reset_all_protocols m)
        = option_map reset (get_protocol protocol_id m)) /\
    (forall (protocol_id : string) (p : ISOTPProtocol) (data : bytes)
            (callback : option handle) (now : time),
        get_protocol protocol_id m = Some p ->
        padding_ok (config p) = true ->
        len data <= max_frame_size (config p) ->
        fst (manager_send_data protocol_id data callback now
               (reset_all_protocols m)) = Ok true).
Proof.
  intros m. split; [| split].
  - unfold reset_all_protocols, keys. rewrite map_map. reflexivity.
  - intros protocol_id. apply lookup_reset_all.
  - intros protocol_id p data callback now Hget Hp Hmax.
    unfold manager_send_data, get_protocol in *.
    rewrite lookup_reset_all, Hget. cbn [option_map fst].
    apply send_data_accepted; [reflexivity | exact Hp | exact Hmax].
Qed.

End IsoTpRegistry.

(** ** ISO-TP: the further theorems on sample inputs *)

Section MoreSampleTransmissions.
Import IsoTp.
Import IsoTp.Config.
Import IsoTpMore.
Import Samples.
Import MoreSamples.

Lemma validate_accepts_exactly_witness :
  validate Config.default = true /\ validate fd_config = true.
Proof.
  split.
  - apply (proj2 (validate_accepts_exactly Config.default)).
    vm_compute. repeat split; discriminate.
  - apply (proj2 (validate_accepts_exactly fd_config)).
    vm_compute. repeat split; discriminate.
Defined.

(** An identifier beyond 29 bits, or a block size beyond a byte, is turned
    down. *)
Example validate_rejects :
  validate (mkISOTPConfig 0x20000000 0x7E8 NORMAL "standard" 0 8 0 false true
              true 64 50 5000 5000 4095 4096 1000 true 0xCC) = false /\
  validate (mkISOTPConfig 0x7E0 0x7E8 NORMAL "standard" 0 256 0 false true
              true 64 50 5000 5000 4095 4096 1000 true 0xCC) = false.
Proof. split; reflexivity. Qed.

Lemma calculate_dlc_smallest_fit_witness :
  (exists capacity,
      In (_calculate_dlc 13 true (dlc_table_for true), capacity)
        (dlc_table_for true) /\
      13 <= capacity /\
      (forall d c,
          In (d, c) (dlc_table_for true) -> 13 <= c ->
          _calculate_dlc 13 true (dlc_table_for true) <= d)) /\
  _calculate_dlc 66 true (dlc_table_for true) = 15.
Proof.
  split.
  - apply (proj1 (calculate_dlc_smallest_fit 13 true)). discriminate.
  - apply (proj2 (calculate_dlc_smallest_fit 66 true)). reflexivity.
Defined.

(** Thirteen bytes need DLC 10, the sixteen-byte frame. *)
Example dlc_of_13_bytes :
  _calculate_dlc 13 true (dlc_table_for true) = 10.
Proof. reflexivity. Qed.

Lemma single_frame_round_trip_witness :
  exists frame_data dlc,
    encode_frame Config.default (frame_of SINGLE_FRAME tester_present_bytes)
      false
    = Ok (frame_data, dlc) /\
    decode_frame frame_data false
    = Some (frame_of SINGLE_FRAME tester_present_bytes).
Proof.
  apply (single_frame_round_trip Config.default tester_present_bytes false);
    vm_compute; repeat split; first [reflexivity | discriminate].
Defined.

(** TesterPresent on the wire: [02 3E 00 CC CC CC CC CC], DLC 8. *)
Example tester_present_on_the_wire :
  encode_frame Config.default (frame_of SINGLE_FRAME tester_present_bytes)
    false
  = Ok ([0x02; 0x3E; 0x00; 0xCC; 0xCC; 0xCC; 0xCC; 0xCC], 8).
Proof. reflexivity. Qed.

Lemma flow_control_round_trip_witness :
  exists frame_data dlc,
    encode_frame Config.default
      (Frame.mkISOTPFrame FLOW_CONTROL_FRAME [] 0 WAIT 8 20) false
    = Ok (frame_data, dlc) /\
    decode_frame frame_data false
    = Some (Frame.mkISOTPFrame FLOW_CONTROL_FRAME [] 0 WAIT 8 20).
Proof.
  apply (flow_control_round_trip Config.default WAIT 8 20 false);
    vm_compute; repeat split; first [reflexivity | discriminate].
Defined.

Lemma consecutive_frame_round_trip_witness :
  exists frame_data dlc,
    encode_frame Config.default
      (Frame.mkISOTPFrame CONSECUTIVE_FRAME [0x13; 0x14] 18 CONTINUE 0 0)
      false
    = Ok (frame_data, dlc) /\
    decode_frame frame_data false
    = Some (Frame.mkISOTPFrame CONSECUTIVE_FRAME
              ([0x13; 0x14]
               ++ padding_for Config.default false
                    ((0x20 + 18 mod 16) :: [0x13; 0x14]))
              (18 mod 16) CONTINUE 0 0).
Proof.
  apply (consecutive_frame_round_trip Config.default [0x13; 0x14] 18 false).
  reflexivity.
Defined.

(** The two bytes come back as seven: five padding bytes are now data. *)
Example consecutive_frame_comes_back_padded :
  decode_frame [0x22; 0x13; 0x14; 0xCC; 0xCC; 0xCC; 0xCC; 0xCC] false
  = Some (Frame.mkISOTPFrame CONSECUTIVE_FRAME
            [0x13; 0x14; 0xCC; 0xCC; 0xCC; 0xCC; 0xCC] 2 CONTINUE 0 0).
Proof. reflexivity. Qed.

Lemma fd_single_frame_misread_witness :
  exists frame_data dlc,
    encode_frame fd_config (frame_of SINGLE_FRAME msg40) true
    = Ok (frame_data, dlc) /\
    hd_error frame_data = Some (len msg40) /\
    (forall f,
        decode_frame frame_data true = Some f ->
        Frame.frame_type f <> SINGLE_FRAME).
Proof.
  apply (fd_single_frame_misread fd_config msg40);
    vm_compute; repeat split; first [reflexivity | discriminate].
Defined.

(** The 40-byte single frame starts with [0x28] and is read as a
    consecutive frame with sequence number 8. *)
Example fd_single_frame_read_as_consecutive :
  option_map (fun f => (Frame.frame_type f, Frame.sequence_number f))
    (decode_frame (0x28 :: msg40 ++ repeat 0xCC 23) true)
  = Some (CONSECUTIVE_FRAME, 8).
Proof. reflexivity. Qed.

Lemma first_frame_length_read_from_payload_witness :
  rx_expected_length (rx (snd (process_can_frame first_frame_of_20 0 idle)))
  = 0x0203 /\
  rx_buffer (rx (snd (process_can_frame first_frame_of_20 0 idle)))
  = [0x04; 0x05; 0x06].
Proof.
  destruct (first_frame_length_read_from_payload first_frame_of_20 0 idle
              0 0x14 0x01 0x02 0x03 [0x04; 0x05; 0x06])
    as (_ & _ & Hlen & Hbuf & _);
    [ vm_compute; repeat split; first [reflexivity | discriminate] ..
    | split; [exact Hlen | exact Hbuf] ].
Defined.

Lemma unexpected_frame_changes_nothing_witness :
  process_can_frame foreign_frame 0 idle = (Ok false, idle).
Proof.
  apply (unexpected_frame_changes_nothing foreign_frame 0 idle). reflexivity.
Defined.

(** A consecutive frame for an object that is not receiving, and a
    flow-control frame for one that is not waiting, are ignored too. *)
Example unexpected_frame_types :
  frame_ignored
    (Can.new 0 0x7E0 [0x21; 1; 2; 3; 4; 5; 6; 7] false false false false
       false false 0 0) idle = true /\
  frame_ignored
    (Can.new 0 0x7E0 [0x30; 8; 0] false false false false false false 0 0)
    idle = true.
Proof. split; reflexivity. Qed.


Lemma flow_control_wait_and_overflow_witness :
  fst (_process_flow_control_frame fc_wait 7 after_first_frame) = Ok true /\
  state (snd (_process_flow_control_frame fc_wait 7 after_first_frame))
  = WAITING_FOR_FC /\
  timer (snd (_process_flow_control_frame fc_wait 7 after_first_frame))
  = mkTimerState 7 true 5000.
Proof.
  destruct (flow_control_wait_and_overflow fc_wait 7 after_first_frame
              eq_refl) as [Hwait _].
  destruct (Hwait eq_refl) as (H1 & H2 & _ & _ & _ & H6).
  split; [exact H1 | split; [exact H2 | exact H6]].
Defined.

Lemma flow_control_releases_block_witness :
  map Can.data
    (tx_queue (snd (_process_flow_control_frame (fc_continue 8) 0
                      after_first_frame)))
  = [[0x10; 0x06; 0x01; 0x02; 0x03; 0x04; 0x05; 0x06];
     [0x20; 0x07; 0x08; 0x09; 0x0A; 0x0B; 0x0C; 0x0D];
     [0x21; 0x0E; 0x0F; 0x10; 0x11; 0x12; 0x13; 0x14]] /\
  state (snd (_process_flow_control_frame (fc_continue 8) 0
                after_first_frame)) = IDLE.
Proof.
  destruct (flow_control_releases_block after_first_frame (fc_continue 8) 0)
    as (_ & Hq & _ & _ & Hst & _);
    [ vm_compute; first [reflexivity | discriminate] ..
    | split; [rewrite Hq; reflexivity | exact Hst] ].
Defined.

Lemma transmission_stalls_after_block_witness :
  let p1 := snd (_process_flow_control_frame (fc_continue 1) 0
                   after_first_frame) in
  state p1 = TRANSMITTING /\
  tx_remaining (tx p1) = 7 /\
  _process_flow_control_frame (fc_continue 1) 1 p1 = (Ok false, p1).
Proof.
  intros p1.
  destruct (transmission_stalls_after_block after_first_frame
              (fc_continue 1) 0) as (Hst & _ & Hfc & _);
    [ vm_compute; first [reflexivity | discriminate] ..
    | split; [exact Hst | split; [reflexivity | apply Hfc]] ].
Defined.

Lemma single_frame_send_completes_witness :
  fst (send_data tester_present_bytes (Some 1%nat) 0 idle) = Ok true /\
  state (snd (send_data tester_present_bytes (Some 1%nat) 0 idle)) = IDLE /\
  calls (snd (send_data tester_present_bytes (Some 1%nat) 0 idle))
  = [TransmissionComplete 1%nat true tester_present_bytes] /\
  timer (snd (send_data tester_present_bytes (Some 1%nat) 0 idle))
  = mkTimerState 0 true 50.
Proof.
  destruct (single_frame_send_completes idle tester_present_bytes
              (Some 1%nat) 0)
    as (H1 & H2 & _ & _ & _ & H6 & H7);
    [ vm_compute; first [reflexivity | discriminate] ..
    | split; [exact H1 | split; [exact H2 | split; [exact H6 | exact H7]]] ].
Defined.

Lemma short_message_crosses_witness :
  exists f,
    tx_queue (snd (send_data tester_present_bytes None 0 idle))
    = tx_queue idle ++ [f] /\
    process_can_frame f 1 peer
    = (Ok true, set_rx_queue (rx_queue peer ++ [tester_present_bytes]) peer).
Proof.
  apply (short_message_crosses idle peer tester_present_bytes None 0 1);
    vm_compute; repeat split; first [reflexivity | discriminate].
Defined.

Lemma fd_first_frame_oversized_witness :
  exists f,
    tx_queue (snd (send_data msg100 None 0 fd_idle)) = tx_queue fd_idle ++ [f] /\
    len (Can.data f) = 66 /\
    Can.dlc f = 15 /\
    In (15, 64) _get_fd_dlc_table.
Proof.
  apply (fd_first_frame_oversized fd_idle msg100 None 0);
    vm_compute; first [reflexivity | discriminate].
Defined.

Lemma reset_recovers_the_channel_witness :
  state (reset (snd (_process_flow_control_frame (fc_continue 1) 0
                       after_first_frame))) = IDLE /\
  fst (send_data tester_present_bytes None 0
         (reset (snd (_process_flow_control_frame (fc_continue 1) 0
                        after_first_frame)))) = Ok true.
Proof.
  destruct (reset_recovers_the_channel
              (snd (_process_flow_control_frame (fc_continue 1) 0
                      after_first_frame)))
    as (_ & Hst & _ & _ & _ & _ & _ & _ & _ & _ & Hsend).
  split; [exact Hst |].
  apply Hsend; vm_compute; first [reflexivity | discriminate].
Defined.

(** The object taken out of a stall by [reset] sends again. *)
Example reset_after_stall :
  let stalled := snd (_process_flow_control_frame (fc_continue 1) 0
                        after_first_frame) in
  fst (send_data tester_present_bytes None 0 stalled) = Ok false /\
  fst (send_data tester_present_bytes None 0 (reset stalled)) = Ok true.
Proof. split; reflexivity. Qed.

Lemma create_protocol_registers_witness :
  fst (create_protocol "fd" fd_config registry) = Some fd_idle /\
  get_protocol "fd" (snd (create_protocol "fd" fd_config registry))
  = Some fd_idle /\
  create_protocol "uds" fd_config registry = (Some idle, registry).
Proof.
  destruct (create_protocol_registers "fd" fd_config registry)
    as (Hget & _ & _ & Hnew & _).
  destruct (create_protocol_registers "uds" fd_config registry)
    as (_ & _ & Hold & _).
  assert (H : fst (create_protocol "fd" fd_config registry) = Some fd_idle)
    by (apply Hnew; reflexivity).
  split; [exact H |]. split; [rewrite Hget; exact H |].
  apply Hold. reflexivity.
Defined.

Lemma reset_all_frees_every_channel_witness :
  fst (manager_send_data "uds" tester_present_bytes None 0 busy_registry)
  = Ok false /\
  fst (manager_send_data "uds" tester_present_bytes None 0
         (reset_all_protocols busy_registry)) = Ok true.
Proof.
  destruct (reset_all_frees_every_channel busy_registry) as (_ & _ & Hsend).
  split; [reflexivity |].
  apply (Hsend "uds"%string after_first_frame);
    vm_compute; first [reflexivity | discriminate].
Defined.

Lemma remove_protocol_forgets_witness :
  get_protocol "uds" (snd (remove_protocol "uds" registry)) = None /\
  get_protocol "peer" (snd (remove_protocol "uds" registry)) = Some peer.
Proof.
  assert (Hnd : NoDup (StrDict.keys registry)).
  { repeat constructor; cbn; intuition discriminate. }
  destruct (remove_protocol_forgets "uds" registry Hnd)
    as (_ & Hgone & Hother & _).
  split; [exact Hgone |].
  rewrite Hother; [reflexivity | discriminate].
Defined.

Lemma manager_routes_by_identifier_witness :
  manager_process_can_frame foreign_frame 0 registry = (false, registry).
Proof.
  apply (manager_routes_by_identifier foreign_frame 0 registry).
  intros k q [E | [E | []]]; injection E as _ <-; vm_compute; discriminate.
Defined.

(** A frame for the peer passes the default object and stops there. *)
Example frame_routed_to_the_peer :
  let f := Can.new 0 0x7E8 [0x02; 0x3E; 0x00] false false false false false
             false 0 0 in
  fst (manager_process_can_frame f 0 registry) = true /\
  option_map rx_queue (get_protocol "peer"
                         (snd (manager_process_can_frame f 0 registry)))
  = Some [[0x3E; 0x00]].
Proof. split; reflexivity. Qed.

End MoreSampleTransmissions.

(** ** UDS: requests, replies and the session registry *)

Section UdsRequests.
Import Uds.
Import UdsMore.

Lemma dict_get_del_same (k : Z) (d : callbacks) :
  dict_get k (dict_del k d) = None.
Proof.
  induction d as [| [k0 w] d IH]; [reflexivity |].
  cbn [dict_del]. destruct (Z.eqb_spec k0 k) as [-> | Hk]; [exact IH |].
  cbn [dict_get]. destruct (Z.eqb_spec k0 k); [contradiction | exact IH].
Qed.

Lemma cleanup_forgets (request : Request.UDSRequest)
    (self : UDSSessionManager) :
  Request.expect_response request = true ->
  dict_get (Request.service_id request) (response_callbacks (cleanup request self))
  = None.
Proof.
  intros H. unfold cleanup. rewrite H.
  cbn [response_callbacks set_response_callbacks]. apply dict_get_del_same.
Qed.

Lemma cleanup_idle (request : Request.UDSRequest) (self : UDSSessionManager) :
  Request.expect_response request = false -> cleanup request self = self.
Proof. intros H. unfold cleanup. rewrite H. reflexivity. Qed.

(** X21. [send_request] never leaves its waiter behind.  Whenever the
    request could be encoded and expects a response, no callback is
    registered under its service id when the call is over: after a
    reply, after a timeout, after a refused send and after an exception
    in the send alike.  A waiter that was registered under the same
    service id before the call is gone as well.  A request that cannot
    be encoded raises [ValueError] and leaves the session as it was. *)
Theorem send_request_cleans_up :
  forall (request : Request.UDSRequest) (timeout : option Z)
         (arrivals : list Arrival) (now : time) (self : UDSSessionManager),
    let r := send_request request timeout arrivals now self in
    (forall request_data,
        Request.encode request = Ok request_data ->
        Request.expect_response request = true ->
        dict_get (Request.service_id request) (response_callbacks (snd r))
        = None) /\
    (forall e, Request.encode request = Raise e -> r = (Raise e, self)).
Proof.
  intros request timeout arrivals now self r. subst r. split.
  - intros request_data Henc Hexp. unfold send_request.
    rewrite Henc, Hexp.
    destruct (isotp_send _ _ _) as [[[|] | e] self1].
    + destruct (wait _ _ _ _ _) as [[|] self2].
      * destruct (option_map response_data _) as [[| response rest] |];
          cbn [snd]; apply cleanup_forgets; exact Hexp.
      * cbn [snd]. apply cleanup_forgets. exact Hexp.
    + cbn [snd]. apply cleanup_forgets. exact Hexp.
    + cbn [snd]. apply cleanup_forgets. exact Hexp.
  - intros e Henc. unfold send_request. rewrite Henc. reflexivity.
Qed.

(** What [classify] can bind: a negative response, or service id 0. *)
Lemma classify_shape (data : bytes) (now : time) (s : Z)
    (response : Response.UDSResponse) (note : log_record) :
  classify data now = Ok (Classified s response note) ->
  Response.service_id response = s /\
  (Response.is_negative response = true \/ s = 0).
Proof.
  unfold classify.
  destruct (len data <? 1); [discriminate |].
  destruct (index data 0) as [b0 |]; [| discriminate]. cbn [rbind].
  destruct ((b0 =? UDSResponseCode_value NEGATIVE_RESPONSE)
            && (len data >=? 3)).
  - destruct (index data 1) as [b1 |]; [| discriminate]. cbn [rbind].
    destruct (index data 2) as [b2 |]; [| discriminate]. cbn [rbind].
    destruct (UDSNegativeResponseCode_of b2) as [nrc |]; [| discriminate].
    cbn [rbind]. intros H. injection H as <- <- _.
    split; [reflexivity | left; reflexivity].
  - destruct (b0 =? UDSResponseCode_value POSITIVE_RESPONSE) eqn:E;
      cbn [andb]; [| discriminate].
    destruct (len data >=? 1); [| discriminate].
    intros H. injection H as <- <- _.
    apply Z.eqb_eq in E. cbn [UDSResponseCode_value] in *.
    split; [reflexivity | right; lia].
Qed.

(** What the waiter of a request for service [sid] can hold. *)
Definition holds_negatives (sid : Z) (self : UDSSessionManager) : Prop :=
  forall w,
    dict_get sid (response_callbacks self) = Some w ->
    wanted w = sid /\
    Forall (fun r => Response.is_negative r = true) (response_data w).

Lemma step_holds_negatives (sid : Z) (data : bytes) (now : time)
    (self : UDSSessionManager) :
  sid <> 0 ->
  holds_negatives sid self ->
  holds_negatives sid (response_thread_step data now self).
Proof.
  intros Hsid Hinv. unfold response_thread_step.
  destruct data as [| b rest]; [exact Hinv |].
  unfold _process_response.
  destruct (classify (b :: rest) now) as [[| | s response note] | e] eqn:Ec;
    try exact Hinv.
  cbn [response_callbacks logger set_response_queue].
  destruct (classify_shape _ _ _ _ _ Ec) as [Hs Hkind].
  destruct (dict_get s (response_callbacks self)) as [w0 |] eqn:Ew0;
    [| exact Hinv].
  intros w. cbn [response_callbacks set_response_callbacks].
  destruct (Z.eq_dec sid s) as [<- | Hne].
  - rewrite dict_get_set_same. intros H. injection H as <-.
    destruct (Hinv w0 Ew0) as [Hwant Hall].
    unfold response_callback.
    destruct (Response.service_id response =? wanted w0);
      [| split; assumption].
    cbn [wanted response_data]. split; [exact Hwant |].
    apply Forall_app. split; [exact Hall |].
    constructor; [| constructor].
    destruct Hkind as [Hneg | H0]; [exact Hneg | contradiction].
  - rewrite (dict_get_set_other sid s _ _ Hne). apply Hinv.
Qed.

Lemma wait_holds_negatives (sid timeout : Z) (now : time)
    (arrivals : list Arrival) :
  forall self : UDSSessionManager,
    sid <> 0 ->
    holds_negatives sid self ->
    holds_negatives sid (snd (wait sid timeout now arrivals self)).
Proof.
  induction arrivals as [| a rest IH]; intros self Hsid Hinv; cbn [wait].
  - destruct (dict_get sid (response_callbacks self)) as [w |];
      [destruct (response_received w) |]; exact Hinv.
  - destruct (dict_get sid (response_callbacks self)) as [w |];
      [| exact Hinv].
    destruct (response_received w); [exact Hinv |].
    destruct (at_ms a <? timeout); [| exact Hinv].
    apply IH; [exact Hsid |]. apply step_holds_negatives; assumption.
Qed.

(** X22. No real service ever gets its positive reply.  For a request
    with a service id other than 0 that expects a response, whatever
    arrives and whenever, [send_request] returns either [None] or a
    negative response: the only message [_process_response] takes as
    positive is one that starts with 0x40, and it books that under
    service 0.  What is returned carries the request and the request's
    service id. *)
Theorem send_request_never_returns_positive_reply :
  forall (request : Request.UDSRequest) (timeout : option Z)
         (arrivals : list Arrival) (now : time) (self : UDSSessionManager)
         (response : Response.UDSResponse),
    Request.service_id request <> 0 ->
    Request.expect_response request = true ->
    fst (send_request request timeout arrivals now self)
    = Ok (Some response) ->
    Response.is_negative response = true /\
    Response.is_positive response = false /\
    Response.request response = Some request.
Proof.
  intros request timeout arrivals now self response Hsid Hexp.
  unfold send_request.
  destruct (Request.encode request) as [request_data | e];
    [| discriminate].
  rewrite Hexp.
  destruct (isotp_send _ _ _) as [[[|] | e] self1] eqn:Esend;
    try discriminate.
  assert (Hinv : holds_negatives (Request.service_id request) self1).
  { unfold isotp_send in Esend.
    cbn [isotp logger set_response_callbacks] in Esend.
    intros w Hw.
    assert (Hcb : response_callbacks self1
                  = dict_set (Request.service_id request)
                      (mkWaiter (Request.service_id request) [] false)
                      (response_callbacks self)).
    { destruct (isotp self); injection Esend as _ <-; reflexivity. }
    rewrite Hcb, dict_get_set_same in Hw. injection Hw as <-.
    split; [reflexivity | constructor]. }
  pose proof (wait_holds_negatives (Request.service_id request)
                (effective_timeout request timeout self) now arrivals self1
                Hsid Hinv) as Hinv'.
  destruct (wait _ _ _ _ self1) as [[|] self2]; [| discriminate].
  cbn [snd] in Hinv'.
  destruct (dict_get (Request.service_id request) (response_callbacks self2))
    as [w |] eqn:Ew; cbn [option_map]; [| discriminate].
  destruct (response_data w) as [| first rest] eqn:Ed; [discriminate |].
  cbn [fst]. intros H. injection H as <-.
  destruct (Hinv' w Ew) as [_ Hall]. rewrite Ed in Hall.
  inversion Hall as [| x l Hneg _]; subst.
  unfold Response.is_negative, Response.is_positive, Response.set_request
    in *.
  cbn [Response.response_code Response.request].
  destruct (Response.response_code first); [discriminate Hneg |].
  repeat split.
Qed.

Lemma step_keeps_isotp (data : bytes) (now : time) (self : UDSSessionManager) :
  isotp (response_thread_step data now self) = isotp self.
Proof.
  unfold response_thread_step. destruct data as [| b rest]; [reflexivity |].
  unfold _process_response.
  destruct (classify (b :: rest) now) as [[| | s response note] | e];
    try reflexivity.
  cbn [response_callbacks logger set_response_queue].
  destruct (dict_get s (response_callbacks self)); reflexivity.
Qed.

Lemma wait_keeps_isotp (sid timeout : Z) (now : time)
    (arrivals : list Arrival) :
  forall self : UDSSessionManager,
    isotp (snd (wait sid timeout now arrivals self)) = isotp self.
Proof.
  induction arrivals as [| a rest IH]; intros self; cbn [wait].
  - destruct (dict_get sid (response_callbacks self)) as [w |];
      [destruct (response_received w) |]; reflexivity.
  - destruct (dict_get sid (response_callbacks self)) as [w |];
      [| reflexivity].
    destruct (response_received w); [reflexivity |].
    destruct (at_ms a <? timeout); [| reflexivity].
    rewrite IH. apply step_keeps_isotp.
Qed.

Lemma cleanup_keeps_isotp (request : Request.UDSRequest)
    (self : UDSSessionManager) :
  isotp (cleanup request self) = isotp self.
Proof.
  unfold cleanup. destruct (Request.expect_response request); reflexivity.
Qed.

(** A request that fits a single frame, sent over an idle channel: the
    frame that reaches the transmit queue. *)
Lemma send_request_wire (request : Request.UDSRequest) (timeout : option Z)
    (arrivals : list Arrival) (now : time) (self : UDSSessionManager)
    (p : IsoTp.ISOTPProtocol) (request_data : bytes) :
  Request.encode request = Ok request_data ->
  isotp self = Some p ->
  IsoTp.state p = IsoTp.IDLE ->
  IsoTp.padding_ok (IsoTp.config p) = true ->
  len request_data <= IsoTp.Config.max_frame_size (IsoTp.config p) ->
  len request_data
  <= (if IsoTp.Config.can_fd_enabled (IsoTp.config p) then 63 else 7) ->
  wire (snd (send_request request timeout arrivals now self))
  = wire self
    ++ [IsoTpMore.wire_frame (IsoTp.config p) now
          (len request_data :: request_data)].
Proof.
  intros Henc Hp Hst Hpad Hmax Hshort.
  destruct (send_single_frame_exact p request_data None now Hst Hpad Hmax
              Hshort) as (Hok & _ & Hq & _).
  unfold send_request. rewrite Henc.
  unfold isotp_send.
  assert (Hiso : forall s0,
             isotp (logger (LogDebug "Sending UDS request")
                      (if Request.expect_response request
                       then set_response_callbacks s0 self else self))
             = Some p).
  { intros s0. destruct (Request.expect_response request); exact Hp. }
  rewrite Hiso.
  destruct (IsoTp.send_data request_data None now p) as [res p1].
  cbn [fst snd] in Hok, Hq. subst res.
  unfold wire at 2. rewrite Hp. rewrite <- Hq. cbn [fst snd].
  destruct (Request.expect_response request).
  - destruct (wait _ _ _ _ _) as [[|] self2] eqn:Ew.
    + pose proof (wait_keeps_isotp (Request.service_id request)
                    (effective_timeout request timeout self) now arrivals)
        as Hk.
      match type of Ew with
      | wait _ _ _ _ ?s1 = _ => specialize (Hk s1)
      end.
      rewrite Ew in Hk. cbn [snd isotp set_isotp logger] in Hk.
      destruct (option_map response_data _) as [[| response rest] |];
        cbn [snd]; unfold wire; rewrite cleanup_keeps_isotp, Hk;
        reflexivity.
    + pose proof (wait_keeps_isotp (Request.service_id request)
                    (effective_timeout request timeout self) now arrivals)
        as Hk.
      match type of Ew with
      | wait _ _ _ _ ?s1 = _ => specialize (Hk s1)
      end.
      rewrite Ew in Hk. cbn [snd isotp set_isotp logger] in Hk.
      cbn [snd]. unfold wire. rewrite cleanup_keeps_isotp.
      cbn [isotp logger]. rewrite Hk. reflexivity.
  - cbn [snd]. unfold wire. rewrite cleanup_keeps_isotp. reflexivity.
Qed.

(** X23. A request that expects no response is answered by the tester
    itself.  Once ISO-TP has taken the message, [send_request] returns at
    once a positive response made up on the spot (the request's service
    id, no data, the current time, the request attached); nothing that
    arrives is looked at, and no callback is registered or removed.  For
    a message that fits a single frame, the frame [len, request bytes,
    padding] is on the transmit queue. *)
Theorem unanswered_request_returns_at_once :
  forall (request : Request.UDSRequest) (timeout : option Z)
         (arrivals : list Arrival) (now : time) (self : UDSSessionManager)
         (p : IsoTp.ISOTPProtocol) (request_data : bytes),
    Request.expect_response request = false ->
    Request.encode request = Ok request_data ->
    isotp self = Some p ->
    IsoTp.state p = IsoTp.IDLE ->
    IsoTp.padding_ok (IsoTp.config p) = true ->
    len request_data <= IsoTp.Config.max_frame_size (IsoTp.config p) ->
    len request_data
    <= (if IsoTp.Config.can_fd_enabled (IsoTp.config p) then 63 else 7) ->
    let r := send_request request timeout arrivals now self in
    fst r
    = Ok (Some (Response.mkUDSResponse (Request.service_id request) [] None
                  POSITIVE_RESPONSE None now (Some request))) /\
    wire (snd r)
    = wire self
      ++ [IsoTpMore.wire_frame (IsoTp.config p) now
            (len request_data :: request_data)] /\
    response_callbacks (snd r) = response_callbacks self /\
    response_queue (snd r) = response_queue self /\
    log (snd r) = log self ++ [LogDebug "Sending UDS request"].
Proof.
  intros request timeout arrivals now self p request_data Hexp Henc Hp Hst
         Hpad Hmax Hshort r.
  pose proof (send_request_wire request timeout arrivals now self p
                request_data Henc Hp Hst Hpad Hmax Hshort) as Hwire.
  fold r in Hwire. split; [| split; [exact Hwire |]].
  - subst r. unfold send_request. rewrite Henc, Hexp.
    unfold isotp_send. cbn [isotp logger]. rewrite Hp.
    destruct (send_single_frame_exact p request_data None now Hst Hpad Hmax
                Hshort) as (Hok & _).
    destruct (IsoTp.send_data request_data None now p) as [res p1].
    cbn [fst] in Hok. subst res. reflexivity.
  - subst r. unfold send_request. rewrite Henc, Hexp.
    unfold isotp_send. cbn [isotp logger]. rewrite Hp.
    destruct (send_single_frame_exact p request_data None now Hst Hpad Hmax
                Hshort) as (Hok & _).
    destruct (IsoTp.send_data request_data None now p) as [res p1].
    cbn [fst] in Hok. subst res.
    rewrite cleanup_idle by exact Hexp. repeat split.
Qed.

(** X24. [communication_control] sends its control type twice.  The
    method puts the control type into the request both as sub-function
    and as first data byte, so over an idle classical-CAN channel the
    frame on the wire is [04 28 ct ct comm] and padding: five bytes
    where the service has three.  With a control or communication type
    outside a byte the method raises [ValueError] and nothing is sent. *)
Theorem communication_control_repeats_control_type :
  forall (control_type communication_type : Z) (arrivals : list Arrival)
         (now : time) (self : UDSSessionManager) (p : IsoTp.ISOTPProtocol),
    isotp self = Some p ->
    IsoTp.state p = IsoTp.IDLE ->
    IsoTp.padding_ok (IsoTp.config p) = true ->
    4 <= IsoTp.Config.max_frame_size (IsoTp.config p) ->
    let r :=
      communication_control control_type communication_type arrivals now
        self in
    (0 <= control_type < 256 /\ 0 <= communication_type < 256 ->
     exists f,
       wire (snd r) = wire self ++ [f] /\
       Can.data f
       = [0x04; 0x28; control_type; control_type; communication_type]
         ++ IsoTpMore.padding_for (IsoTp.config p)
              (IsoTp.Config.can_fd_enabled (IsoTp.config p))
              [0x04; 0x28; control_type; control_type; communication_type]) /\
    (is_byte control_type && is_byte communication_type = false ->
     r = (Raise ValueError, self)).
Proof.
  intros control_type communication_type arrivals now self p Hp Hst Hpad
         Hmax r. subst r. unfold communication_control. split.
  - intros [Hct Hcomm].
    rewrite bytes_of_ok
      by (cbn [forallb]; rewrite !is_byte_range by assumption; reflexivity).
    set (request := Request.mkUDSRequest COMMUNICATION_CONTROL
                      [control_type; communication_type]
                      (Some control_type) 2000 true).
    assert (Henc : Request.encode request
                   = Ok [0x28; control_type; control_type;
                         communication_type]).
    { unfold Request.encode, request.
      cbn [Request.subfunction Request.service_id Request.data].
      rewrite bytes_of_ok
        by (cbn [forallb];
            rewrite !is_byte_range
              by first [assumption | unfold COMMUNICATION_CONTROL; lia];
            reflexivity).
      reflexivity. }
    rewrite (send_request_wire request None arrivals now self p _ Henc Hp Hst
               Hpad).
    + eexists. split; [reflexivity |].
      unfold IsoTpMore.wire_frame, IsoTp.outgoing_frame, Can.new.
      rewrite post_init_keeps_payload. reflexivity.
    + unfold len. cbn [List.length]. lia.
    + unfold len. cbn [List.length].
      destruct (IsoTp.Config.can_fd_enabled (IsoTp.config p)); lia.
  - intros Hbad. unfold bytes_of. cbn [forallb].
    rewrite andb_true_r, Hbad. reflexivity.
Qed.


End UdsRequests.

Section UdsSessions.
Import Uds.
Import UdsMore.
Import StrDict.

(** [close] on a session whose keep-alive was never started. *)
Lemma close_without_keep_alive (s : Session) :
  _keep_alive_thread s = None ->
  close s
  = (AttributeError "_keep_alive_thread",
     mkSession (core s) (response_thread_running s) (Some false) None).
Proof.
  intros H. unfold close, stop_keep_alive.
  cbn [_keep_alive_thread core response_thread_running]. rewrite H.
  reflexivity.
Qed.

(** X26. A session that never ran [keep_alive] cannot be closed or
    removed.  [close] starts with [stop_keep_alive], which reads the
    attribute [_keep_alive_thread] that only [keep_alive] creates; on a
    session fresh from [create_session] this raises [AttributeError], so
    [remove_session] is left before anything is deleted: the session
    stays registered with its response thread running and its callbacks
    and queue untouched, and its ISO-TP protocol stays registered too.
    Once [keep_alive] has run on the session, [remove_session] returns
    [True] and both registrations are gone. *)
Theorem fresh_session_cannot_be_removed :
  forall (session_id : string) (isotp_config : IsoTp.Config.ISOTPConfig)
         (m : UDSManager) (s : Session),
    get_session session_id m = None ->
    fst (create_session session_id isotp_config m) = Some s ->
    let m1 := snd (create_session session_id isotp_config m) in
    let r := remove_session session_id m1 in
    get_session session_id m1 = Some s /\
    IsoTpMore.get_protocol session_id (isotp_manager m1) = isotp (core s) /\
    isotp (core s) <> None /\
    fst r = AttributeError "_keep_alive_thread" /\
    isotp_manager (snd r) = isotp_manager m1 /\
    get_session session_id (snd r)
    = Some (mkSession (core s) true (Some false) None) /\
    (NoDup (keys (sessions m)) ->
     NoDup (keys (isotp_manager m)) ->
     let m2 :=
       mkUDSManager (isotp_manager m1)
         (store session_id (keep_alive s) (sessions m1)) in
     fst (remove_session session_id m2) = Returned true /\
     get_session session_id (snd (remove_session session_id m2)) = None /\
     IsoTpMore.get_protocol session_id
       (isotp_manager (snd (remove_session session_id m2))) = None).
Proof.
  intros session_id isotp_config m s Hfresh Hcreated. cbv zeta.
  unfold get_session in Hfresh.
  unfold create_session in *. rewrite Hfresh in *.
  pose proof (create_protocol_registers_core session_id isotp_config
                (isotp_manager m)) as Hreg.
  destruct (IsoTpMore.create_protocol session_id isotp_config
              (isotp_manager m)) as [[p |] im1] eqn:Ecp;
    cbn [fst snd] in *; [| discriminate].
  injection Hcreated as <-.
  destruct Hreg as [Hget Hnd1].
  set (m1 := mkUDSManager im1
               (store session_id (new_session (Some p)) (sessions m))).
  assert (Hs1 : lookup session_id (sessions m1)
                = Some (new_session (Some p))).
  { unfold m1. cbn [sessions]. apply lookup_store_same. }
  assert (Hr : remove_session session_id m1
               = (AttributeError "_keep_alive_thread",
                  mkUDSManager im1
                    (store session_id
                       (mkSession (init (Some p)) true (Some false) None)
                       (sessions m1)))).
  { unfold remove_session. rewrite Hs1.
    rewrite close_without_keep_alive by reflexivity. reflexivity. }
  split; [exact Hs1 |]. split; [exact Hget |].
  split; [discriminate |].
  rewrite Hr. cbn [fst snd isotp_manager].
  split; [reflexivity |]. split; [reflexivity |].
  split; [unfold get_session; cbn [sessions]; apply lookup_store_same |].
  intros Hnds Hndp.
  set (m2 := mkUDSManager (isotp_manager m1)
               (store session_id (keep_alive (new_session (Some p)))
                  (sessions m1))).
  assert (Hs2 : lookup session_id (sessions m2)
                = Some (keep_alive (new_session (Some p)))).
  { unfold m2. cbn [sessions]. apply lookup_store_same. }
  unfold remove_session. rewrite Hs2.
  cbn [close stop_keep_alive keep_alive new_session _keep_alive_thread core
       response_thread_running _keep_alive_running stop_response_thread
       fst snd isotp_manager sessions].
  unfold get_session. unfold m2, m1. cbn [sessions isotp_manager].
  split; [reflexivity |]. split.
  - apply lookup_delete_same.
    do 2 apply keys_store_nodup. exact Hnds.
  - unfold IsoTpMore.remove_protocol, IsoTpMore.get_protocol in *.
    rewrite Hget. cbn [snd].
    apply lookup_delete_same. exact (Hnd1 Hndp).
Qed.

End UdsSessions.

(** ** UDS: the further theorems on sample exchanges *)

Section MoreSampleExchanges.
Import Uds.
Import UdsMore.
Import Samples.
Import MoreSamples.

Lemma send_request_cleans_up_witness :
  dict_get 0x22
    (response_callbacks
       (snd (send_request rdbi_request None [mkArrival 10 vin_reply] 0
               session))) = None.
Proof.
  destruct (send_request_cleans_up rdbi_request None
              [mkArrival 10 vin_reply] 0 session) as [Hclean _].
  apply (Hclean [0x22; 0xF1; 0x81]); reflexivity.
Defined.

(** After the timed-out read of the VIN no waiter is left for service
    0x22. *)
Example waiter_removed_after_timeout :
  let r := send_request rdbi_request None [mkArrival 10 vin_reply] 0 session in
  fst r = Ok None /\
  dict_get 0x22 (response_callbacks (snd r)) = None.
Proof. split; reflexivity. Qed.

Lemma send_request_never_returns_positive_reply_witness :
  Response.is_negative
    (Response.set_request routine_request (pending_response 0x31 900))
  = true /\
  Response.is_positive
    (Response.set_request routine_request (pending_response 0x31 900))
  = false /\
  Response.request
    (Response.set_request routine_request (pending_response 0x31 900))
  = Some routine_request.
Proof.
  apply (send_request_never_returns_positive_reply routine_request None
           pending_then_final 0 session);
    [discriminate | reflexivity | reflexivity].
Defined.

Lemma unanswered_request_returns_at_once_witness :
  fst (tester_present true [mkArrival 5 [0x7E; 0x00]] 0 session)
  = Ok (Some (Response.mkUDSResponse 0x3E [] None POSITIVE_RESPONSE None 0
                (Some quiet_tester_present))) /\
  map Can.data (wire (snd (tester_present true [mkArrival 5 [0x7E; 0x00]] 0
                             session)))
  = [[0x02; 0x3E; 0x80; 0xCC; 0xCC; 0xCC; 0xCC; 0xCC]].
Proof.
  destruct (unanswered_request_returns_at_once quiet_tester_present None
              [mkArrival 5 [0x7E; 0x00]] 0 session idle [0x3E; 0x80])
    as (Hr & Hw & _);
    [ vm_compute; first [reflexivity | discriminate] ..
    | split; [exact Hr | unfold tester_present; cbn [negb];
                         fold quiet_tester_present; rewrite Hw;
                         reflexivity] ].
Defined.

(** With the response expected, the same service times out on its real
    positive reply [7E 00]. *)
Example tester_present_times_out :
  fst (tester_present false [mkArrival 5 [0x7E; 0x00]] 0 session) = Ok None.
Proof. reflexivity. Qed.

Lemma communication_control_repeats_control_type_witness :
  map Can.data (wire (snd (communication_control 0x03 0x01 [] 0 session)))
  = [[0x04; 0x28; 0x03; 0x03; 0x01; 0xCC; 0xCC; 0xCC]].
Proof.
  destruct (communication_control_repeats_control_type 0x03 0x01 [] 0
              session idle) as [Hwire _];
    [ vm_compute; first [reflexivity | discriminate] .. |].
  destruct Hwire as [f [Hq Hd]]; [lia |].
  rewrite Hq. cbn [wire session Uds.init isotp map app IsoTp.tx_queue idle
                   IsoTp.init]. rewrite Hd. reflexivity.
Defined.


(** A negative response with a code that is no member of the enumeration,
    here 0x79, is dropped: the caller gets nothing. *)
Example unknown_code_times_out :
  let r := send_request rdbi_request None [mkArrival 10 [0x7F; 0x22; 0x79]] 0
             session in
  fst r = Ok None /\
  log (snd r) = [LogDebug "Sending UDS request";
                 LogError "Error processing response";
                 LogWarning "Timeout waiting for response"].
Proof. split; reflexivity. Qed.

Lemma fresh_session_cannot_be_removed_witness :
  fst (remove_session "uds"
         (snd (create_session "uds" IsoTp.Config.default no_sessions)))
  = AttributeError "_keep_alive_thread" /\
  get_session "uds"
    (snd (remove_session "uds"
            (snd (create_session "uds" IsoTp.Config.default no_sessions))))
  = Some (mkSession (Uds.init (Some idle)) true (Some false) None).
Proof.
  destruct (fresh_session_cannot_be_removed "uds" IsoTp.Config.default
              no_sessions (new_session (Some idle)) eq_refl eq_refl)
    as (_ & _ & _ & Hr & _ & Hs & _).
  split; [exact Hr | exact Hs].
Defined.

End MoreSampleExchanges.

(** ** Projects: editing the commands of a group *)

Section ProjectEditing.
Import Project.
Import ProjectMore.
Import StrDict.

Lemma set_commands_same (g : Group.CommandGroup) :
  Group.set_commands (Group.commands g) g = g.
Proof. destruct g. reflexivity. Qed.

Lemma set_groups_same (p : Proj.CommandProject) :
  Proj.set_groups (Proj.groups p) p = p.
Proof. destruct p. reflexivity. Qed.

Lemma pop_first_spec (command_id : string) (commands : list Cmd.Command) :
  match find (has_id command_id) commands with
  | Some c =>
      exists before after,
        commands = before ++ c :: after /\
        Cmd.id c = command_id /\
        (forall x, In x before -> Cmd.id x <> command_id) /\
        pop_first command_id commands = Some (before ++ after)
  | None => pop_first command_id commands = None
  end.
Proof.
  induction commands as [| c rest IH]; [reflexivity |].
  cbn [find pop_first]. destruct (has_id command_id c) eqn:E.
  - exists [], rest. unfold has_id in E. apply String.eqb_eq in E.
    repeat split; [exact E | intros x []].
  - assert (Hne : Cmd.id c <> command_id)
      by (unfold has_id in E; apply String.eqb_neq in E; exact E).
    destruct (find (has_id command_id) rest) as [c' |].
    + destruct IH as (before & after & Hsplit & Hid & Hbefore & Hpop).
      exists (c :: before), after. rewrite Hpop, Hsplit.
      repeat split; [exact Hid |].
      intros x [<- | Hin]; [exact Hne | exact (Hbefore x Hin)].
    + rewrite IH. reflexivity.
Qed.

Lemma find_append {A : Type} (f : A -> bool) (l1 l2 : list A) :
  find f (l1 ++ l2)
  = match find f l1 with
    | Some x => Some x
    | None => find f l2
    end.
Proof.
  induction l1 as [| a l1 IH]; [reflexivity |].
  cbn [app find]. destruct (f a); [reflexivity | exact IH].
Qed.

Lemma find_other_app (k : string) (before after : list Cmd.Command)
    (c : Cmd.Command) :
  Cmd.id c <> k ->
  find (has_id k) (before ++ c :: after) = find (has_id k) (before ++ after).
Proof.
  intros Hne. induction before as [| b before IH]; cbn [app find].
  - unfold has_id at 1.
    destruct (String.eqb_spec (Cmd.id c) k); [contradiction | reflexivity].
  - destruct (has_id k b); [reflexivity | exact IH].
Qed.

Lemma find_none_of_ids (k : string) (commands : list Cmd.Command) :
  ~ In k (map Cmd.id commands) -> find (has_id k) commands = None.
Proof.
  induction commands as [| c rest IH]; [reflexivity |].
  cbn [map In find]. intros Hnot. unfold has_id at 1.
  destruct (String.eqb_spec (Cmd.id c) k) as [E | Hne]; [tauto |].
  apply IH. tauto.
Qed.

(** X27. [CommandGroup.remove_command] removes the first command with
    the id and nothing else.  It returns [True] exactly when
    [get_command] finds the id; the command taken out is the one
    [get_command] returns, every command before it has another id, and
    the others keep their order.  Lookups under other ids are not
    affected.  With unique ids the id is gone afterwards; a second
    command with the same id, which [add_command] does not prevent,
    would stay. *)
Theorem remove_command_removes_first_match :
  forall (command_id : string) (g : Group.CommandGroup),
    let r := remove_command command_id g in
    (fst r = true <-> get_command command_id g <> None) /\
    (fst r = false -> snd r = g) /\
    (forall c,
        get_command command_id g = Some c ->
        exists before after,
          Group.commands g = before ++ c :: after /\
          (forall x, In x before -> Cmd.id x <> command_id) /\
          Group.commands (snd r) = before ++ after) /\
    (forall other,
        other <> command_id ->
        get_command other (snd r) = get_command other g) /\
    (NoDup (command_ids g) -> get_command command_id (snd r) = None) /\
    (forall c,
        get_command command_id (add_command c g)
        = match get_command command_id g with
          | Some found => Some found
          | None => if has_id command_id c then Some c else None
          end).
Proof.
  intros command_id g r. subst r. unfold remove_command, get_command.
  pose proof (pop_first_spec command_id (Group.commands g)) as Hspec.
  destruct (find (has_id command_id) (Group.commands g)) as [c |] eqn:Ef.
  - destruct Hspec as (before & after & Hsplit & Hid & Hbefore & Hpop).
    rewrite Hpop. cbn [fst snd Group.commands Group.set_commands].
    split; [split; [discriminate | reflexivity] |].
    split; [discriminate |].
    split; [| split; [| split]].
    + intros c' Hc'. injection Hc' as <-.
      exists before, after. repeat split; assumption.
    + intros other Hne. rewrite Hsplit.
      symmetry. apply find_other_app. congruence.
    + intros Hnd. apply find_none_of_ids.
      unfold command_ids in Hnd. rewrite Hsplit in Hnd.
      rewrite map_app in Hnd. cbn [map] in Hnd.
      apply NoDup_remove_2 in Hnd. rewrite map_app. rewrite <- Hid.
      exact Hnd.
    + intros c'. unfold add_command.
      cbn [Group.commands Group.set_commands].
      rewrite find_append, Ef. reflexivity.
  - rewrite Hspec. cbn [fst snd].
    split; [split; [discriminate | intros H; contradiction H; reflexivity] |].
    split; [reflexivity |].
    split; [intros c Hc; discriminate Hc |].
    split; [reflexivity |].
    split; [intros _; exact Ef |].
    intros c'. unfold add_command.
    cbn [Group.commands Group.set_commands].
    rewrite find_append, Ef. cbn [find].
    destruct (has_id command_id c'); reflexivity.
Qed.

Lemma existsb_find (k : string) (commands : list Cmd.Command) :
  existsb (has_id k) commands
  = match find (has_id k) commands with
    | Some _ => true
    | None => false
    end.
Proof.
  induction commands as [| c rest IH]; [reflexivity |].
  cbn [existsb find]. destruct (has_id k c); [reflexivity | exact IH].
Qed.

Lemma pop_first_fresh (c : Cmd.Command) (commands : list Cmd.Command) :
  find (has_id (Cmd.id c)) commands = None ->
  pop_first (Cmd.id c) (commands ++ [c]) = Some commands.
Proof.
  induction commands as [| x rest IH]; cbn [find app pop_first].
  - intros _. unfold has_id. rewrite String.eqb_refl. reflexivity.
  - destruct (has_id (Cmd.id c) x); [discriminate |].
    intros H. rewrite (IH H). reflexivity.
Qed.

Lemma get_group_update (group_id : string)
    (f : Group.CommandGroup -> Group.CommandGroup)
    (groups : list Group.CommandGroup) (group : Group.CommandGroup) :
  find (fun g => String.eqb (Group.id g) group_id) groups = Some group ->
  Group.id (f group) = Group.id group ->
  find (fun g => String.eqb (Group.id g) group_id)
    (update_group group_id f groups) = Some (f group).
Proof.
  intros Hfind Hid. induction groups as [| g rest IH]; [discriminate |].
  cbn [find update_group] in *.
  destruct (String.eqb (Group.id g) group_id) eqn:E.
  - injection Hfind as ->. cbn [find]. rewrite Hid, E. reflexivity.
  - cbn [find]. rewrite E. exact (IH Hfind).
Qed.

Lemma update_group_back (group_id : string)
    (f : Group.CommandGroup -> Group.CommandGroup)
    (groups : list Group.CommandGroup) (group : Group.CommandGroup) :
  find (fun g => String.eqb (Group.id g) group_id) groups = Some group ->
  Group.id (f group) = Group.id group ->
  update_group group_id (fun _ => group) (update_group group_id f groups)
  = groups.
Proof.
  intros Hfind Hid. induction groups as [| g rest IH]; [reflexivity |].
  cbn [find update_group] in *.
  destruct (String.eqb (Group.id g) group_id) eqn:E.
  - injection Hfind as ->. cbn [update_group]. rewrite Hid, E. reflexivity.
  - cbn [update_group]. rewrite E, (IH Hfind). reflexivity.
Qed.

Lemma nodup_ids_add (c : Cmd.Command) (g : Group.CommandGroup) :
  get_command (Cmd.id c) g = None ->
  NoDup (command_ids g) -> NoDup (command_ids (add_command c g)).
Proof.
  unfold get_command, command_ids, add_command.
  cbn [Group.commands Group.set_commands]. intros Hfresh Hnd.
  rewrite map_app. cbn [map].
  apply NoDup_app; [exact Hnd | repeat constructor; intros [] |].
  intros x Hin [<- | []].
  apply in_map_iff in Hin. destruct Hin as [c' [Hid Hin]].
  pose proof (find_none _ _ Hfresh c' Hin) as Hc'.
  unfold has_id in Hc'. rewrite Hid, String.eqb_refl in Hc'.
  discriminate Hc'.
Qed.

(** X28. [create_command] and [delete_command] of the project manager.
    In a group that exists, [create_command] succeeds exactly when no
    command of the group has the new command's id; a refused call
    changes nothing.  A successful call appends the command to the
    group, stamps the project with the current time, keeps the ids of
    the group unique, and makes a second creation under the same id
    fail.  [delete_command] under that id then gives back the group as
    it was: the project differs from the original only in [updated_at],
    which [delete_command] does not touch. *)
Theorem created_command_can_be_deleted :
  forall (project_id group_id : string) (command : Cmd.Command)
         (now : time) (self : CommandProjectManager)
         (project : Proj.CommandProject) (group : Group.CommandGroup),
    get_project project_id self = Some project ->
    get_group group_id project = Some group ->
    let r := create_command project_id group_id command now self in
    (fst r = true <-> get_command (Cmd.id command) group = None) /\
    (fst r = false -> snd r = self) /\
    (fst r = true ->
     (exists project',
         get_project project_id (snd r) = Some project' /\
         Proj.updated_at project' = now /\
         get_group group_id project' = Some (add_command command group)) /\
     get_command (Cmd.id command) (add_command command group)
     = Some command /\
     (NoDup (command_ids group) ->
      NoDup (command_ids (add_command command group))) /\
     (forall later : time,
         create_command project_id group_id command later (snd r)
         = (false, snd r)) /\
     delete_command project_id group_id (Cmd.id command) (snd r)
     = (true,
        mkCommandProjectManager
          (store project_id (Proj.set_updated_at now project)
             (projects self))
          (current_project_id self))).
Proof.
  intros project_id group_id command now self project group Hproj Hgroup r.
  subst r. unfold create_command. rewrite Hproj, Hgroup.
  rewrite existsb_find. unfold get_command.
  destruct (find (has_id (Cmd.id command)) (Group.commands group))
    as [old |] eqn:Efind; cbn [fst snd].
  - split; [split; discriminate |]. split; [reflexivity | discriminate].
  - split; [split; reflexivity |]. split; [discriminate |]. intros _.
    set (groups1 := update_group group_id (add_command command)
                      (Proj.groups project)).
    set (project1 := Proj.set_updated_at now
                       (Proj.set_groups groups1 project)).
    set (self1 := mkCommandProjectManager
                    (store project_id project1 (projects self))
                    (current_project_id self)).
    assert (Hproj1 : get_project project_id self1 = Some project1).
    { unfold get_project, self1. cbn [projects]. apply lookup_store_same. }
    assert (Hgroup1 : get_group group_id project1
                      = Some (add_command command group)).
    { unfold get_group, project1.
      cbn [Proj.groups Proj.set_updated_at Proj.set_groups].
      apply get_group_update; [exact Hgroup | reflexivity]. }
    assert (Hfound : find (has_id (Cmd.id command))
                       (Group.commands (add_command command group))
                     = Some command).
    { unfold add_command. cbn [Group.commands Group.set_commands].
      rewrite find_append, Efind. cbn [find]. unfold has_id.
      rewrite String.eqb_refl. reflexivity. }
    split; [| split; [exact Hfound | split; [| split]]].
    + exists project1. repeat split; assumption.
    + apply nodup_ids_add. exact Efind.
    + intros later. unfold create_command. rewrite Hproj1, Hgroup1.
      rewrite existsb_find, Hfound. reflexivity.
    + unfold delete_command. rewrite Hproj1, Hgroup1.
      unfold remove_command.
      assert (Hpop : pop_first (Cmd.id command)
                       (Group.commands (add_command command group))
                     = Some (Group.commands group)).
      { unfold add_command. cbn [Group.commands Group.set_commands].
        apply pop_first_fresh. exact Efind. }
      rewrite Hpop. cbn [fst snd].
      assert (Hback : Group.set_commands (Group.commands group)
                        (add_command command group) = group)
        by (destruct group; reflexivity).
      rewrite Hback.
      unfold self1. cbn [projects current_project_id]. rewrite store_store.
      unfold project1, groups1.
      cbn [Proj.groups Proj.set_updated_at Proj.set_groups].
      rewrite (update_group_back group_id (add_command command)
                 (Proj.groups project) group Hgroup eq_refl).
      destruct project; reflexivity.
Qed.

End ProjectEditing.

(** ** Executor: the statistics of the commands, and a stop *)

Section ExecutorBookkeeping.
Import Project.
Import Executor.
Import ExecutorMore.

Lemma advanced_refl (c : Cmd.Command) : advanced c c.
Proof. unfold advanced. repeat split; try reflexivity; lia. Qed.

Lemma advanced_trans (a b c : Cmd.Command) :
  advanced a b -> advanced b c -> advanced a c.
Proof.
  unfold advanced.
  intros (A1 & A2 & A3 & A4 & A5 & A6 & A7 & A8 & A9 & A10 & A11 & A12 & A13
          & A14 & A15)
         (B1 & B2 & B3 & B4 & B5 & B6 & B7 & B8 & B9 & B10 & B11 & B12 & B13
          & B14 & B15).
  repeat split; try congruence; try lia.
  intros Hd. rewrite B15 by congruence. apply A15. exact Hd.
Qed.

Lemma advanced_record (success : bool) (now : time) (c : Cmd.Command) :
  Cmd.enabled c = true -> advanced c (record_result success now c).
Proof.
  intros Hen. unfold advanced, record_result.
  cbn [Cmd.id Cmd.name Cmd.command_type Cmd.send_mode Cmd.period Cmd.enabled
       Cmd.can_frame Cmd.uds_command Cmd.wait_command Cmd.comment_command
       Cmd.script_command Cmd.success_count Cmd.fail_count
       Cmd.execution_count].
  destruct success; repeat split; try lia; congruence.
Qed.

Lemma forall2_advanced_refl (l : list Cmd.Command) : Forall2 advanced l l.
Proof. induction l; constructor; [apply advanced_refl | assumption]. Qed.

Lemma forall2_advanced_trans (l1 l2 l3 : list Cmd.Command) :
  Forall2 advanced l1 l2 -> Forall2 advanced l2 l3 -> Forall2 advanced l1 l3.
Proof.
  intros H12. revert l3.
  induction H12 as [| a b l1 l2 Hab _ IH]; intros l3 H23.
  - inversion H23. constructor.
  - inversion H23 as [| b' c l2' l3' Hbc Hrest]; subst.
    constructor; [exact (advanced_trans a b c Hab Hbc) | exact (IH _ Hrest)].
Qed.

(** One pass over the commands of a group. *)
Lemma run_commands_advanced (w : World) (now : time) :
  forall (commands : list Cmd.Command) (self : CommandExecutor),
    Forall2 advanced commands (value (run_commands w now commands self)).
Proof.
  induction commands as [| c rest IH]; intros self.
  - constructor.
  - cbn [run_commands].
    destruct (Cmd.enabled c) eqn:Hen; cbn [negb].
    + rewrite bind_value.
      destruct (value (poll_stop w self)).
      * rewrite bind_value. cbn [value ret fst].
        constructor; [apply advanced_refl | apply IH].
      * repeat rewrite ?bind_value, ?bind_state.
        match goal with
        | |- context [record_result ?b now c] =>
            pose proof (advanced_record b now c Hen) as Hrec;
            set (c' := record_result b now c) in *
        end.
        match goal with
        | |- context [if value (poll_stop w ?s) then _ else _] =>
            destruct (value (poll_stop w s))
        end.
        -- cbn [value ret fst].
           constructor; [exact Hrec | apply forall2_advanced_refl].
        -- rewrite bind_value. cbn [value ret fst].
           constructor; [exact Hrec | apply IH].
    + rewrite bind_value. cbn [value ret fst].
      constructor; [apply advanced_refl | apply IH].
Qed.

Lemma group_loop_advanced (w : World) (now : time) :
  forall (fuel : nat) (group : Group.CommandGroup) (rc : Z)
         (self : CommandExecutor),
    let group' := group_of (value (group_loop fuel w now group rc self)) in
    Forall2 advanced (Group.commands group) (Group.commands group') /\
    Group.id group' = Group.id group /\
    Group.repeat_count group' = Group.repeat_count group.
Proof.
  induction fuel as [| fuel IH]; intros group rc self group'; subst group'.
  - cbn [group_loop].
    destruct ((rc <? Group.repeat_count group)
              || (Group.repeat_count group =? 0));
      cbn [value ret fst group_of];
      repeat split; apply forall2_advanced_refl.
  - cbn [group_loop].
    destruct ((rc <? Group.repeat_count group)
              || (Group.repeat_count group =? 0));
      [| cbn [value ret fst group_of];
         repeat split; apply forall2_advanced_refl].
    rewrite bind_value.
    destruct (value (poll_stop w self));
      [cbn [value ret fst group_of];
       repeat split; apply forall2_advanced_refl |].
    rewrite bind_value.
    set (s1 := snd (poll_stop w self)).
    pose proof (run_commands_advanced w now (Group.commands group) s1)
      as Hpass.
    set (commands' := value (run_commands w now (Group.commands group) s1))
      in *.
    destruct ((Group.repeat_count group >? 0)
              && (rc + 1 >=? Group.repeat_count group)).
    + cbn [value ret fst group_of Group.commands Group.set_commands
           Group.id Group.repeat_count].
      repeat split. exact Hpass.
    + match goal with
      | |- context [group_loop fuel w now ?g ?r ?s] =>
          destruct (IH g r s) as (H1 & H2 & H3)
      end.
      cbn [Group.commands Group.set_commands Group.id Group.repeat_count]
        in H1, H2, H3.
      repeat split; try assumption.
      exact (forall2_advanced_trans _ _ _ Hpass H1).
Qed.

(** X29. The statistics of a group stay consistent through
    [_execute_group], however long the loop runs and whenever it is
    stopped.  Command by command, the group holds afterwards the same
    commands in the same order, with id, settings and payload
    unchanged; the counters never go down, and the increase of
    [execution_count] equals the increase of [success_count] plus the
    increase of [fail_count]: every attempt is counted once, as a
    success or as a failure.  A disabled command is not touched at
    all. *)
Theorem group_statistics_stay_consistent :
  forall (fuel : nat) (w : World) (now : time) (group : Group.CommandGroup)
         (self : CommandExecutor),
    let group' := group_of (value (_execute_group fuel w now group self)) in
    Forall2 advanced (Group.commands group) (Group.commands group') /\
    List.length (Group.commands group')
    = List.length (Group.commands group) /\
    map Cmd.id (Group.commands group') = map Cmd.id (Group.commands group) /\
    (Forall (fun c => Cmd.execution_count c
                      = Cmd.success_count c + Cmd.fail_count c)
       (Group.commands group) ->
     Forall (fun c => Cmd.execution_count c
                      = Cmd.success_count c + Cmd.fail_count c)
       (Group.commands group')).
Proof.
  intros fuel w now group self group'. subst group'.
  unfold _execute_group.
  destruct (group_loop_advanced w now fuel group 0 self) as [Hadv _].
  set (after := Group.commands
                  (group_of (value (group_loop fuel w now group 0 self))))
    in *.
  clearbody after.
  split; [exact Hadv |].
  induction Hadv as [| c c' l l' Hc _ IH].
  - repeat split. intros _. constructor.
  - destruct IH as (Hlen & Hids & Hcount).
    cbn [List.length map]. rewrite Hlen, Hids.
    destruct Hc as (Hid & _ & _ & _ & _ & _ & _ & _ & _ & _ & _ & Hs & Hf
                    & Hsum & _).
    rewrite Hid. repeat split.
    intros Hall. inversion Hall as [| x xs Hx Hxs]; subst.
    constructor; [lia | exact (Hcount Hxs)].
Qed.

Lemma poll_stop_always (w : World) (self : CommandExecutor) :
  always_stopped w ->
  value (poll_stop w self) = true /\ events (poll_stop w self) = [].
Proof.
  intros H. unfold poll_stop, value, events. cbn. rewrite H.
  split; reflexivity.
Qed.

Lemma run_groups_stopped (w : World) (now : time) (fuel : nat) :
  always_stopped w ->
  forall (groups : list Group.CommandGroup) (self : CommandExecutor),
    value (run_groups fuel w now groups self) = Some groups /\
    events (run_groups fuel w now groups self) = [] /\
    hooks (snd (run_groups fuel w now groups self)) = hooks self /\
    periodic_threads (snd (run_groups fuel w now groups self))
    = periodic_threads self /\
    calls (snd (run_groups fuel w now groups self)) = calls self.
Proof.
  intros Hstop. induction groups as [| g rest IH]; intros self.
  - repeat split.
  - cbn [run_groups].
    destruct (Group.enabled g); cbn [negb].
    + rewrite bind_value, bind_events, bind_state.
      destruct (poll_stop_always w self Hstop) as [Hv He]. rewrite Hv, He.
      rewrite bind_value, bind_events, bind_state.
      destruct (IH (snd (poll_stop w self))) as (H1 & H2 & H3 & H4 & H5).
      rewrite H1, H2. cbn [value events ret fst snd option_map app].
      repeat split; assumption.
    + rewrite bind_value, bind_events, bind_state.
      destruct (IH self) as (H1 & H2 & H3 & H4 & H5).
      rewrite H1, H2. cbn [value events ret fst snd option_map app].
      repeat split; assumption.
Qed.

(** X30. A project started with the stop event already set runs
    nothing.  However many groups and commands it has and whatever
    their repeat counts, [_execute_project] enters no command, sends
    no frame and no request, starts no periodic thread and does not
    sleep: the only thing that can be observed is the
    [on_project_completed] callback, if one is set.  The project comes
    back with [updated_at] stamped and every command's statistics as
    they were, and the executor is no longer running. *)
Theorem stopped_project_runs_nothing :
  forall (w : World) (fuel : nat) (now : time)
         (project : Proj.CommandProject) (self : CommandExecutor),
    always_stopped w ->
    let r := _execute_project fuel w now project self in
    value r = Some (Proj.set_updated_at now project) /\
    events r
    = (if on_project_completed (hooks self)
       then [Hook "on_project_completed" (Proj.id project)] else []) /\
    running (snd r) = false /\
    periodic_threads (snd r) = periodic_threads self /\
    calls (snd r) = calls self.
Proof.
  intros w fuel now project self Hstop r. subst r.
  unfold _execute_project.
  rewrite bind_value, bind_events, bind_state.
  destruct (run_groups_stopped w now fuel Hstop
              (Proj.groups (Proj.set_updated_at now project)) self)
    as (H1 & H2 & H3 & H4 & H5).
  rewrite H1, H2.
  set (s1 := snd (run_groups fuel w now
                    (Proj.groups (Proj.set_updated_at now project)) self))
    in *.
  unfold set_running, hook, bind, get, ret, emit, value, events.
  cbn [fst snd hooks running periodic_threads calls app].
  rewrite H3.
  destruct (on_project_completed (hooks self));
    cbn [fst snd running periodic_threads calls app];
    (split; [destruct project; reflexivity |]);
    repeat split; assumption.
Qed.

End ExecutorBookkeeping.

(** ** Projects and executor: the further theorems on sample inputs *)

Section MoreSampleProjects.
Import Project.
Import ProjectMore.
Import Executor.
Import ExecutorMore.
Import Samples.
Import MoreSamples.

Lemma remove_command_removes_first_match_witness :
  fst (remove_command "c1" group_forever) = true /\
  command_ids (snd (remove_command "c1" group_forever)) = ["w1"%string] /\
  get_command "c1" (snd (remove_command "c1" group_forever)) = None.
Proof.
  destruct (remove_command_removes_first_match "c1" group_forever)
    as (Hiff & _ & Hsplit & _ & Hgone & _).
  split; [apply Hiff; discriminate |].
  split; [reflexivity |].
  apply Hgone. repeat constructor; cbn; intuition discriminate.
Defined.

(** Of two commands with the same id only the first is removed. *)
Example second_command_with_the_id_stays :
  let g := add_command comment_cmd (add_command wait_cmd group_twice) in
  command_ids g = ["c1"; "w1"; "c1"]%string /\
  fst (remove_command "c1" g) = true /\
  command_ids (snd (remove_command "c1" g)) = ["w1"; "c1"]%string /\
  get_command "c1" (snd (remove_command "c1" g)) = Some comment_cmd.
Proof. repeat split. Qed.

Lemma created_command_can_be_deleted_witness :
  fst (create_command "p1" "g1" wait_cmd 7 manager) = true /\
  fst (create_command "p1" "g1" wait_cmd 8
         (snd (create_command "p1" "g1" wait_cmd 7 manager))) = false /\
  delete_command "p1" "g1" "w1"
    (snd (create_command "p1" "g1" wait_cmd 7 manager))
  = (true,
     mkCommandProjectManager
       [("p1"%string, Proj.set_updated_at 7 project_twice)]
       (Some "p1"%string)).
Proof.
  destruct (created_command_can_be_deleted "p1" "g1" wait_cmd 7 manager
              project_twice group_twice eq_refl eq_refl)
    as (Hiff & _ & Hok).
  assert (Hcreated : fst (create_command "p1" "g1" wait_cmd 7 manager) = true)
    by (apply Hiff; reflexivity).
  destruct (Hok Hcreated) as (_ & _ & _ & Hagain & Hdel).
  split; [exact Hcreated |]. split; [rewrite Hagain; reflexivity |].
  exact Hdel.
Defined.

(** A command that is already in the group is refused. *)
Example duplicate_command_refused :
  create_command "p1" "g1" comment_cmd 7 manager = (false, manager).
Proof. reflexivity. Qed.

Lemma group_statistics_stay_consistent_witness :
  Forall (fun c => Cmd.execution_count c
                   = Cmd.success_count c + Cmd.fail_count c)
    (Group.commands
       (group_of (value (_execute_group 5 quiet_world 0 group_forever
                           (Executor.init false))))).
Proof.
  destruct (group_statistics_stay_consistent 5 quiet_world 0 group_forever
              (Executor.init false)) as (_ & _ & _ & Hcount).
  apply Hcount. repeat constructor.
Defined.

(** The group that repeats for ever, looked at after five passes: both
    commands were run five times. *)
Example endless_group_counted :
  map (fun c => (Cmd.execution_count c, Cmd.success_count c,
                 Cmd.fail_count c))
    (Group.commands
       (group_of (value (_execute_group 5 quiet_world 0 group_forever
                           (Executor.init false)))))
  = [(5, 5, 0); (5, 5, 0)].
Proof. reflexivity. Qed.

(** Two passes over the demo group: the comment command was run twice
    and succeeded twice. *)
Example demo_group_counted :
  map (fun c => (Cmd.execution_count c, Cmd.success_count c,
                 Cmd.fail_count c))
    (Group.commands
       (group_of (value (_execute_group 5 quiet_world 0 group_twice
                           (Executor.init false)))))
  = [(2, 2, 0)].
Proof. reflexivity. Qed.

Lemma stopped_project_runs_nothing_witness :
  value (_execute_project 5 stopped_world 3 project_twice
           (Executor.init false))
  = Some (Proj.set_updated_at 3 project_twice) /\
  events (_execute_project 5 stopped_world 3 project_twice
            (Executor.init false)) = [].
Proof.
  destruct (stopped_project_runs_nothing stopped_world 5 3 project_twice
              (Executor.init false)) as (Hv & He & _).
  - intros k. reflexivity.
  - split; [exact Hv | exact He].
Defined.

End MoreSampleProjects.
